(** * Sandbox SDK (python_sdk/sandbox_sdk.py): a shallow embedding

    The client library is embedded function by function.  Python values that
    the code treats dynamically (the JSON bodies returned by the server, the
    raw result payloads) are values of [pyval]; Python floats (wall-clock
    readings, response times) are idealised as exact rationals [Q]; the
    outside world (the clock behind [time.time()], the HTTP transport behind
    [requests.request], the generator behind [uuid.uuid4]) is an explicit
    component of the state that every effectful function threads.  Python
    exceptions are the [Raise] outcome of a computation and never roll the
    state back.  Of [requests] itself one check is embedded, because it
    decides whether a request goes out at all: a timeout that is not positive
    is refused with a [ValueError] before anything is sent.  The embedding
    covers the bodies of the classes and of their methods; the logger and the
    background metrics timer, which only read the state, are left out. *)

From Stdlib Require Import ZArith QArith Qround Lia Lqa List String Ascii.
From stdpp Require Import base decidable option list strings gmap pretty.

#[local] Open Scope Z_scope.
Set Warnings "-register-all".

(** ** JSON values as Python sees them *)

(** What [response.json()] can return, numbers being integers.  A [PDict]
    keeps its items in insertion order, as a Python [dict] does. *)
Inductive pyval : Type :=
| PNone
| PBool (b : bool)
| PInt (z : Z)
| PStr (s : string)
| PList (l : list pyval)
| PDict (d : list (string * pyval)).

(** A [dict] with string keys: its items in insertion order.  Python keeps the
    keys of a dict distinct; [dict_wf] says so. *)
Abbreviation dict := (list (string * pyval)).

Definition dict_wf (d : dict) : Prop := NoDup (fst <$> d).

(** [bool(v)]: [None], [False], [0], [""], [[]] and [{}] are falsy. *)
Definition truthy (v : pyval) : bool :=
  match v with
  | PNone => false
  | PBool b => b
  | PInt z => negb (z =? 0)
  | PStr s => match s with EmptyString => false | String _ _ => true end
  | PList l => match l with [] => false | _ :: _ => true end
  | PDict d => match d with [] => false | _ :: _ => true end
  end.

(** [type(v).__name__], as it appears in the interpreter's error messages. *)
Definition type_name (v : pyval) : string :=
  match v with
  | PNone => "NoneType"
  | PBool _ => "bool"
  | PInt _ => "int"
  | PStr _ => "str"
  | PList _ => "list"
  | PDict _ => "dict"
  end.

(** [d.get(k)] on a dict: the value of the item with key [k]. *)
Fixpoint dict_lookup (d : dict) (k : string) : option pyval :=
  match d with
  | [] => None
  | (k', v) :: rest => if String.eqb k' k then Some v else dict_lookup rest k
  end.

(** [d.get(k, dflt)]. *)
Definition dict_get (d : dict) (k : string) (dflt : pyval) : pyval :=
  default dflt (dict_lookup d k).

(** [d[k] = v]: an existing key keeps its position, a new one goes last. *)
Fixpoint dict_set (d : dict) (k : string) (v : pyval) : dict :=
  match d with
  | [] => [(k, v)]
  | (k', v') :: rest =>
      if String.eqb k' k then (k', v) :: rest else (k', v') :: dict_set rest k v
  end.

(** [list(d.keys())]. *)
Definition dict_keys (d : dict) : list string := fst <$> d.

(** ** Exceptions and outcomes *)

(** The exceptions that can leave the SDK, all of them subclasses of
    [Exception].  [PyError cls msg] is any exception that is not one of the
    SDK's own: the interpreter's [AttributeError], [TypeError] and
    [KeyError], or whatever an observer callback raises; [msg] is its
    [str()]. *)
Inductive exn : Type :=
| SandboxSDKError (message : string)
| TimeoutError (message : string)
| SandboxError (message : string)
| RateLimitError (retry_after : Z)
| PyError (cls : string) (message : string).

(** [str(e)].  [RateLimitError.__init__] builds its message from
    [retry_after]. *)
Definition exn_str (e : exn) : string :=
  match e with
  | SandboxSDKError m => m
  | TimeoutError m => m
  | SandboxError m => m
  | RateLimitError retry_after =>
      "Rate limit exceeded. Retry after " +:+ pretty retry_after +:+ "ms"
  | PyError _ m => m
  end.

Inductive result (A : Type) : Type :=
| Ok (a : A)
| Raise (e : exn).
Arguments Ok {A} a.
Arguments Raise {A} e.

(** [v.get(k, dflt)] on an arbitrary value: only a dict has [get]. *)
Definition py_get (v : pyval) (k : string) (dflt : pyval) : result pyval :=
  match v with
  | PDict d => Ok (dict_get d k dflt)
  | _ => Raise (PyError "AttributeError"
                  ("'" +:+ type_name v +:+ "' object has no attribute 'get'"))
  end.

(** [v[k]] with a string key on an arbitrary value. *)
Definition py_getitem (v : pyval) (k : string) : result pyval :=
  match v with
  | PDict d =>
      match dict_lookup d k with
      | Some x => Ok x
      | None => Raise (PyError "KeyError" ("'" +:+ k +:+ "'"))
      end
  | PStr _ => Raise (PyError "TypeError" "string indices must be integers, not 'str'")
  | PList _ => Raise (PyError "TypeError" "list indices must be integers or slices, not str")
  | _ => Raise (PyError "TypeError"
                  ("'" +:+ type_name v +:+ "' object is not subscriptable"))
  end.

(** [for x in v]: the elements a loop over [v] visits.  A string yields its
    characters, a dict its keys. *)
Definition py_iter (v : pyval) : result (list pyval) :=
  match v with
  | PList l => Ok l
  | PStr s => Ok ((fun c => PStr (String c EmptyString)) <$> list_ascii_of_string s)
  | PDict d => Ok (PStr <$> dict_keys d)
  | _ => Raise (PyError "TypeError"
                  ("'" +:+ type_name v +:+ "' object is not iterable"))
  end.

(** [v == s] for a string [s]: only an equal string is equal to a string. *)
Definition py_eq_str (v : pyval) (s : string) : bool :=
  match v with
  | PStr s' => String.eqb s' s
  | _ => false
  end.

(** [int(x)] on a float: truncation towards zero. *)
Definition py_int (x : Q) : Z := Z.quot (Qnum x) (Z.pos (Qden x)).

(** How an f-string renders an [Optional[int]]. *)
Definition fmt_opt_int (v : option Z) : string :=
  match v with
  | None => "None"
  | Some z => pretty z
  end.

(** [str(x)] for a float [x] that is a whole number of thousandths, as the
    timeout of a request in seconds is (milliseconds over 1000): the integer
    part, the point, and the decimals up to the last one that is not 0, as
    in [60.0] and [-0.005].  Python prints such a float so below 10^16. *)
Definition fmt_float (x : Q) : string :=
  let thousandths := Z.abs (py_int (x * 1000)) in
  let decimals := thousandths mod 1000 in
  (if Qle_bool 0 x then "" else "-")
  +:+ pretty (thousandths / 1000) +:+ "."
  +:+ pretty (decimals / 100)
  +:+ (if decimals mod 100 =? 0 then ""
       else pretty (decimals / 10 mod 10)
            +:+ (if decimals mod 10 =? 0 then "" else pretty (decimals mod 10))).

(** [l.index(x)] on a list of strings: [None] stands for the [ValueError]
    of an [x] that is not in [l]. *)
Fixpoint list_index (x : string) (l : list string) : option Z :=
  match l with
  | [] => None
  | y :: rest => if String.eqb y x then Some 0 else Z.succ <$> list_index x rest
  end.

(** The numeric levels of the [logging] module. *)
Definition logging_DEBUG : Z := 10.
Definition logging_INFO : Z := 20.
Definition logging_WARNING : Z := 30.
Definition logging_ERROR : Z := 40.

(** ** Data classes *)

Module Logs.
(** [stdout] and [stderr] hold whatever the server sent; nothing checks
    that they are lists of lines. *)
Record t := mk { stdout : pyval; stderr : pyval }.
Definition default : t := mk (PList []) (PList []).
(** [dataclasses.asdict(logs)]. *)
Definition asdict (self : t) : dict :=
  [("stdout", stdout self); ("stderr", stderr self)].
End Logs.

Module OutputMessage.
Record t := mk { line : pyval; timestamp : Z; error : bool }.
End OutputMessage.

Module ExecutionError.
Record t := mk { name : pyval; value : pyval; traceback : pyval }.
End ExecutionError.

Module Result.

Record t := mk {
  is_main_result : pyval;
  raw : dict;
  text : pyval;
  html : pyval;
  markdown : pyval;
  svg : pyval;
  png : pyval;
  jpeg : pyval;
  pdf : pyval;
  latex : pyval;
  json : pyval;
  javascript : pyval;
  data : pyval;
  chart : pyval;
  extra : dict
}.

Definition reserved_keys : gset string :=
  {[ "text"; "html"; "markdown"; "svg"; "png"; "jpeg"; "pdf"; "latex";
     "json"; "javascript"; "data"; "chart"; "type"; "is_main_result" ]}.

(** The loop that fills [self.extra]. *)
Definition store_extra (extra : dict) (item : string * pyval) : dict :=
  if bool_decide (item.1 ∈ reserved_keys) then extra
  else dict_set extra item.1 item.2.

Definition __init__ (raw_data : dict) (is_main_result : pyval) : t :=
  {| is_main_result := is_main_result;
     raw := raw_data;
     text := dict_get raw_data "text" PNone;
     html := dict_get raw_data "html" PNone;
     markdown := dict_get raw_data "markdown" PNone;
     svg := dict_get raw_data "svg" PNone;
     png := dict_get raw_data "png" PNone;
     jpeg := dict_get raw_data "jpeg" PNone;
     pdf := dict_get raw_data "pdf" PNone;
     latex := dict_get raw_data "latex" PNone;
     json := dict_get raw_data "json" PNone;
     javascript := dict_get raw_data "javascript" PNone;
     data := dict_get raw_data "data" PNone;
     chart := dict_get raw_data "chart" PNone;
     extra := fold_left store_extra raw_data [] |}.

(** [if value: formats.append(name)]. *)
Definition append_if (value : pyval) (name : string) (formats : list string)
  : list string :=
  if truthy value then formats ++ [name] else formats.

Definition formats (self : t) : list string :=
  let formats := [] in
  let formats := append_if (text self) "text" formats in
  let formats := append_if (html self) "html" formats in
  let formats := append_if (markdown self) "markdown" formats in
  let formats := append_if (svg self) "svg" formats in
  let formats := append_if (png self) "png" formats in
  let formats := append_if (jpeg self) "jpeg" formats in
  let formats := append_if (pdf self) "pdf" formats in
  let formats := append_if (latex self) "latex" formats in
  let formats := append_if (json self) "json" formats in
  let formats := append_if (javascript self) "javascript" formats in
  let formats := append_if (data self) "data" formats in
  let formats := append_if (chart self) "chart" formats in
  formats ++ dict_keys (extra self).

Definition to_dict (self : t) : dict :=
  let result_dict :=
    [("text", text self); ("html", html self); ("markdown", markdown self);
     ("svg", svg self); ("png", png self); ("jpeg", jpeg self);
     ("pdf", pdf self); ("latex", latex self); ("json", json self);
     ("javascript", javascript self)] in
  if truthy (PDict (extra self))
  then dict_set result_dict "extra" (PDict (extra self))
  else result_dict.

End Result.

Module Execution.

Record t := mk {
  results : list Result.t;
  logs : Logs.t;
  error : option ExecutionError.t;
  execution_count : pyval
}.

(** [Execution()]: every argument left at its default. *)
Definition default : t := mk [] Logs.default None PNone.

(** The body of the [text] property: the loop returns from inside at the
    first result that passes the test, and [None] falls out of its end. *)
Fixpoint text_loop (results : list Result.t) : pyval :=
  match results with
  | [] => PNone
  | result :: rest =>
      if truthy (Result.is_main_result result) && truthy (Result.text result)
      then Result.text result
      else text_loop rest
  end.

Definition text (self : t) : pyval := text_loop (results self).

(** An [ExecutionError] object is always truthy, so [if self.error] tests
    for [None]. *)
Definition to_dict (self : t) : dict :=
  [("results", PList ((fun r => PDict (Result.to_dict r)) <$> results self));
   ("logs", PDict (Logs.asdict (logs self)));
   ("error",
    match error self with
    | Some e =>
        PDict [("name", ExecutionError.name e);
               ("value", ExecutionError.value e);
               ("traceback", ExecutionError.traceback e)]
    | None => PNone
    end)].

End Execution.

(** ** The wrapper of a raw response (types.py) *)

Module RawData.

Record t := mk { data : dict }.

(** [self.data.get(key)]: a missing key gives [None], not [KeyError]. *)
Definition __getitem__ (key : string) (self : t) : pyval :=
  dict_get (data self) key PNone.

Definition __setitem__ (key : string) (value : pyval) (self : t) : t :=
  mk (dict_set (data self) key value).

Definition get (key : string) (dflt : pyval) (self : t) : pyval :=
  dict_get (data self) key dflt.

Definition keys (self : t) : list string := dict_keys (data self).

Definition items (self : t) : dict := data self.

End RawData.

(** ** Metrics collector *)

(** [x > y] on floats. *)
Definition Qgtb (x y : Q) : bool := negb (Qle_bool x y).

(** [sum(l)]: Python adds the elements to [0] from the left. *)
Definition py_sum (l : list Q) : Q := fold_left Qplus l 0%Q.

(** [len(l)] as a number. *)
Definition py_len {A} (l : list A) : Z := Z.of_nat (length l).

Module MetricsData.

Record t := mk {
  total_requests : Z;
  successful_requests : Z;
  failed_requests : Z;
  average_response_time : Q;
  total_execution_time : Q;
  active_sandboxes : Z;
  last_updated : Q
}.

(** [MetricsData()]: [last_updated] is [datetime.now()], the reading [now]
    of the clock. *)
Definition default (now : Q) : t := mk 0 0 0 0%Q 0%Q 0 now.

End MetricsData.

Module MetricsCollector.

Record t := mk {
  metrics : MetricsData.t;
  response_times : list Q
}.

Definition __init__ (now : Q) : t := mk (MetricsData.default now) [].

Definition _update_average_response_time (self : t) : t :=
  match response_times self with
  | [] => self
  | _ :: _ =>
      let m := metrics self in
      mk (MetricsData.mk
            (MetricsData.total_requests m)
            (MetricsData.successful_requests m)
            (MetricsData.failed_requests m)
            (py_sum (response_times self) / inject_Z (py_len (response_times self)))%Q
            (MetricsData.total_execution_time m)
            (MetricsData.active_sandboxes m)
            (MetricsData.last_updated m))
         (response_times self)
  end.

Definition record_request (success : bool) (response_time : Q) (self : t) : t :=
  let m := metrics self in
  let total := MetricsData.total_requests m + 1 in
  let successful :=
    if success then MetricsData.successful_requests m + 1
    else MetricsData.successful_requests m in
  let failed :=
    if success then MetricsData.failed_requests m
    else MetricsData.failed_requests m + 1 in
  let times := response_times self ++ [response_time] in
  let times := if 1000 <? py_len times then tail times else times in
  _update_average_response_time
    (mk (MetricsData.mk total successful failed
           (MetricsData.average_response_time m)
           (MetricsData.total_execution_time m)
           (MetricsData.active_sandboxes m)
           (MetricsData.last_updated m))
        times).

Definition record_execution (duration : Q) (self : t) : t :=
  let m := metrics self in
  mk (MetricsData.mk
        (MetricsData.total_requests m)
        (MetricsData.successful_requests m)
        (MetricsData.failed_requests m)
        (MetricsData.average_response_time m)
        (MetricsData.total_execution_time m + duration)%Q
        (MetricsData.active_sandboxes m)
        (MetricsData.last_updated m))
     (response_times self).

Definition update_active_sandboxes (count : Z) (self : t) : t :=
  let m := metrics self in
  mk (MetricsData.mk
        (MetricsData.total_requests m)
        (MetricsData.successful_requests m)
        (MetricsData.failed_requests m)
        (MetricsData.average_response_time m)
        (MetricsData.total_execution_time m)
        count
        (MetricsData.last_updated m))
     (response_times self).

(** [reset()] builds a fresh [MetricsData()], at the reading [now]. *)
Definition reset (now : Q) (self : t) : t := mk (MetricsData.default now) [].

End MetricsCollector.

(** ** Rate limiter *)

Module RateLimiter.

Record t := mk {
  max_requests_per_minute : Z;
  request_timestamps : list Q;
  concurrent_jobs : Z
}.

Definition __init__ (max_requests_per_minute : Z) : t :=
  mk max_requests_per_minute [] 0.

(** [time_time] is what [time.time()] returns, in seconds.  The call prunes
    the stored timestamps and answers. *)
Definition can_make_request (time_time : Q) (self : t) : bool * t :=
  let now := (time_time * 1000)%Q in
  let one_minute_ago := (now - 60000)%Q in
  let kept := List.filter (fun ts => Qgtb ts one_minute_ago) (request_timestamps self) in
  (py_len kept <? max_requests_per_minute self,
   mk (max_requests_per_minute self) kept (concurrent_jobs self)).

Definition record_request (time_time : Q) (self : t) : t :=
  mk (max_requests_per_minute self)
     (request_timestamps self ++ [(time_time * 1000)%Q])
     (concurrent_jobs self).

Definition get_retry_after (time_time : Q) (self : t) : Z :=
  match request_timestamps self with
  | [] => 0
  | oldest_timestamp :: _ =>
      let retry_after := (60000 - (time_time * 1000 - oldest_timestamp))%Q in
      Z.max (py_int retry_after) 0
  end.

Definition increment_concurrent_jobs (self : t) : Z * t :=
  let n := concurrent_jobs self + 1 in
  (n, mk (max_requests_per_minute self) (request_timestamps self) n).

Definition decrement_concurrent_jobs (self : t) : Z * t :=
  let n := Z.max (concurrent_jobs self - 1) 0 in
  (n, mk (max_requests_per_minute self) (request_timestamps self) n).

Definition get_concurrent_jobs (self : t) : Z := concurrent_jobs self.

End RateLimiter.

(** ** The outside world *)

Inductive http_method : Type := GET | POST | DELETE.

(** The endpoint of a request: the path template of the f-string that builds
    it, with the values it interpolates. *)
Inductive endpoint : Type :=
| ep_sandboxes_create
| ep_sandbox (sandbox_id : string)
| ep_sandbox_status (sandbox_id : string)
| ep_templates (page page_size : Z)
| ep_template (template_id : string)
| ep_templates_create
| ep_execute (sandbox_id : string)
| ep_terminal (sandbox_id : string)
| ep_files (sandbox_id path : string)
| ep_files_list (sandbox_id dir_path : string)
| ep_contexts (sandbox_id : string)
| ep_context (sandbox_id : pyval) (context_id : string).

Module Request.
(** The arguments of one [requests.request] call; [timeout] is in seconds. *)
Record t := mk {
  method : http_method;
  server_url : string;
  path : endpoint;
  json : pyval;
  headers : list (string * string);
  timeout : Q
}.
End Request.

Module Response.
(** [e.response] of a failed request: its status and what [.json()] gives,
    [None] when the body does not parse. *)
Record t := mk { status_code : Z; json : option pyval }.
End Response.

(** How a request that has gone out ends: what [requests.request], with
    [raise_for_status()] and [response.json()] after it, returns or raises
    then. *)
Inductive outcome : Type :=
| Responded (data : pyval)
| TimedOut
| Failed (str_e : string) (response : option Response.t).

Module World.

(** [clock] gives the successive readings of the wall clock (seconds),
    [transport] the outcome of each request that goes out, [uuid4] the
    successive random ids; [ticks], [sent] and [uuids] record what has been
    consumed: [sent] holds the requests that have gone out. *)
Record t := mk {
  clock : nat -> Q;
  ticks : nat;
  transport : nat -> Request.t -> outcome;
  sent : list Request.t;
  uuid4 : nat -> string;
  uuids : nat
}.

Definition tick (w : t) : t :=
  mk (clock w) (S (ticks w)) (transport w) (sent w) (uuid4 w) (uuids w).

Definition send (req : Request.t) (w : t) : t :=
  mk (clock w) (ticks w) (transport w) (sent w ++ [req]) (uuid4 w) (uuids w).

Definition draw (w : t) : t :=
  mk (clock w) (ticks w) (transport w) (sent w) (uuid4 w) (S (uuids w)).

End World.

(** What [requests] does with the timeout of a call before it sends
    anything: urllib3 refuses a value that is not positive
    ([if value <= 0: raise ValueError(...)] in [Timeout._validate_timeout],
    which [HTTPAdapter.send] reaches when it builds the timeout of the
    connection).  A [ValueError] is not a [RequestException]. *)
Definition timeout_error (value : Q) : exn :=
  PyError "ValueError"
    ("Attempted to set connect timeout to " +:+ fmt_float value
     +:+ ", but the timeout cannot be set to a value less than or equal to 0.").

Definition validate_timeout (value : Q) : result unit :=
  if Qle_bool value 0 then Raise (timeout_error value) else Ok tt.

(** How one call of [requests.request] ends: the request went out and the
    transport gave [out], or [requests] raised [e] before it sent
    anything. *)
Inductive ending : Type :=
| Sent (out : outcome)
| Unsent (e : exn).

(** Where an ending is expected, an outcome of the transport stands for
    the ending of a request that went out. *)
Coercion Sent : outcome >-> ending.

(** ** Keys of the caches *)

(** The hashable JSON values, up to Python's equality ([True == 1]). *)
Inductive pykey : Type :=
| KNone
| KInt (z : Z)
| KStr (s : string).

#[global] Instance pykey_eq_dec : EqDecision pykey.
Proof. solve_decision. Defined.

#[global] Instance pykey_countable : Countable pykey.
Proof.
  refine (inj_countable'
            (fun k => match k with
                      | KNone => inl ()
                      | KInt z => inr (inl z)
                      | KStr s => inr (inr s)
                      end)
            (fun x => match x with
                      | inl _ => KNone
                      | inr (inl z) => KInt z
                      | inr (inr s) => KStr s
                      end) _).
  intros []; reflexivity.
Defined.

(** Using [v] as a dict key: lists and dicts are unhashable. *)
Definition py_key (v : pyval) : result pykey :=
  match v with
  | PNone => Ok KNone
  | PBool b => Ok (KInt (if b then 1 else 0))
  | PInt z => Ok (KInt z)
  | PStr s => Ok (KStr s)
  | PList _ => Raise (PyError "TypeError" "unhashable type: 'list'")
  | PDict _ => Raise (PyError "TypeError" "unhashable type: 'dict'")
  end.

(** ** Options, jobs and returned records *)

(** An observer callback returns or raises. *)
Definition callback (A : Type) : Type := A -> result unit.

Module RunCodeOptions.
(** The keys of [opts] that the SDK reads. *)
Record t := mk {
  on_stdout : option (callback OutputMessage.t);
  on_stderr : option (callback OutputMessage.t);
  on_result : option (callback Result.t);
  on_error : option (callback ExecutionError.t);
  envs : pyval;
  timeout_ms : option Z
}.
(** [opts or {}] for [opts = None]. *)
Definition empty : t := mk None None None None PNone None.
(** [{**opts, "timeout_ms": v}]. *)
Definition with_timeout_ms (v : option Z) (opts : t) : t :=
  mk (on_stdout opts) (on_stderr opts) (on_result opts) (on_error opts) (envs opts) v.
End RunCodeOptions.

Module ExecutionMetadata.
Record t := mk {
  execution_id : string;
  sandbox_id : string;
  start_time : Q;
  end_time : Q;
  duration : Q
}.
End ExecutionMetadata.

Module ExecutionResult.
(** What [run_code] returns. *)
Record t := mk {
  execution : Execution.t;
  metadata : ExecutionMetadata.t;
  timestamp : Z
}.
End ExecutionResult.

Module BatchExecutionJob.
(** What [execute_batch] reads of a job: [job.get("id")], [job.get("code")]
    and [job.get("timeout")]. *)
Record t := mk { id : pyval; code : pyval; timeout : option Z }.
End BatchExecutionJob.

Module BatchExecutionResult.
(** One record of the list [execute_batch] returns: [execution] is present on
    success, [error] on failure. *)
Record t := mk {
  job_id : pyval;
  success : bool;
  execution : option Execution.t;
  error : option string;
  duration : Q
}.
End BatchExecutionResult.

(** ** The SDK *)

Module Config.
(** [self.config], every key filled in by the constructor. *)
Record t := mk {
  api_key : string;
  server_url : string;
  timeout : Z;
  max_retries : Z;
  retry_delay : Z;
  enable_logging : bool;
  log_level : string;
  enable_metrics : bool;
  metrics_interval : Z
}.
End Config.

Module ConfigInput.
(** The [config] dict given to the constructor: an optional key is [None]
    when the dict does not have it. *)
Record t := mk {
  api_key : pyval;
  server_url : pyval;
  timeout : option Z;
  max_retries : option Z;
  retry_delay : option Z;
  enable_logging : option bool;
  log_level : option string;
  enable_metrics : option bool;
  metrics_interval : option Z
}.
End ConfigInput.

Module SandboxSDK.

(** The fields of the object.  The caches map an id to the dict the server
    sent for it.  The logger and the periodic metrics timer, which only read
    the metrics, are left out. *)
Record t := mk {
  config : Config.t;
  active_sandboxes : gmap pykey dict;
  active_contexts : gmap pykey dict;
  metrics_collector : MetricsCollector.t;
  rate_limiter : RateLimiter.t
}.

Definition set_active_sandboxes (v : gmap pykey dict) (s : t) : t :=
  mk (config s) v (active_contexts s) (metrics_collector s) (rate_limiter s).

Definition set_active_contexts (v : gmap pykey dict) (s : t) : t :=
  mk (config s) (active_sandboxes s) v (metrics_collector s) (rate_limiter s).

Definition set_metrics_collector (v : MetricsCollector.t) (s : t) : t :=
  mk (config s) (active_sandboxes s) (active_contexts s) v (rate_limiter s).

Definition set_rate_limiter (v : RateLimiter.t) (s : t) : t :=
  mk (config s) (active_sandboxes s) (active_contexts s) (metrics_collector s) v.

(** *** Computations: the object, the world, and exceptions *)

Record state := mkState { self : t; world : World.t }.

Definition M (A : Type) : Type := state -> result A * state.

#[global] Instance M_ret : MRet M := fun A a st => (Ok a, st).

#[global] Instance M_bind : MBind M := fun A B k c st =>
  match c st with
  | (Ok a, st') => k a st'
  | (Raise e, st') => (Raise e, st')
  end.

Definition raise {A} (e : exn) : M A := fun st => (Raise e, st).

Definition lift {A} (r : result A) : M A := fun st => (r, st).

Definition get_self : M t := fun st => (Ok (self st), st).

Definition update (f : t -> t) : M unit :=
  fun st => (Ok tt, mkState (f (self st)) (world st)).

(** [time.time()], and [datetime.now()], which reads the same clock. *)
Definition time_time : M Q := fun st =>
  (Ok (World.clock (world st) (World.ticks (world st))),
   mkState (self st) (World.tick (world st))).

(** [requests.request(...)] followed by [raise_for_status()] and [json()].
    A timeout that [requests] refuses ends the call with its [ValueError]
    and nothing goes out. *)
Definition requests_request (req : Request.t) : M outcome := fun st =>
  match validate_timeout (Request.timeout req) with
  | Raise e => (Raise e, st)
  | Ok _ =>
      (Ok (World.transport (world st) (length (World.sent (world st))) req),
       mkState (self st) (World.send req (world st)))
  end.

(** [str(uuid.uuid4())]. *)
Definition uuid_uuid4 : M string := fun st =>
  (Ok (World.uuid4 (world st) (World.uuids (world st))),
   mkState (self st) (World.draw (world st))).

(** [try: c  except Exception as e: handler e]. *)
Definition try_except {A} (c : M A) (handler : exn -> M A) : M A := fun st =>
  match c st with
  | (Ok a, st') => (Ok a, st')
  | (Raise e, st') => handler e st'
  end.

Fixpoint for_each {A} (l : list A) (body : A -> M unit) : M unit :=
  match l with
  | [] => mret tt
  | x :: rest => body x ;; for_each rest body
  end.

(** *** Construction *)

Definition valid_str (v : pyval) : option string :=
  match v with
  | PStr s => if truthy v then Some s else None
  | _ => None
  end.

(** [SandboxSDK(config)], in the world [w]: the metrics collector reads the
    clock once. *)
Definition __init__ (cfg : ConfigInput.t) (w : World.t) : result t * World.t :=
  match valid_str (ConfigInput.api_key cfg) with
  | None => (Raise (SandboxSDKError "Invalid API key provided"), w)
  | Some api_key =>
      match valid_str (ConfigInput.server_url cfg) with
      | None => (Raise (SandboxSDKError "Invalid server URL provided"), w)
      | Some server_url =>
          (Ok (mk (Config.mk api_key server_url
                     (default 60000 (ConfigInput.timeout cfg))
                     (default 3 (ConfigInput.max_retries cfg))
                     (default 1000 (ConfigInput.retry_delay cfg))
                     (default false (ConfigInput.enable_logging cfg))
                     (default "info" (ConfigInput.log_level cfg))
                     (default false (ConfigInput.enable_metrics cfg))
                     (default 30000 (ConfigInput.metrics_interval cfg)))
                  ∅ ∅
                  (MetricsCollector.__init__ (World.clock w (World.ticks w)))
                  (RateLimiter.__init__ 60)),
           World.tick w)
      end
  end.

(** *** Logging *)

(** [_setup_logger]: the level it sets on the logger,
    [level_map.get(self.config["log_level"], logging.INFO)]. *)
Definition _setup_logger (self : t) : Z :=
  let level_map :=
    [("debug", logging_DEBUG); ("info", logging_INFO);
     ("warn", logging_WARNING); ("error", logging_ERROR)] in
  default logging_INFO
    (snd <$> List.find (fun kv => String.eqb kv.1 (Config.log_level (config self)))
               level_map).

(** [_log(level, message)]: what it passes to the logger, if anything: the
    name of the method it looks up on the logger ([info] is called when the
    logger has no method of that name) and the message. *)
Definition _log (level message : string) (self : t)
  : result (option (string * string)) :=
  if negb (Config.enable_logging (config self)) then Ok None
  else
    let levels := ["debug"; "info"; "warn"; "error"] in
    match list_index (Config.log_level (config self)) levels with
    | None =>
        Raise (PyError "ValueError"
                 ("'" +:+ Config.log_level (config self) +:+ "' is not in list"))
    | Some current_level_index =>
        let message_level_index := default 1 (list_index level levels) in
        if current_level_index <=? message_level_index
        then Ok (Some (level, message))
        else Ok None
    end.

(** *** HTTP request helper *)

(** [timeout_ms or self.config["timeout"]]. *)
Definition effective_timeout (timeout_ms : option Z) (configured : Z) : Z :=
  match timeout_ms with
  | Some z => if z =? 0 then configured else z
  | None => configured
  end.

(** What the body of the inner [try] of the [RequestException] handler ends
    with.  Every path through it raises: [e.response] may be [None] or the
    body may not be a dict ([AttributeError]), [json()] may fail, and its
    last statement is [raise SandboxError(...)]. *)
Inductive inner_raise : Type :=
| inner_AttributeError
| inner_JSONDecodeError
| inner_SandboxError (message : pyval).

Definition inner_try (response : option Response.t) : inner_raise :=
  match response with
  | None => inner_AttributeError
  | Some r =>
      match Response.json r with
      | None => inner_JSONDecodeError
      | Some (PDict error_data) =>
          inner_SandboxError
            (dict_get error_data "message"
               (PStr ("Request failed with status " +:+ pretty (Response.status_code r))))
      | Some _ => inner_AttributeError
      end
  end.

Definition record_metrics (success : bool) (response_time : Q) : M unit :=
  update (fun s =>
    set_metrics_collector
      (MetricsCollector.record_request success response_time (metrics_collector s)) s).

Definition _make_request (method : http_method) (path : endpoint)
    (payload : pyval) (timeout_ms : option Z) : M pyval :=
  s ← get_self;
  let timeout :=
    (inject_Z (effective_timeout timeout_ms (Config.timeout (config s))) / 1000)%Q in
  start_time ← time_time;
  let headers :=
    [("Content-Type", "application/json");
     ("Authorization", "Bearer " +:+ Config.api_key (config s))] in
  (* a [ValueError] of [requests] is caught by neither [except] clause *)
  out ← requests_request
          (Request.mk method (Config.server_url (config s)) path payload headers timeout);
  match out with
  | Responded data =>
      now ← time_time;
      let response_time := ((now - start_time) * 1000)%Q in
      record_metrics true response_time;;
      mret data
  | TimedOut =>
      now ← time_time;
      record_metrics false ((now - start_time) * 1000)%Q;;
      raise (TimeoutError ("Request timeout after " +:+ fmt_opt_int timeout_ms +:+ "ms"))
  | Failed str_e response =>
      now ← time_time;
      record_metrics false ((now - start_time) * 1000)%Q;;
      (* the bare [except:] catches whatever the inner [try] raised *)
      match inner_try response with
      | inner_AttributeError
      | inner_JSONDecodeError
      | inner_SandboxError _ => raise (SandboxError str_e)
      end
  end.

(** *** Private helper *)

Definition _check_rate_limit : M unit :=
  s ← get_self;
  now ← time_time;
  let (allowed, limiter) := RateLimiter.can_make_request now (rate_limiter s) in
  update (set_rate_limiter limiter);;
  if allowed then
    now' ← time_time;
    update (set_rate_limiter (RateLimiter.record_request now' limiter))
  else
    now' ← time_time;
    raise (RateLimitError (RateLimiter.get_retry_after now' limiter)).

Definition not_found {A} (sandbox_id : string) : M A :=
  raise (SandboxError ("Sandbox " +:+ sandbox_id +:+ " not found")).

(** *** Sandbox management *)

(** [cache[v["id"]] = v]: the subscript succeeds on a dict only, and the
    key has to be hashable. *)
Definition store_by_id (v : pyval)
    (store : pykey -> dict -> t -> t) : M unit :=
  id ← lift (py_getitem v "id");
  key ← lift (py_key id);
  match v with
  | PDict d => update (store key d)
  | _ => mret tt
  end.

Definition create_sandbox (options : pyval) : M pyval :=
  _check_rate_limit;;
  s ← get_self;
  response ← _make_request POST ep_sandboxes_create options
               (Some (Config.timeout (config s)));
  sandbox ← lift (py_get response "sandbox" PNone);
  (if truthy sandbox then
     store_by_id sandbox
       (fun key d s => set_active_sandboxes (<[key := d]> (active_sandboxes s)) s)
   else mret tt);;
  mret response.

Definition delete_sandbox (sandbox_id : string) : M unit :=
  update (fun s =>
    set_active_contexts
      (filter (fun kv : pykey * dict =>
                 py_eq_str (dict_get kv.2 "sandbox_id" PNone) sandbox_id = false)
              (active_contexts s)) s);;
  update (fun s =>
    set_active_sandboxes (delete (KStr sandbox_id) (active_sandboxes s)) s);;
  _make_request DELETE (ep_sandbox sandbox_id) PNone None;;
  mret tt.

Definition get_sandbox_status (sandbox_id : string) : M pyval :=
  s ← get_self;
  match active_sandboxes s !! KStr sandbox_id with
  | None => not_found sandbox_id
  | Some _ =>
      response ← _make_request GET (ep_sandbox_status sandbox_id) PNone None;
      status ← lift (py_get response "status" PNone);
      update (fun s =>
        set_active_sandboxes
          (alter (fun sandbox => dict_set sandbox "status" status)
                 (KStr sandbox_id) (active_sandboxes s)) s);;
      mret status
  end.

(** [list(self.active_sandboxes.values())]; the model of the cache does not
    keep the order in which the sandboxes were stored. *)
Definition list_sandboxes : M (list dict) :=
  s ← get_self;
  mret (snd <$> map_to_list (active_sandboxes s)).

(** *** Template management *)

Definition get_templates (page page_size : Z) : M pyval :=
  _make_request GET (ep_templates page page_size) PNone None.

Definition get_template (template_id : string) : M pyval :=
  _make_request GET (ep_template template_id) PNone None.

Definition create_template (template : pyval) : M pyval :=
  _make_request POST ep_templates_create template None.

(** *** Code execution *)

(** [Result(r, r.get("is_main_result", False))]: only a dict has [get]. *)
Definition decode_result (r : pyval) : result Result.t :=
  match r with
  | PDict raw_data =>
      Ok (Result.__init__ raw_data (dict_get raw_data "is_main_result" (PBool false)))
  | _ => Raise (PyError "AttributeError"
                  ("'" +:+ type_name r +:+ "' object has no attribute 'get'"))
  end.

Fixpoint decode_results (l : list pyval) : result (list Result.t) :=
  match l with
  | [] => Ok []
  | r :: rest =>
      match decode_result r with
      | Raise e => Raise e
      | Ok x =>
          match decode_results rest with
          | Raise e => Raise e
          | Ok xs => Ok (x :: xs)
          end
      end
  end.

(** [if cb and lines: for line in lines: cb(OutputMessage(...))]. *)
Definition dispatch_lines (cb : option (callback OutputMessage.t))
    (lines : pyval) (is_error : bool) : M unit :=
  match cb with
  | None => mret tt
  | Some f =>
      if truthy lines then
        ls ← lift (py_iter lines);
        for_each ls (fun line =>
          now ← time_time;
          lift (f (OutputMessage.mk line (py_int (now * 1000000)) is_error)))
      else mret tt
  end.

Definition run_code (sandbox_id : string) (code : pyval)
    (opts : RunCodeOptions.t) : M ExecutionResult.t :=
  _check_rate_limit;;
  s ← get_self;
  match active_sandboxes s !! KStr sandbox_id with
  | None => not_found sandbox_id
  | Some sandbox =>
      language ← lift (py_get (dict_get sandbox "template_config" (PDict []))
                         "language" PNone);
      let payload :=
        PDict [("code", code); ("language", language);
               ("envVars", RunCodeOptions.envs opts)] in
      start_time ← time_time;
      result ← _make_request POST (ep_execute sandbox_id) payload
                 (RunCodeOptions.timeout_ms opts);
      logs ← lift (py_get result "logs" (PDict []));
      stdout ← lift (py_get logs "stdout" (PList []));
      logs' ← lift (py_get result "logs" (PDict []));
      stderr ← lift (py_get logs' "stderr" (PList []));
      results_field ← lift (py_get result "results" PNone);
      results ← (if truthy results_field then
                   listed ← lift (py_getitem result "results");
                   items ← lift (py_iter listed);
                   lift (decode_results items)
                 else mret []);
      error_field ← lift (py_get result "error" PNone);
      error ← (if truthy error_field then
                 error_data ← lift (py_getitem result "error");
                 name ← lift (py_get error_data "name" PNone);
                 value ← lift (py_get error_data "value" PNone);
                 traceback ← lift (py_get error_data "traceback" PNone);
                 mret (Some (ExecutionError.mk name value traceback))
               else mret None);
      execution_count ← lift (py_get result "execution_count" PNone);
      let execution :=
        Execution.mk results (Logs.mk stdout stderr) error execution_count in
      (* callbacks *)
      match RunCodeOptions.on_result opts with
      | Some f => for_each results (fun res => lift (f res))
      | None => mret tt
      end;;
      dispatch_lines (RunCodeOptions.on_stdout opts) stdout false;;
      dispatch_lines (RunCodeOptions.on_stderr opts) stderr true;;
      match RunCodeOptions.on_error opts, error with
      | Some f, Some err => lift (f err)
      | _, _ => mret tt
      end;;
      execution_id ← uuid_uuid4;
      end_time ← time_time;
      now ← time_time;
      now' ← time_time;
      mret (ExecutionResult.mk execution
              (ExecutionMetadata.mk execution_id sandbox_id start_time end_time
                 ((now - start_time) * 1000)%Q)
              (py_int (now' * 1000)))
  end.

Definition run_terminal (sandbox_id : string) (command : pyval)
    (opts : RunCodeOptions.t) : M pyval :=
  _check_rate_limit;;
  s ← get_self;
  match active_sandboxes s !! KStr sandbox_id with
  | None => not_found sandbox_id
  | Some _ =>
      let payload := PDict [("command", command)] in
      result ← _make_request POST (ep_terminal sandbox_id) payload
                 (RunCodeOptions.timeout_ms opts);
      output ← lift (py_get result "output" (PStr ""));
      match RunCodeOptions.on_stdout opts with
      | Some f =>
          now ← time_time;
          lift (f (OutputMessage.mk output (py_int (now * 1000000)) false))
      | None => mret tt
      end;;
      mret output
  end.

(** *** File management *)

Definition read_file (sandbox_id path : string) : M pyval :=
  s ← get_self;
  match active_sandboxes s !! KStr sandbox_id with
  | None => not_found sandbox_id
  | Some _ =>
      result ← _make_request GET (ep_files sandbox_id path) PNone None;
      lift (py_get result "content" (PStr ""))
  end.

Definition write_file (sandbox_id path : string) (content : pyval)
    (create_parents : bool) : M pyval :=
  s ← get_self;
  match active_sandboxes s !! KStr sandbox_id with
  | None => not_found sandbox_id
  | Some _ =>
      let payload :=
        PDict [("content", content); ("createParents", PBool create_parents)] in
      result ← _make_request POST (ep_files sandbox_id path) payload None;
      lift (py_get result "path" (PStr ""))
  end.

Definition delete_file (sandbox_id path : string) : M unit :=
  s ← get_self;
  match active_sandboxes s !! KStr sandbox_id with
  | None => not_found sandbox_id
  | Some _ =>
      _make_request DELETE (ep_files sandbox_id path) PNone None;;
      mret tt
  end.

Definition list_files (sandbox_id dir_path : string) : M pyval :=
  s ← get_self;
  match active_sandboxes s !! KStr sandbox_id with
  | None => not_found sandbox_id
  | Some _ => _make_request GET (ep_files_list sandbox_id dir_path) PNone None
  end.

(** *** Context management *)

Definition create_code_context (sandbox_id : string) (language cwd : pyval)
    (request_timeout_ms : option Z) : M pyval :=
  s ← get_self;
  match active_sandboxes s !! KStr sandbox_id with
  | None => not_found sandbox_id
  | Some sandbox =>
      language' ← (if truthy language then mret language
                   else lift (py_get (dict_get sandbox "template_config" (PDict []))
                                "language" PNone));
      let payload :=
        PDict [("language", language');
               ("cwd", if truthy cwd then cwd else PStr "/workspace")] in
      context ← _make_request POST (ep_contexts sandbox_id) payload request_timeout_ms;
      store_by_id context
        (fun key d s => set_active_contexts (<[key := d]> (active_contexts s)) s);;
      mret context
  end.

Definition delete_code_context (context_id : string) : M unit :=
  s ← get_self;
  match active_contexts s !! KStr context_id with
  | None => mret tt
  | Some context =>
      let sandbox_id := dict_get context "sandbox_id" PNone in
      update (fun s =>
        set_active_contexts (delete (KStr context_id) (active_contexts s)) s);;
      if truthy sandbox_id then
        _make_request DELETE (ep_context sandbox_id context_id) PNone None;;
        mret tt
      else mret tt
  end.

(** The cached contexts of a sandbox; as for [list_sandboxes], without the
    order of insertion. *)
Definition list_code_contexts (sandbox_id : string) : M (list dict) :=
  s ← get_self;
  mret (List.filter (fun ctx => py_eq_str (dict_get ctx "sandbox_id" PNone) sandbox_id)
          (snd <$> map_to_list (active_contexts s))).

(** *** Batch operations *)

(** One turn of the loop of [execute_batch]: the record it appends. *)
Definition execute_job (sandbox_id : string) (opts : RunCodeOptions.t)
    (job : BatchExecutionJob.t) : M BatchExecutionResult.t :=
  start_time ← time_time;
  try_except
    (execution ← run_code sandbox_id (BatchExecutionJob.code job)
                   (RunCodeOptions.with_timeout_ms (BatchExecutionJob.timeout job) opts);
     now ← time_time;
     mret (BatchExecutionResult.mk (BatchExecutionJob.id job) true
             (Some (ExecutionResult.execution execution)) None
             ((now - start_time) * 1000)%Q))
    (fun e =>
     now ← time_time;
     mret (BatchExecutionResult.mk (BatchExecutionJob.id job) false
             None (Some (exn_str e))
             ((now - start_time) * 1000)%Q)).

(** The loop: [results] grows by one record per job. *)
Fixpoint execute_jobs (sandbox_id : string) (opts : RunCodeOptions.t)
    (jobs : list BatchExecutionJob.t) (results : list BatchExecutionResult.t)
    : M (list BatchExecutionResult.t) :=
  match jobs with
  | [] => mret results
  | job :: rest =>
      r ← execute_job sandbox_id opts job;
      execute_jobs sandbox_id opts rest (results ++ [r])
  end.

Definition execute_batch (sandbox_id : string) (jobs : list BatchExecutionJob.t)
    (opts : RunCodeOptions.t) : M (list BatchExecutionResult.t) :=
  s ← get_self;
  match active_sandboxes s !! KStr sandbox_id with
  | None => not_found sandbox_id
  | Some _ => execute_jobs sandbox_id opts jobs []
  end.

(** *** Metrics *)

(** [get_metrics()]: the counters and a fresh reading of the clock. *)
Definition get_metrics : M (MetricsData.t * Q) :=
  s ← get_self;
  now ← time_time;
  mret (MetricsCollector.metrics (metrics_collector s), now).

(** *** The public operations, as one type *)

Inductive op : Type :=
| op_create_sandbox (options : pyval)
| op_delete_sandbox (sandbox_id : string)
| op_get_sandbox_status (sandbox_id : string)
| op_list_sandboxes
| op_get_templates (page page_size : Z)
| op_get_template (template_id : string)
| op_create_template (template : pyval)
| op_run_code (sandbox_id : string) (code : pyval) (opts : RunCodeOptions.t)
| op_run_terminal (sandbox_id : string) (command : pyval) (opts : RunCodeOptions.t)
| op_read_file (sandbox_id path : string)
| op_write_file (sandbox_id path : string) (content : pyval) (create_parents : bool)
| op_delete_file (sandbox_id path : string)
| op_list_files (sandbox_id dir_path : string)
| op_create_code_context (sandbox_id : string) (language cwd : pyval)
    (request_timeout_ms : option Z)
| op_delete_code_context (context_id : string)
| op_list_code_contexts (sandbox_id : string)
| op_execute_batch (sandbox_id : string) (jobs : list BatchExecutionJob.t)
    (opts : RunCodeOptions.t)
| op_get_metrics.

(** Forget what a call returns: keep whether it raised. *)
Definition ignore {A} (c : M A) : M unit := c ;; mret tt.

Definition call (o : op) : M unit :=
  match o with
  | op_create_sandbox options => ignore (create_sandbox options)
  | op_delete_sandbox sandbox_id => delete_sandbox sandbox_id
  | op_get_sandbox_status sandbox_id => ignore (get_sandbox_status sandbox_id)
  | op_list_sandboxes => ignore list_sandboxes
  | op_get_templates page page_size => ignore (get_templates page page_size)
  | op_get_template template_id => ignore (get_template template_id)
  | op_create_template template => ignore (create_template template)
  | op_run_code sandbox_id code opts => ignore (run_code sandbox_id code opts)
  | op_run_terminal sandbox_id command opts =>
      ignore (run_terminal sandbox_id command opts)
  | op_read_file sandbox_id path => ignore (read_file sandbox_id path)
  | op_write_file sandbox_id path content create_parents =>
      ignore (write_file sandbox_id path content create_parents)
  | op_delete_file sandbox_id path => delete_file sandbox_id path
  | op_list_files sandbox_id dir_path => ignore (list_files sandbox_id dir_path)
  | op_create_code_context sandbox_id language cwd request_timeout_ms =>
      ignore (create_code_context sandbox_id language cwd request_timeout_ms)
  | op_delete_code_context context_id => delete_code_context context_id
  | op_list_code_contexts sandbox_id => ignore (list_code_contexts sandbox_id)
  | op_execute_batch sandbox_id jobs opts =>
      ignore (execute_batch sandbox_id jobs opts)
  | op_get_metrics => ignore get_metrics
  end.

End SandboxSDK.

(** * Properties *)

Section DictFacts.

Lemma dict_lookup_None_notin (d : dict) k :
  dict_lookup d k = None <-> k ∉ dict_keys d.
Proof.
  induction d as [|[k' v] d IH]; cbn.
  - split; [intros _; apply not_elem_of_nil | reflexivity].
  - destruct (String.eqb_spec k' k) as [->|Hne].
    + split; [discriminate | intros H; exfalso; apply H; left].
    + rewrite IH. rewrite not_elem_of_cons. intuition congruence.
Qed.

Lemma dict_set_fresh (d : dict) k v :
  k ∉ dict_keys d -> dict_set d k v = d ++ [(k, v)].
Proof.
  induction d as [|[k' v'] d IH]; cbn; [reflexivity|].
  rewrite not_elem_of_cons. intros [Hne Hnot].
  destruct (String.eqb_spec k' k) as [->|_]; [congruence|].
  now rewrite IH.
Qed.

Lemma dict_lookup_app (d1 d2 : dict) k :
  dict_lookup (d1 ++ d2) k
  = match dict_lookup d1 k with Some v => Some v | None => dict_lookup d2 k end.
Proof.
  induction d1 as [|[k' v'] d1 IH]; cbn; [reflexivity|].
  now destruct (String.eqb k' k).
Qed.

Lemma dict_lookup_elem_of (d : dict) k v :
  dict_wf d -> (k, v) ∈ d -> dict_lookup d k = Some v.
Proof.
  unfold dict_wf. induction d as [|[k' v'] d IH]; cbn.
  - intros _ H. now apply elem_of_nil in H.
  - rewrite NoDup_cons. intros [Hnot Hnd]. rewrite elem_of_cons.
    intros [Heq|Hin].
    + injection Heq as -> ->. now rewrite String.eqb_refl.
    + destruct (String.eqb_spec k' k) as [->|_]; [|now apply IH].
      exfalso. apply Hnot. apply list_elem_of_fmap. now exists (k, v).
Qed.

End DictFacts.

Section RawDataFacts.

Lemma dict_lookup_set_same (d : dict) k v : dict_lookup (dict_set d k v) k = Some v.
Proof.
  induction d as [|[k' v'] d IH]; cbn.
  - now rewrite String.eqb_refl.
  - destruct (String.eqb_spec k' k) as [->|Hne]; cbn.
    + now rewrite String.eqb_refl.
    + destruct (String.eqb_spec k' k); [congruence | exact IH].
Qed.

Lemma dict_lookup_set_other (d : dict) k v other :
  other <> k -> dict_lookup (dict_set d k v) other = dict_lookup d other.
Proof.
  intros Hne. induction d as [|[k' v'] d IH]; cbn.
  - destruct (String.eqb_spec k other); [congruence | reflexivity].
  - destruct (String.eqb_spec k' k) as [->|Hk]; cbn.
    + destruct (String.eqb_spec k other); [congruence | reflexivity].
    + now rewrite IH.
Qed.

Lemma dict_keys_set (d : dict) k v :
  dict_keys (dict_set d k v)
  = if bool_decide (k ∈ dict_keys d) then dict_keys d else dict_keys d ++ [k].
Proof.
  unfold dict_keys. induction d as [|[k' v'] d IH]; cbn; [reflexivity|].
  destruct (String.eqb_spec k' k) as [->|Hk]; cbn.
  - rewrite bool_decide_eq_true_2; [reflexivity | left].
  - rewrite IH. destruct (decide (k ∈ d.*1)) as [Hin|Hnot].
    + rewrite !bool_decide_eq_true_2; [reflexivity | now right | assumption].
    + rewrite !bool_decide_eq_false_2; [reflexivity | | assumption].
      rewrite elem_of_cons. intros [->|H]; [congruence | contradiction].
Qed.

Lemma dict_set_wf (d : dict) k v : dict_wf d -> dict_wf (dict_set d k v).
Proof.
  unfold dict_wf. intros Hwf. change (NoDup (dict_keys (dict_set d k v))).
  rewrite dict_keys_set. unfold dict_keys.
  destruct (decide (k ∈ d.*1)) as [Hin|Hnot].
  - now rewrite bool_decide_eq_true_2.
  - rewrite bool_decide_eq_false_2 by assumption.
    apply NoDup_app. split; [exact Hwf|]. split.
    + intros x Hx Hx'. apply list_elem_of_singleton in Hx'. now subst.
    + apply NoDup_singleton.
Qed.

(** X1.  The wrapper [RawData] of types.py.  Reading a key with [r[key]]
    never fails: it is [r.get(key)], [None] for a key that is absent.  After
    [r[key] = value], [r[key]] is [value], every other key reads as before,
    the keys are those of before in their order with [key] added last when
    it is new, and they are still distinct. *)
Theorem raw_data_set_then_get :
  forall (self : RawData.t) (key : string) (value : pyval),
    let self' := RawData.__setitem__ key value self in
    RawData.__getitem__ key self' = value
    /\ (forall other dflt,
          other <> key ->
          RawData.__getitem__ other self' = RawData.__getitem__ other self
          /\ RawData.get other dflt self' = RawData.get other dflt self)
    /\ (forall k, RawData.__getitem__ k self = RawData.get k PNone self)
    /\ (forall k dflt, k ∉ RawData.keys self ->
          RawData.__getitem__ k self = PNone /\ RawData.get k dflt self = dflt)
    /\ RawData.keys self'
       = (if bool_decide (key ∈ RawData.keys self) then RawData.keys self
          else RawData.keys self ++ [key])
    /\ (dict_wf (RawData.items self) -> dict_wf (RawData.items self')).
Proof.
  intros [d] key value self'. subst self'.
  unfold RawData.__getitem__, RawData.__setitem__, RawData.get, RawData.keys,
    RawData.items, dict_get. cbn [RawData.data].
  split; [now rewrite dict_lookup_set_same|].
  split; [intros other dflt Hne; now rewrite dict_lookup_set_other|].
  split; [reflexivity|].
  split; [|split; [apply dict_keys_set | apply dict_set_wf]].
  intros k dflt Hk. apply dict_lookup_None_notin in Hk. now rewrite Hk.
Qed.

End RawDataFacts.

Section ResultFacts.

Lemma append_if_app value name formats :
  Result.append_if value name formats
  = formats ++ (if truthy value then [name] else []).
Proof.
  unfold Result.append_if. destruct (truthy value); [reflexivity|].
  now rewrite app_nil_r.
Qed.

Lemma filter_cons_app {A} (f : A -> bool) (x : A) (l : list A) :
  List.filter f (x :: l) = (if f x then [x] else []) ++ List.filter f l.
Proof. cbn. now destruct (f x). Qed.

Definition known_formats : list string :=
  ["text"; "html"; "markdown"; "svg"; "png"; "jpeg"; "pdf"; "latex";
   "json"; "javascript"; "data"; "chart"].

Definition non_empty (raw_data : dict) (k : string) : bool :=
  truthy (dict_get raw_data k PNone).

Definition unreserved (item : string * pyval) : bool :=
  negb (bool_decide (item.1 ∈ Result.reserved_keys)).

Lemma formats_known_then_extra raw_data is_main :
  Result.formats (Result.__init__ raw_data is_main)
  = List.filter (non_empty raw_data) known_formats
    ++ dict_keys (Result.extra (Result.__init__ raw_data is_main)).
Proof.
  unfold Result.formats. rewrite !append_if_app. cbn [Result.text Result.html
    Result.markdown Result.svg Result.png Result.jpeg Result.pdf Result.latex
    Result.json Result.javascript Result.data Result.chart Result.__init__].
  f_equal. unfold known_formats. rewrite !filter_cons_app.
  cbn [List.filter]. unfold non_empty.
  rewrite <- !app_assoc. cbn [app]. now rewrite app_nil_r.
Qed.

(** The loop over the items of a well-formed payload keeps the unreserved
    items, in their order. *)
Lemma store_extra_filter (raw_data acc : dict) :
  NoDup (dict_keys (acc ++ raw_data)) ->
  fold_left Result.store_extra raw_data acc = acc ++ List.filter unreserved raw_data.
Proof.
  revert acc. induction raw_data as [|[k v] rest IH]; intros acc Hnd; cbn.
  - now rewrite app_nil_r.
  - unfold Result.store_extra at 2. unfold unreserved at 1. cbn [fst snd].
    destruct (bool_decide (k ∈ Result.reserved_keys)); cbn [negb].
    + apply IH. revert Hnd. unfold dict_keys. rewrite !fmap_app, fmap_cons.
      rewrite !NoDup_app. cbn [fst]. rewrite NoDup_cons. 
      intros (H1 & H2 & H3 & H4). repeat split; [assumption| |assumption].
      intros x Hx Hin. apply (H2 x Hx). now right.
    + assert (Hk : k ∉ dict_keys acc).
      { revert Hnd. unfold dict_keys. rewrite fmap_app, fmap_cons, NoDup_app.
        intros (_ & H2 & _) Hin. apply (H2 k Hin). left. }
      rewrite (dict_set_fresh _ _ _ Hk). rewrite IH.
      * now rewrite <- app_assoc.
      * now rewrite <- app_assoc.
Qed.

Lemma extra_is_filter raw_data is_main :
  dict_wf raw_data ->
  Result.extra (Result.__init__ raw_data is_main) = List.filter unreserved raw_data.
Proof.
  intros Hwf. cbn [Result.extra Result.__init__].
  now rewrite store_extra_filter.
Qed.

Lemma dict_lookup_filter_unreserved (d : dict) k :
  dict_lookup (List.filter unreserved d) k
  = if bool_decide (k ∈ Result.reserved_keys) then None else dict_lookup d k.
Proof.
  induction d as [|[k' v'] d IH]; cbn.
  - now destruct (bool_decide _).
  - unfold unreserved at 1. cbn [fst].
    destruct (String.eqb_spec k' k) as [->|Hne].
    + destruct (bool_decide (k ∈ Result.reserved_keys)) eqn:E; cbn.
      * exact IH.
      * now rewrite String.eqb_refl.
    + destruct (bool_decide (k' ∈ Result.reserved_keys)); cbn; [exact IH|].
      destruct (String.eqb_spec k' k); [congruence | exact IH].
Qed.

Lemma elem_of_filter_unreserved (d : dict) k v :
  (k, v) ∈ d -> k ∉ Result.reserved_keys -> k ∈ dict_keys (List.filter unreserved d).
Proof.
  intros Hin Hk. unfold dict_keys. apply list_elem_of_fmap. exists (k, v).
  split; [reflexivity|]. apply list_elem_of_In, filter_In.
  split; [now apply list_elem_of_In|].
  unfold unreserved. cbn [fst]. now rewrite bool_decide_eq_false_2.
Qed.

(** On a payload whose format values are strings, as the protocol has them,
    a format is non-empty exactly when its string is not [""]. *)
Lemma non_empty_string raw_data k :
  (forall v, dict_lookup raw_data k = Some v -> v = PNone \/ exists s, v = PStr s) ->
  non_empty raw_data k = true
  <-> exists s, dict_lookup raw_data k = Some (PStr s) /\ s <> "".
Proof.
  intros Htyped. unfold non_empty, dict_get.
  destruct (dict_lookup raw_data k) as [v|]; cbn.
  - destruct (Htyped v eq_refl) as [->|[s ->]]; cbn.
    + split; [discriminate | intros (s & [=] & _)].
    + destruct s as [|c s]; split; try discriminate.
      * intros (s' & [= <-] & Hs'). congruence.
      * intros _. eexists. split; [reflexivity | discriminate].
      * reflexivity.
  - split; [discriminate | intros (s & [=] & _)].
Qed.

(** C8.  For every raw result payload, [formats()] lists the recognized
    formats whose value is non-empty ([if value:] holds: not [None], [""],
    [0], [False], [[]] or [{}]) in the fixed order [known_formats], followed
    by the keys of [extra]; for a payload with distinct keys, [extra] holds
    the items whose key is not reserved, in the order of the payload.  A
    payload with only a non-empty [text] has formats [["text"]], also after
    a round trip through [to_dict]; an unreserved key such as ["foo"] is in
    [extra] with its value and among the formats that follow the known
    ones.  Where the value of a format is a string or absent, non-empty
    means a string other than [""]. *)
Theorem result_formats_known_then_extra :
  (forall raw_data is_main,
      Result.formats (Result.__init__ raw_data is_main)
      = List.filter (non_empty raw_data) known_formats
        ++ dict_keys (Result.extra (Result.__init__ raw_data is_main)))
  /\ (forall raw_data is_main, dict_wf raw_data ->
      Result.extra (Result.__init__ raw_data is_main)
      = List.filter unreserved raw_data)
  /\ (forall s is_main, s <> "" ->
      Result.formats (Result.__init__ [("text", PStr s)] is_main) = ["text"]
      /\ Result.formats
           (Result.__init__
              (Result.to_dict (Result.__init__ [("text", PStr s)] is_main))
              is_main) = ["text"])
  /\ (forall raw_data is_main k v,
      dict_wf raw_data -> (k, v) ∈ raw_data -> k ∉ Result.reserved_keys ->
      let r := Result.__init__ raw_data is_main in
      dict_lookup (Result.extra r) k = Some v
      /\ k ∈ dict_keys (Result.extra r)
      /\ Result.formats r
         = List.filter (non_empty raw_data) known_formats ++ dict_keys (Result.extra r))
  /\ (forall raw_data k,
      (forall v, dict_lookup raw_data k = Some v ->
                 v = PNone \/ exists s, v = PStr s) ->
      non_empty raw_data k = true
      <-> exists s, dict_lookup raw_data k = Some (PStr s) /\ s <> "").
Proof.
  split; [exact formats_known_then_extra|].
  split; [exact extra_is_filter|].
  split; [|split; [|exact non_empty_string]].
  - intros s is_main Hs. destruct s as [|c s]; [congruence|]. split; reflexivity.
  - intros raw_data is_main k v Hwf Hin Hk r. subst r.
    rewrite (extra_is_filter _ _ Hwf), formats_known_then_extra,
      (extra_is_filter _ _ Hwf).
    split; [|split; [|reflexivity]].
    + rewrite dict_lookup_filter_unreserved, bool_decide_eq_false_2 by assumption.
      now apply dict_lookup_elem_of.
    + now apply (elem_of_filter_unreserved _ _ v).
Qed.

End ResultFacts.

Section ExecutionFacts.

(** The test of the loop of [Execution.text]. *)
Definition is_main_with_text (r : Result.t) : bool :=
  truthy (Result.is_main_result r) && truthy (Result.text r).

Lemma text_loop_first (results : list Result.t) :
  (exists before r after,
      results = before ++ r :: after
      /\ Forall (fun x => is_main_with_text x = false) before
      /\ is_main_with_text r = true
      /\ Execution.text_loop results = Result.text r)
  \/ (Forall (fun x => is_main_with_text x = false) results
      /\ Execution.text_loop results = PNone).
Proof.
  induction results as [|x rest IH]; cbn.
  - right. split; [constructor | reflexivity].
  - fold (is_main_with_text x). destruct (is_main_with_text x) eqn:E.
    + left. exists [], x, rest. repeat split; [constructor | assumption].
    + destruct IH as [(before & r & after & -> & Hb & Hr & Ht) | [Hall Ht]].
      * left. exists (x :: before), r, after.
        repeat split; [now constructor | assumption | assumption].
      * right. split; [now constructor | assumption].
Qed.

Definition example_results : list Result.t :=
  [Result.__init__ [("is_main_result", PBool false); ("text", PStr "a")] (PBool false);
   Result.__init__ [("is_main_result", PBool true); ("text", PStr "")] (PBool true);
   Result.__init__ [("is_main_result", PBool true); ("text", PStr "b")] (PBool true)].

(** C7.  [Execution.text] is the text of the first result, in the order of
    [results], that is a main result with a non-empty text, and [None] when
    there is none; on the three results of the example it is ["b"]. *)
Theorem execution_text_first_main_result :
  (forall e : Execution.t,
      (exists before r after,
          Execution.results e = before ++ r :: after
          /\ Forall (fun x => is_main_with_text x = false) before
          /\ is_main_with_text r = true
          /\ Execution.text e = Result.text r)
      \/ (Forall (fun x => is_main_with_text x = false) (Execution.results e)
          /\ Execution.text e = PNone))
  /\ (forall logs error execution_count,
        Execution.text (Execution.mk example_results logs error execution_count)
        = PStr "b").
Proof.
  split.
  - intros e. apply text_loop_first.
  - reflexivity.
Qed.

End ExecutionFacts.

Section ToDictFacts.

Import SandboxSDK.

(** The formats that [Result.to_dict] writes. *)
Definition written_formats : list string :=
  ["text"; "html"; "markdown"; "svg"; "png"; "jpeg"; "pdf"; "latex";
   "json"; "javascript"].

(** X2.  [Result.to_dict] writes the ten formats [written_formats] and, when
    [extra] is not empty, the whole of [extra] under the one key ["extra"];
    it writes neither [data], nor [chart], nor the main-result flag.  A
    [Result] rebuilt from the dict has the same ten formats, no [data] and
    no [chart], an [extra] that is empty or holds the single key ["extra"],
    and, rebuilt the way [run_code] builds results, it is not a main
    result. *)
Theorem result_to_dict_drops_data_and_chart :
  forall (r : Result.t) (is_main : pyval),
    let d := Result.to_dict r in
    let r' := Result.__init__ d is_main in
    let nested :=
      if truthy (PDict (Result.extra r))
      then [("extra", PDict (Result.extra r))] else [] in
    dict_wf d
    /\ dict_keys d = written_formats ++ dict_keys nested
    /\ (Result.text r' = Result.text r
        /\ Result.html r' = Result.html r
        /\ Result.markdown r' = Result.markdown r
        /\ Result.svg r' = Result.svg r
        /\ Result.png r' = Result.png r
        /\ Result.jpeg r' = Result.jpeg r
        /\ Result.pdf r' = Result.pdf r
        /\ Result.latex r' = Result.latex r
        /\ Result.json r' = Result.json r
        /\ Result.javascript r' = Result.javascript r)
    /\ Result.data r' = PNone
    /\ Result.chart r' = PNone
    /\ Result.extra r' = nested
    /\ Result.formats r'
       = List.filter (non_empty d) written_formats ++ dict_keys nested
    /\ decode_result (PDict d) = Ok (Result.__init__ d (PBool false)).
Proof.
  intros r is_main d r' nested. subst d r' nested.
  destruct r as [m raw text html markdown svg png jpeg pdf latex json javascript
                 data chart extra].
  rewrite formats_known_then_extra.
  destruct extra as [|item extra]; cbn [truthy Result.extra].
  - split; [unfold dict_wf; cbn; compute_done|].
    vm_compute. repeat split.
  - split; [unfold dict_wf; cbn; compute_done|].
    vm_compute. repeat split.
Qed.

(** [decode_results] on dicts. *)
Lemma decode_results_dicts (ds : list dict) :
  decode_results (PDict <$> ds)
  = Ok ((fun d => Result.__init__ d (dict_get d "is_main_result" (PBool false))) <$> ds).
Proof.
  induction ds as [|d ds IH]; cbn; [reflexivity|].
  cbn in IH. now rewrite IH.
Qed.

(** *** The decoding of a response body by [run_code] *)

#[local] Instance result_ret : MRet result := fun A a => Ok a.

#[local] Instance result_bind : MBind result := fun A B k r =>
  match r with
  | Ok a => k a
  | Raise e => Raise e
  end.

(** The statements of [run_code] between the round trip and the callbacks:
    they build the [Execution] from the body of the response. *)
Definition decode_execution (body : pyval) : result Execution.t :=
  logs ← py_get body "logs" (PDict []);
  stdout ← py_get logs "stdout" (PList []);
  logs' ← py_get body "logs" (PDict []);
  stderr ← py_get logs' "stderr" (PList []);
  results_field ← py_get body "results" PNone;
  results ← (if truthy results_field then
               listed ← py_getitem body "results";
               items ← py_iter listed;
               decode_results items
             else mret []);
  error_field ← py_get body "error" PNone;
  error ← (if truthy error_field then
             error_data ← py_getitem body "error";
             name ← py_get error_data "name" PNone;
             value ← py_get error_data "value" PNone;
             traceback ← py_get error_data "traceback" PNone;
             mret (Some (ExecutionError.mk name value traceback))
           else mret None);
  execution_count ← py_get body "execution_count" PNone;
  mret (Execution.mk results (Logs.mk stdout stderr) error execution_count).

Lemma text_loop_no_main (rs : list Result.t) :
  Forall (fun r => truthy (Result.is_main_result r) = false) rs ->
  Execution.text_loop rs = PNone.
Proof.
  induction 1 as [|r rs Hr _ IH]; cbn; [reflexivity|]. now rewrite Hr.
Qed.

Lemma to_dict_no_main_flag (r : Result.t) :
  dict_get (Result.to_dict r) "is_main_result" (PBool false) = PBool false.
Proof.
  unfold Result.to_dict. destruct (truthy (PDict (Result.extra r))); reflexivity.
Qed.

Lemma decode_results_to_dict (rs : list Result.t) :
  decode_results ((fun r => PDict (Result.to_dict r)) <$> rs)
  = Ok ((fun r => Result.__init__ (Result.to_dict r) (PBool false)) <$> rs).
Proof.
  induction rs as [|r rs IH]; [reflexivity|].
  cbn [fmap list_fmap decode_results decode_result] in *.
  now rewrite IH, to_dict_no_main_flag.
Qed.

(** X3.  [Execution.to_dict] writes the keys [results], [logs] and [error],
    and no [execution_count].  Decoding the dict the way [run_code] decodes
    a response gives back the logs and the error, the results as
    [Result.to_dict] keeps them, none of them a main result, so [text] is
    [None], and an [execution_count] of [None]. *)
Theorem execution_to_dict_round_trip :
  forall e : Execution.t,
    let e' :=
      Execution.mk
        ((fun r => Result.__init__ (Result.to_dict r) (PBool false))
           <$> Execution.results e)
        (Execution.logs e) (Execution.error e) PNone in
    dict_keys (Execution.to_dict e) = ["results"; "logs"; "error"]
    /\ decode_execution (PDict (Execution.to_dict e)) = Ok e'
    /\ length (Execution.results e') = length (Execution.results e)
    /\ Execution.text e' = PNone.
Proof.
  intros [results [stdout stderr] error count] e'. subst e'.
  split; [reflexivity|]. split; [|split].
  - unfold decode_execution, Execution.to_dict.
    cbn [Execution.results Execution.logs Execution.error Logs.asdict
         Logs.stdout Logs.stderr].
    destruct error as [[name value traceback]|]; destruct results as [|r rs];
      try reflexivity;
      cbn -[decode_results Result.to_dict Result.__init__ fmap];
      change (PDict (Result.to_dict r)
              :: ((fun r => PDict (Result.to_dict r)) <$> rs))
        with ((fun r => PDict (Result.to_dict r)) <$> (r :: rs));
      rewrite decode_results_to_dict; reflexivity.
  - cbn. now rewrite length_fmap.
  - cbn [Execution.text Execution.results]. apply text_loop_no_main.
    apply Forall_fmap, Forall_forall. intros r _. reflexivity.
Qed.

End ToDictFacts.

(** ** The metrics collector *)

Section MetricsFacts.

Inductive metrics_call : Type :=
| call_record_request (success : bool) (response_time : Q)
| call_record_execution (duration : Q)
| call_update_active_sandboxes (count : Z)
| call_reset (now : Q).

Definition apply_call (c : metrics_call) (mc : MetricsCollector.t) : MetricsCollector.t :=
  match c with
  | call_record_request success response_time =>
      MetricsCollector.record_request success response_time mc
  | call_record_execution duration => MetricsCollector.record_execution duration mc
  | call_update_active_sandboxes count => MetricsCollector.update_active_sandboxes count mc
  | call_reset now => MetricsCollector.reset now mc
  end.

Definition run_calls (calls : list metrics_call) (mc : MetricsCollector.t)
  : MetricsCollector.t :=
  fold_left (fun mc c => apply_call c mc) calls mc.

(** The response times a history of calls has recorded and not cleared:
    [reset] empties the record. *)
Definition note_sample (recorded : list Q) (c : metrics_call) : list Q :=
  match c with
  | call_record_request _ response_time => recorded ++ [response_time]
  | call_reset _ => []
  | _ => recorded
  end.

Definition recorded_samples (calls : list metrics_call) : list Q :=
  fold_left note_sample calls [].

(** The last [n] elements of [l] (all of [l] when it is shorter). *)
Definition last_n {A} (n : nat) (l : list A) : list A := drop (length l - n) l.

Definition mean (l : list Q) : Q := (py_sum l / inject_Z (py_len l))%Q.

Definition mean_or_zero (l : list Q) : Q :=
  match l with [] => 0%Q | _ :: _ => mean l end.

Lemma last_n_snoc {A} (n : nat) (l : list A) (x : A) :
  last_n (S n) (l ++ [x])
  = (if (length (last_n (S n) l ++ [x]) <=? S n)%nat
     then last_n (S n) l ++ [x] else tail (last_n (S n) l ++ [x])).
Proof.
  unfold last_n. rewrite !length_app, !length_drop. cbn [length].
  destruct (Nat.leb_spec (length l - (length l - S n) + 1) (S n)) as [Hle|Hgt].
  - replace (length l + 1 - S n)%nat with 0%nat by lia.
    replace (length l - S n)%nat with 0%nat by lia. reflexivity.
  - replace (length l + 1 - S n)%nat with (S (length l - S n)) by lia.
    rewrite drop_app_le by lia.
    destruct (drop (length l - S n) l) as [|y ys] eqn:E.
    + apply (f_equal length) in E. rewrite length_drop in E. cbn in E. lia.
    + cbn [app tail]. f_equal.
      change ys with (drop 1 (y :: ys)). rewrite <- E, drop_drop.
      f_equal. lia.
Qed.

Lemma length_last_n {A} (n : nat) (l : list A) : (length (last_n n l) <= n)%nat.
Proof. unfold last_n. rewrite length_drop. lia. Qed.

(** What the collector holds after a history that recorded [recorded]. *)
Definition holds (recorded : list Q) (mc : MetricsCollector.t) : Prop :=
  let m := MetricsCollector.metrics mc in
  MetricsData.total_requests m
  = MetricsData.successful_requests m + MetricsData.failed_requests m
  /\ MetricsCollector.response_times mc = last_n 1000 recorded
  /\ MetricsData.average_response_time m = mean_or_zero (last_n 1000 recorded).

Lemma holds_apply_call recorded mc c :
  holds recorded mc -> holds (note_sample recorded c) (apply_call c mc).
Proof.
  intros (Hcount & Htimes & Havg). destruct c as [success rt|d|n|now]; cbn.
  - unfold holds, MetricsCollector.record_request.
    set (times := MetricsCollector.response_times mc ++ [rt]).
    assert (Hwin : (if 1000 <? py_len times then tail times else times)
                   = last_n 1000 (recorded ++ [rt])).
    { rewrite last_n_snoc. subst times. rewrite Htimes. unfold py_len.
      destruct (Z.ltb_spec 1000 (Z.of_nat (length (last_n 1000 recorded ++ [rt]))));
        destruct (Nat.leb_spec (length (last_n 1000 recorded ++ [rt])) 1000);
        try reflexivity; lia. }
    rewrite Hwin. unfold MetricsCollector._update_average_response_time.
    cbn [MetricsCollector.response_times MetricsCollector.metrics].
    destruct (last_n 1000 (recorded ++ [rt])) as [|y ys] eqn:E.
    + exfalso. rewrite last_n_snoc in E.
      destruct (length (last_n 1000 recorded ++ [rt]) <=? 1000)%nat eqn:El.
      * now destruct (last_n 1000 recorded).
      * apply Nat.leb_gt in El.
        destruct (last_n 1000 recorded ++ [rt]) as [|a [|b t]];
          cbn in *; try discriminate; lia.
    + cbn. repeat split; [destruct success; lia].
  - unfold holds. cbn. auto.
  - unfold holds. cbn. auto.
  - unfold holds. cbn. repeat split; lia.
Qed.

Lemma holds_run_calls calls recorded mc :
  holds recorded mc -> holds (fold_left note_sample calls recorded) (run_calls calls mc).
Proof.
  revert recorded mc. induction calls as [|c calls IH]; intros recorded mc H; cbn.
  - exact H.
  - apply IH. now apply holds_apply_call.
Qed.

(** The claim in its own words.  The samples of a history are the response
    times of its [record_request] calls, in order; the history since the
    last [reset] is what follows that [reset], and the whole history when
    there is none; the arithmetic mean is the sum over the number. *)
Definition sample_of (c : metrics_call) : option Q :=
  match c with
  | call_record_request _ response_time => Some response_time
  | _ => None
  end.

Definition all_samples (calls : list metrics_call) : list Q := omap sample_of calls.

Definition is_reset (c : metrics_call) : bool :=
  match c with call_reset _ => true | _ => false end.

Fixpoint since_reset (calls : list metrics_call) : list metrics_call :=
  match calls with
  | [] => []
  | c :: rest =>
      if existsb is_reset rest then since_reset rest
      else if is_reset c then rest else c :: rest
  end.

Fixpoint total (l : list Q) : Q :=
  match l with
  | [] => 0
  | x :: rest => x + total rest
  end%Q.

Definition arithmetic_mean (l : list Q) : Q :=
  (total l / inject_Z (Z.of_nat (length l)))%Q.

Lemma since_reset_no_reset calls :
  existsb is_reset calls = false -> since_reset calls = calls.
Proof.
  destruct calls as [|c rest]; [reflexivity|]. cbn [existsb since_reset].
  intros H. apply orb_false_iff in H as [-> ->]. reflexivity.
Qed.

Lemma since_reset_after before now after :
  existsb is_reset after = false ->
  since_reset (before ++ call_reset now :: after) = after.
Proof.
  intros Hafter. induction before as [|c before IH]; cbn [app since_reset].
  - now rewrite Hafter.
  - rewrite existsb_app. cbn [existsb is_reset orb].
    now rewrite orb_true_r.
Qed.

(** What the code keeps is what the history has recorded since its last
    [reset]. *)
Lemma fold_note_sample calls : forall recorded,
  fold_left note_sample calls recorded
  = if existsb is_reset calls then all_samples (since_reset calls)
    else recorded ++ all_samples calls.
Proof.
  induction calls as [|c rest IH]; intros recorded; cbn [fold_left existsb since_reset].
  - now rewrite app_nil_r.
  - rewrite IH. destruct (existsb is_reset rest).
    + now rewrite orb_true_r.
    + rewrite orb_false_r.
      destruct c as [success rt|d|n|now]; cbn [is_reset note_sample]; try reflexivity.
      unfold all_samples. cbn [omap sample_of]. now rewrite <- app_assoc.
Qed.

Lemma recorded_samples_since_reset calls :
  recorded_samples calls = all_samples (since_reset calls).
Proof.
  unfold recorded_samples. rewrite fold_note_sample.
  destruct (existsb is_reset calls) eqn:Hr; [reflexivity|].
  now rewrite since_reset_no_reset.
Qed.

(** Python's [sum] adds from the left, the sum of the claim from the right:
    the same rational. *)
Lemma fold_left_total l : forall acc, (fold_left Qplus l acc == acc + total l)%Q.
Proof.
  induction l as [|x l IH]; intros acc; cbn [fold_left total].
  - ring.
  - rewrite IH. ring.
Qed.

Lemma py_sum_total l : (py_sum l == total l)%Q.
Proof. unfold py_sum. rewrite fold_left_total. ring. Qed.

Lemma mean_arithmetic_mean l : (mean l == arithmetic_mean l)%Q.
Proof. unfold mean, arithmetic_mean, py_len. now rewrite py_sum_total. Qed.

(** C6, as the code has it.  After any interleaving of [record_request],
    [record_execution], [update_active_sandboxes] and [reset] on a new
    collector, the total equals the successes plus the failures; the buffer
    holds the last 1000 response times recorded since the last [reset] (all
    of them when there are fewer, all those of the history when it has no
    [reset]), oldest dropped first; and the average is their arithmetic
    mean, and 0 when the buffer is empty.  Response times are exact
    rationals here, and the mean is equal as a rational. *)
Theorem metrics_counters_and_average :
  forall (now : Q) (calls : list metrics_call),
    let mc := run_calls calls (MetricsCollector.__init__ now) in
    let m := MetricsCollector.metrics mc in
    let window := last_n 1000 (all_samples (since_reset calls)) in
    MetricsData.total_requests m
    = MetricsData.successful_requests m + MetricsData.failed_requests m
    /\ (length window <= 1000)%nat
    /\ MetricsCollector.response_times mc = window
    /\ (window = [] -> MetricsData.average_response_time m = 0%Q)
    /\ (window <> [] ->
        (MetricsData.average_response_time m == arithmetic_mean window)%Q)
    /\ (existsb is_reset calls = false -> since_reset calls = calls)
    /\ (forall before now' after,
          calls = before ++ call_reset now' :: after ->
          existsb is_reset after = false ->
          since_reset calls = after).
Proof.
  intros now calls mc m window.
  destruct (holds_run_calls calls [] (MetricsCollector.__init__ now)) as (H1 & H2 & H3).
  { unfold holds. cbn. auto. }
  fold (recorded_samples calls) in H2, H3.
  rewrite recorded_samples_since_reset in H2, H3. fold window in H2, H3.
  fold mc in H1, H2, H3. fold m in H1, H3.
  split; [exact H1|]. split; [apply length_last_n|]. split; [exact H2|].
  split; [|split; [|split]].
  - intros Hw. now rewrite H3, Hw.
  - intros Hw. rewrite H3. destruct window as [|x l]; [now destruct Hw|].
    apply mean_arithmetic_mean.
  - apply since_reset_no_reset.
  - intros before now' after -> Hafter. now apply since_reset_after.
Qed.

End MetricsFacts.

Section MetricsFieldsFacts.

(** What a history of calls has accumulated since its last [reset]: the
    outcomes of the requests recorded, the durations of the executions
    recorded, the last count of active sandboxes given, and the reading of
    the clock at the last [reset] (at the construction when there is
    none). *)
Record tally : Type := mkTally {
  outcomes : list bool;
  durations : list Q;
  gauge : Z;
  since : Q
}.

Definition note_call (t : tally) (c : metrics_call) : tally :=
  match c with
  | call_record_request success _ =>
      mkTally (outcomes t ++ [success]) (durations t) (gauge t) (since t)
  | call_record_execution duration =>
      mkTally (outcomes t) (durations t ++ [duration]) (gauge t) (since t)
  | call_update_active_sandboxes count =>
      mkTally (outcomes t) (durations t) count (since t)
  | call_reset now => mkTally [] [] 0 now
  end.

Definition tally_of (now : Q) (calls : list metrics_call) : tally :=
  fold_left note_call calls (mkTally [] [] 0 now).

(** The collector shows the tally [t]. *)
Definition shows (t : tally) (mc : MetricsCollector.t) : Prop :=
  let m := MetricsCollector.metrics mc in
  MetricsData.total_requests m = py_len (outcomes t)
  /\ MetricsData.successful_requests m = py_len (List.filter id (outcomes t))
  /\ MetricsData.failed_requests m = py_len (List.filter negb (outcomes t))
  /\ MetricsData.total_execution_time m = py_sum (durations t)
  /\ MetricsData.active_sandboxes m = gauge t
  /\ MetricsData.last_updated m = since t.

Lemma update_average_keeps_fields (mc : MetricsCollector.t) :
  let m := MetricsCollector.metrics mc in
  let m' := MetricsCollector.metrics (MetricsCollector._update_average_response_time mc) in
  MetricsData.total_requests m' = MetricsData.total_requests m
  /\ MetricsData.successful_requests m' = MetricsData.successful_requests m
  /\ MetricsData.failed_requests m' = MetricsData.failed_requests m
  /\ MetricsData.total_execution_time m' = MetricsData.total_execution_time m
  /\ MetricsData.active_sandboxes m' = MetricsData.active_sandboxes m
  /\ MetricsData.last_updated m' = MetricsData.last_updated m.
Proof.
  unfold MetricsCollector._update_average_response_time.
  destruct (MetricsCollector.response_times mc); cbn; repeat split.
Qed.

Lemma shows_apply_call t mc c : shows t mc -> shows (note_call t c) (apply_call c mc).
Proof.
  intros (H1 & H2 & H3 & H4 & H5 & H6).
  destruct c as [success rt|d|n|now]; cbn [apply_call note_call].
  - unfold MetricsCollector.record_request.
    match goal with
    | |- shows _ (MetricsCollector._update_average_response_time ?mc') =>
        destruct (update_average_keeps_fields mc') as (E1 & E2 & E3 & E4 & E5 & E6)
    end.
    unfold shows. cbn zeta in *. rewrite E1, E2, E3, E4, E5, E6.
    cbn [MetricsCollector.metrics MetricsData.total_requests
         MetricsData.successful_requests MetricsData.failed_requests
         MetricsData.total_execution_time MetricsData.active_sandboxes
         MetricsData.last_updated outcomes durations gauge since].
    rewrite !List.filter_app. unfold py_len in *. rewrite !length_app.
    destruct success; cbn [List.filter id negb length app];
      repeat split; try assumption; lia.
  - unfold shows. cbn. unfold py_sum in *. rewrite fold_left_app. cbn.
    rewrite H4. repeat split; assumption.
  - unfold shows. cbn. repeat split; assumption.
  - unfold shows. cbn. repeat split.
Qed.

Lemma shows_run_calls calls : forall t mc,
  shows t mc -> shows (fold_left note_call calls t) (run_calls calls mc).
Proof.
  induction calls as [|c calls IH]; intros t mc H; cbn; [exact H|].
  apply IH. now apply shows_apply_call.
Qed.

(** X4.  The fields of the collector that [record_execution],
    [update_active_sandboxes] and [reset] maintain.  After any interleaving
    of the four calls on a new collector: the three counters count the
    requests recorded since the last [reset], all of them, the successful
    ones and the failed ones; [total_execution_time] is the sum of the
    durations recorded since the last [reset]; [active_sandboxes] is the
    last count given since then, 0 when none was; [last_updated] is the
    reading of the clock at the last [reset], or at the construction. *)
Theorem metrics_fields_since_reset :
  forall (now : Q) (calls : list metrics_call),
    let m := MetricsCollector.metrics (run_calls calls (MetricsCollector.__init__ now)) in
    let t := tally_of now calls in
    MetricsData.total_requests m = py_len (outcomes t)
    /\ MetricsData.successful_requests m = py_len (List.filter id (outcomes t))
    /\ MetricsData.failed_requests m = py_len (List.filter negb (outcomes t))
    /\ MetricsData.total_execution_time m = py_sum (durations t)
    /\ MetricsData.active_sandboxes m = gauge t
    /\ MetricsData.last_updated m = since t.
Proof.
  intros now calls. apply (shows_run_calls calls (mkTally [] [] 0 now)).
  unfold shows. cbn. repeat split.
Qed.

End MetricsFieldsFacts.

(** ** The rate limiter *)

Section RateLimiterFacts.

(** The age in milliseconds, at the reading [time_time] of the clock, of a
    stored timestamp. *)
Definition age_ms (time_time ts : Q) : Q := (time_time * 1000 - ts)%Q.

(** "Older than 60000 ms": the age exceeds 60000. *)
Definition older_than_a_minute (time_time ts : Q) : bool :=
  Qgtb (age_ms time_time ts) 60000.

(** Aged 60000 ms or more. *)
Definition a_minute_old (time_time ts : Q) : bool :=
  Qle_bool 60000 (age_ms time_time ts).

(** The answer the contract describes, for a rule [discard] that says which
    timestamps to drop: fewer than the maximum remain. *)
Definition fewer_remain (discard : Q -> bool) (self : RateLimiter.t) : bool :=
  py_len (List.filter (fun ts => negb (discard ts)) (RateLimiter.request_timestamps self))
  <? RateLimiter.max_requests_per_minute self.

(** [record_request] at each reading of [times], in turn. *)
Definition record_requests (times : list Q) (self : RateLimiter.t) : RateLimiter.t :=
  fold_left (fun rl t => RateLimiter.record_request t rl) times self.

Lemma Qgtb_true (x y : Q) : Qgtb x y = true <-> (y < x)%Q.
Proof.
  unfold Qgtb. rewrite negb_true_iff, <- not_true_iff_false, Qle_bool_iff.
  split; [apply Qnot_le_lt | apply Qlt_not_le].
Qed.

Lemma kept_iff_not_a_minute_old (time_time ts : Q) :
  Qgtb ts (time_time * 1000 - 60000) = negb (a_minute_old time_time ts).
Proof.
  unfold a_minute_old, age_ms.
  destruct (Qgtb ts (time_time * 1000 - 60000)) eqn:E.
  - apply Qgtb_true in E. symmetry. apply negb_true_iff, not_true_iff_false.
    rewrite Qle_bool_iff. lra.
  - symmetry. apply negb_false_iff, Qle_bool_iff.
    apply not_true_iff_false in E. rewrite Qgtb_true in E. lra.
Qed.

Lemma can_make_request_spec (time_time : Q) (self : RateLimiter.t) :
  RateLimiter.can_make_request time_time self
  = (fewer_remain (a_minute_old time_time) self,
     RateLimiter.mk (RateLimiter.max_requests_per_minute self)
       (List.filter (fun ts => negb (a_minute_old time_time ts))
          (RateLimiter.request_timestamps self))
       (RateLimiter.concurrent_jobs self)).
Proof.
  unfold RateLimiter.can_make_request, fewer_remain.
  rewrite (List.filter_ext _ (fun ts => negb (a_minute_old time_time ts)));
    [reflexivity|].
  intros ts. apply kept_iff_not_a_minute_old.
Qed.

Lemma record_requests_timestamps times self :
  RateLimiter.request_timestamps (record_requests times self)
  = RateLimiter.request_timestamps self ++ ((fun t => (t * 1000)%Q) <$> times)
  /\ RateLimiter.max_requests_per_minute (record_requests times self)
     = RateLimiter.max_requests_per_minute self.
Proof.
  unfold record_requests. revert self.
  induction times as [|t times IH]; intros self; cbn [fold_left fmap list_fmap].
  - now rewrite app_nil_r.
  - destruct (IH (RateLimiter.record_request t self)) as [-> ->]. cbn.
    now rewrite <- app_assoc.
Qed.

Lemma filter_all {A} (f : A -> bool) (l : list A) :
  Forall (fun x => f x = true) l -> List.filter f l = l.
Proof.
  induction 1 as [|x l Hx _ IH]; cbn; [reflexivity|]. now rewrite Hx, IH.
Qed.

Lemma fresh_not_a_minute_old (time_time ts : Q) :
  (age_ms time_time ts < 60000)%Q -> negb (a_minute_old time_time ts) = true.
Proof.
  intros H. apply negb_true_iff, not_true_iff_false.
  unfold a_minute_old. rewrite Qle_bool_iff. intros H'.
  apply (Qlt_irrefl 60000). now apply Qle_lt_trans with (age_ms time_time ts).
Qed.

(** C5, with the boundary as the code has it.  [can_make_request()] answers
    whether fewer than [max_requests_per_minute] timestamps remain once
    every timestamp aged 60000 ms or more is dropped, and stores what
    remains.  After [max_requests_per_minute] requests recorded less than
    60000 ms ago it answers false.  When the oldest of a full list has
    reached 60000 ms and the others have not, it answers true and exactly
    one slot is free: the list is one short of the maximum, and one more
    request recorded fills it again. *)
Theorem can_make_request_window :
  (forall time_time self,
      (RateLimiter.can_make_request time_time self).1
      = fewer_remain (a_minute_old time_time) self
      /\ RateLimiter.request_timestamps (RateLimiter.can_make_request time_time self).2
         = List.filter (fun ts => negb (a_minute_old time_time ts))
             (RateLimiter.request_timestamps self))
  /\ (forall times self time_time,
      py_len times = RateLimiter.max_requests_per_minute self ->
      Forall (fun t => (age_ms time_time (t * 1000) < 60000)%Q) times ->
      (RateLimiter.can_make_request time_time (record_requests times self)).1 = false)
  /\ (forall max oldest rest jobs time_time,
      py_len (oldest :: rest) = max ->
      (60000 <= age_ms time_time oldest)%Q ->
      Forall (fun ts => (age_ms time_time ts < 60000)%Q) rest ->
      let after := RateLimiter.can_make_request time_time
                     (RateLimiter.mk max (oldest :: rest) jobs) in
      after.1 = true
      /\ RateLimiter.request_timestamps after.2 = rest
      /\ py_len (RateLimiter.request_timestamps after.2) = max - 1
      /\ forall recorded_at later,
           Forall (fun ts => (age_ms later ts < 60000)%Q) rest ->
           (age_ms later (recorded_at * 1000) < 60000)%Q ->
           (RateLimiter.can_make_request later
              (RateLimiter.record_request recorded_at after.2)).1 = false).
Proof.
  split; [|split].
  - intros time_time self. now rewrite can_make_request_spec.
  - intros times self time_time Hlen Hfresh.
    rewrite can_make_request_spec. cbn [fst]. unfold fewer_remain.
    destruct (record_requests_timestamps times self) as [-> ->].
    rewrite List.filter_app. unfold py_len in *. rewrite length_app.
    rewrite (filter_all _ ((fun t => (t * 1000)%Q) <$> times)).
    + rewrite length_fmap. apply Z.ltb_ge. lia.
    + apply Forall_fmap. eapply Forall_impl; [exact Hfresh|].
      intros t Ht. now apply fresh_not_a_minute_old.
  - intros max oldest rest jobs time_time Hlen Hold Hfresh after. subst after.
    rewrite can_make_request_spec. cbn [fst snd RateLimiter.request_timestamps].
    unfold fewer_remain. cbn [RateLimiter.request_timestamps
      RateLimiter.max_requests_per_minute List.filter].
    assert (Ho : a_minute_old time_time oldest = true)
      by (unfold a_minute_old; now apply Qle_bool_iff).
    rewrite Ho. cbn [negb]. rewrite filter_all.
    + unfold py_len in *. cbn [length] in Hlen. split; [apply Z.ltb_lt; lia|].
      split; [reflexivity|]. split; [lia|].
      intros recorded_at later Hrest Hnew.
      rewrite can_make_request_spec. cbn [fst]. unfold fewer_remain.
      cbn [RateLimiter.record_request RateLimiter.request_timestamps
           RateLimiter.max_requests_per_minute].
      rewrite filter_all.
      * unfold py_len. rewrite length_app. cbn [length]. apply Z.ltb_ge. lia.
      * apply Forall_app. split.
        -- eapply Forall_impl; [exact Hrest|].
           intros t Ht. now apply fresh_not_a_minute_old.
        -- constructor; [now apply fresh_not_a_minute_old | constructor].
    + eapply Forall_impl; [exact Hfresh|].
      intros t Ht. now apply fresh_not_a_minute_old.
Qed.

Definition boundary_limiter : RateLimiter.t := RateLimiter.mk 1 [0%Q] 0.

(** C5 as stated fails on the boundary: a timestamp exactly 60000 ms old is
    not older than 60000 ms, so one timestamp remains and the answer should
    be false for a maximum of 1; the code drops it and answers true. *)
Lemma can_make_request_boundary :
  (RateLimiter.can_make_request 60 boundary_limiter).1 = true
  /\ fewer_remain (older_than_a_minute 60) boundary_limiter = false
  /\ age_ms 60 0 = 60000%Q.
Proof. repeat split; vm_compute; reflexivity. Qed.

End RateLimiterFacts.

(** ** The limiter's other methods *)

Section RetryAfterFacts.

(** [int(x)] rounds a float that is not negative down. *)
Lemma py_int_rounds_down (x : Q) :
  (0 <= x)%Q ->
  0 <= py_int x
  /\ (inject_Z (py_int x) <= x)%Q /\ (x < inject_Z (py_int x) + 1)%Q.
Proof.
  intros Hx. assert (Hn : 0 <= Qnum x).
  { destruct x as [n d]. unfold Qle in Hx. cbn in *. lia. }
  assert (Hq : py_int x = Qfloor x).
  { unfold py_int, Qfloor. destruct x as [n d]. cbn [Qnum Qden] in *.
    apply Z.quot_div_nonneg; lia. }
  split; [unfold py_int; apply Z.quot_pos; lia|].
  rewrite Hq. split; [apply Qfloor_le|].
  pose proof (Qlt_floor x) as H. rewrite inject_Z_plus in H. exact H.
Qed.

Lemma py_int_not_positive (x : Q) : (x <= 0)%Q -> py_int x <= 0.
Proof.
  intros Hx. unfold py_int. destruct x as [n d]. cbn [Qnum Qden].
  unfold Qle in Hx. cbn in Hx.
  assert (Hn : n <= 0) by lia.
  replace n with (- (- n)) by lia. rewrite Z.quot_opp_l by lia.
  pose proof (Z.quot_pos (- n) (Z.pos d)). lia.
Qed.

(** What [get_retry_after] returns for an oldest timestamp of a given age:
    the whole milliseconds that are left of its minute. *)
Lemma retry_after_of_age (time_time oldest : Q) rest max jobs :
  let r := RateLimiter.get_retry_after time_time
             (RateLimiter.mk max (oldest :: rest) jobs) in
  0 <= r
  /\ (60000 - age_ms time_time oldest < inject_Z r + 1)%Q
  /\ (0 < r -> (inject_Z r <= 60000 - age_ms time_time oldest)%Q).
Proof.
  intros r. subst r. unfold RateLimiter.get_retry_after, age_ms.
  cbn [RateLimiter.request_timestamps].
  set (x := (60000 - (time_time * 1000 - oldest))%Q).
  split; [lia|].
  destruct (Qlt_le_dec x 0) as [Hneg|Hpos].
  - pose proof (py_int_not_positive x (Qlt_le_weak _ _ Hneg)) as Hi.
    rewrite Z.max_r by lia. split; [|lia].
    apply Qlt_trans with 0%Q; [exact Hneg | reflexivity].
  - destruct (py_int_rounds_down x Hpos) as (H0 & Hlo & Hhi).
    rewrite Z.max_l by lia. split; [exact Hhi | intros _; exact Hlo].
Qed.

(** X5.  [get_retry_after()] is never negative, is 0 when no timestamp is
    stored, and is at most 60000 when the oldest stored timestamp is not in
    the future.  It is the time left to the oldest timestamp rounded down to
    whole milliseconds: at any instant less than that many milliseconds
    later the oldest timestamp still counts, and one millisecond more than
    it is always enough for [can_make_request] to drop it. *)
Theorem retry_after_rounds_down :
  forall time_time (self : RateLimiter.t),
    let r := RateLimiter.get_retry_after time_time self in
    0 <= r
    /\ (RateLimiter.request_timestamps self = [] -> r = 0)
    /\ forall oldest rest,
         RateLimiter.request_timestamps self = oldest :: rest ->
         ((oldest <= time_time * 1000)%Q -> r <= 60000)
         /\ (forall later,
                0 < r -> (later * 1000 < time_time * 1000 + inject_Z r)%Q ->
                a_minute_old later oldest = false)
         /\ (forall later,
                (time_time * 1000 + inject_Z r + 1 <= later * 1000)%Q ->
                a_minute_old later oldest = true).
Proof.
  intros time_time [max ts jobs] r. subst r. destruct ts as [|oldest rest].
  - cbn. repeat split; try lia; intros; discriminate.
  - destruct (retry_after_of_age time_time oldest rest max jobs) as (H0 & Hhi & Hlo).
    set (r := RateLimiter.get_retry_after _ _) in *. clearbody r.
    split; [exact H0|]. split; [discriminate|].
    cbn [RateLimiter.request_timestamps]. intros o' rest' [= <- <-].
    unfold age_ms in *. split; [|split].
    + intros Hpast. destruct (Z.eq_dec r 0) as [->|Hr]; [lia|].
      assert (Hpos : 0 < r) by lia. specialize (Hlo Hpos).
      rewrite Zle_Qle. change (inject_Z 60000) with 60000%Q. lra.
    + intros later Hr Hlt. specialize (Hlo Hr). unfold a_minute_old, age_ms.
      apply not_true_iff_false. rewrite Qle_bool_iff. lra.
    + intros later Hle. unfold a_minute_old, age_ms. apply Qle_bool_iff. lra.
Qed.

End RetryAfterFacts.

Section ConcurrentJobsFacts.

Inductive jobs_call : Type :=
| call_increment
| call_decrement.

Definition apply_jobs_call (c : jobs_call) (self : RateLimiter.t) : RateLimiter.t :=
  match c with
  | call_increment => (RateLimiter.increment_concurrent_jobs self).2
  | call_decrement => (RateLimiter.decrement_concurrent_jobs self).2
  end.

Definition run_jobs_calls (calls : list jobs_call) (self : RateLimiter.t)
  : RateLimiter.t :=
  fold_left (fun rl c => apply_jobs_call c rl) calls self.

Definition is_increment (c : jobs_call) : bool :=
  match c with call_increment => true | call_decrement => false end.

Definition increments (calls : list jobs_call) : Z :=
  py_len (List.filter is_increment calls).

Definition decrements (calls : list jobs_call) : Z :=
  py_len (List.filter (fun c => negb (is_increment c)) calls).

(** The decrements of a history that find no job to end: those issued when
    every increment before them is already matched. *)
Fixpoint unmatched_decrements (running : Z) (calls : list jobs_call) : Z :=
  match calls with
  | [] => 0
  | call_increment :: rest => unmatched_decrements (running + 1) rest
  | call_decrement :: rest =>
      if running <=? 0 then 1 + unmatched_decrements 0 rest
      else unmatched_decrements (running - 1) rest
  end.

Lemma unmatched_decrements_bounds running calls :
  0 <= unmatched_decrements running calls <= decrements calls.
Proof.
  revert running. induction calls as [|[|] rest IH]; intros running;
    unfold decrements, py_len in *; cbn [unmatched_decrements List.filter is_increment negb length].
  - cbn. lia.
  - apply IH.
  - destruct (running <=? 0); [specialize (IH 0)|specialize (IH (running - 1))];
      cbn [length]; lia.
Qed.

Lemma run_jobs_calls_count calls : forall self,
  0 <= RateLimiter.concurrent_jobs self ->
  let after := run_jobs_calls calls self in
  RateLimiter.concurrent_jobs after
  = RateLimiter.concurrent_jobs self + increments calls - decrements calls
    + unmatched_decrements (RateLimiter.concurrent_jobs self) calls
  /\ 0 <= RateLimiter.concurrent_jobs after
  /\ RateLimiter.request_timestamps after = RateLimiter.request_timestamps self
  /\ RateLimiter.max_requests_per_minute after
     = RateLimiter.max_requests_per_minute self.
Proof.
  unfold run_jobs_calls.
  induction calls as [|[|] rest IH]; intros self Hpos;
    cbn [fold_left apply_jobs_call unmatched_decrements].
  - cbn. repeat split; [|exact Hpos]. unfold increments, decrements. cbn. lia.
  - destruct (IH (RateLimiter.increment_concurrent_jobs self).2)
      as (H1 & H0 & H2 & H3); [cbn; lia|].
    cbn zeta in H1, H0, H2, H3 |- *. rewrite H1 in H0. rewrite H1, H2, H3.
    unfold increments, decrements, py_len in *.
    cbn [List.filter is_increment negb length RateLimiter.increment_concurrent_jobs
         snd RateLimiter.concurrent_jobs RateLimiter.request_timestamps
         RateLimiter.max_requests_per_minute] in *.
    repeat split; lia.
  - destruct (IH (RateLimiter.decrement_concurrent_jobs self).2)
      as (H1 & H0 & H2 & H3); [cbn; lia|].
    cbn zeta in H1, H0, H2, H3 |- *. rewrite H1 in H0. rewrite H1, H2, H3.
    unfold increments, decrements, py_len in *.
    cbn [List.filter is_increment negb length RateLimiter.decrement_concurrent_jobs
         snd RateLimiter.concurrent_jobs RateLimiter.request_timestamps
         RateLimiter.max_requests_per_minute] in *.
    destruct (Z.leb_spec (RateLimiter.concurrent_jobs self) 0).
    + replace (RateLimiter.concurrent_jobs self) with 0 in * by lia.
      rewrite Z.max_r in * by lia. repeat split; lia.
    + rewrite Z.max_l in * by lia. repeat split; lia.
Qed.

(** X6.  The counter of concurrent jobs.  Each of
    [increment_concurrent_jobs] and [decrement_concurrent_jobs] returns the
    count it has just stored, and a decrement never leaves the count below
    zero.  After any history of the two on a new limiter the count is the
    increments minus the decrements plus the decrements that found nothing
    to end, so it lies between that difference and the number of
    increments; the timestamps and the maximum are not touched. *)
Theorem concurrent_jobs_never_negative :
  (forall self,
      (RateLimiter.increment_concurrent_jobs self).1
      = RateLimiter.get_concurrent_jobs (RateLimiter.increment_concurrent_jobs self).2
      /\ (RateLimiter.decrement_concurrent_jobs self).1
         = RateLimiter.get_concurrent_jobs (RateLimiter.decrement_concurrent_jobs self).2
      /\ 0 <= (RateLimiter.decrement_concurrent_jobs self).1)
  /\ (forall max calls,
      let after := run_jobs_calls calls (RateLimiter.__init__ max) in
      let jobs := RateLimiter.get_concurrent_jobs after in
      jobs = increments calls - decrements calls + unmatched_decrements 0 calls
      /\ 0 <= jobs
      /\ increments calls - decrements calls <= jobs <= increments calls
      /\ RateLimiter.request_timestamps after = []
      /\ RateLimiter.max_requests_per_minute after = max).
Proof.
  split.
  - intros self. cbn. repeat split. lia.
  - intros max calls after jobs. subst after jobs.
    destruct (run_jobs_calls_count calls (RateLimiter.__init__ max))
      as (H1 & H0 & H2 & H3); [cbn; lia|].
    cbn zeta in H1, H0, H2, H3. unfold RateLimiter.get_concurrent_jobs.
    rewrite H2, H3. rewrite H1 in H0 |- *.
    cbn [RateLimiter.__init__ RateLimiter.concurrent_jobs
      RateLimiter.request_timestamps RateLimiter.max_requests_per_minute] in *.
    pose proof (unmatched_decrements_bounds 0 calls) as Hu.
    repeat split; lia.
Qed.

End ConcurrentJobsFacts.

(** ** The facade *)

Section FacadeFacts.

Import SandboxSDK.

Lemma run_bind {A B} (c : M A) (k : A -> M B) (st : state) :
  (c ≫= k) st
  = match c st with
    | (Ok a, st') => k a st'
    | (Raise e, st') => (Raise e, st')
    end.
Proof. reflexivity. Qed.

(** Unfold the binds of a computation applied to a state, primitive by
    primitive. *)
Ltac run_steps :=
  repeat (rewrite run_bind;
          cbn [update get_self lift raise not_found mret M_ret self world]).

(** The state [_check_rate_limit] leaves and what it answers, by what the
    limiter says at the first of the two readings of the clock it takes. *)
Lemma check_rate_limit_run (st : state) :
  let s := self st in
  let w := world st in
  let now := World.clock w (World.ticks w) in
  let now' := World.clock w (S (World.ticks w)) in
  let checked := RateLimiter.can_make_request now (rate_limiter s) in
  let w' := World.tick (World.tick w) in
  _check_rate_limit st
  = if checked.1
    then (Ok tt,
          mkState (set_rate_limiter (RateLimiter.record_request now' checked.2) s) w')
    else (Raise (RateLimitError (RateLimiter.get_retry_after now' checked.2)),
          mkState (set_rate_limiter checked.2 s) w').
Proof.
  intros s w now now' checked w'. subst checked.
  unfold _check_rate_limit. rewrite run_bind. cbn [get_self].
  rewrite run_bind. cbn [time_time]. fold s w now.
  destruct (RateLimiter.can_make_request now (rate_limiter s)) as [allowed limiter].
  cbn [fst snd]. destruct allowed; reflexivity.
Qed.

(** The request [_make_request] sends. *)
Definition request_of (s : t) (method : http_method) (path : endpoint)
    (payload : pyval) (timeout_ms : option Z) : Request.t :=
  Request.mk method (Config.server_url (config s)) path payload
    [("Content-Type", "application/json");
     ("Authorization", "Bearer " +:+ Config.api_key (config s))]
    (inject_Z (effective_timeout timeout_ms (Config.timeout (config s))) / 1000)%Q.

Lemma request_of_same_config s s' method path payload timeout_ms :
  config s = config s' ->
  request_of s method path payload timeout_ms
  = request_of s' method path payload timeout_ms.
Proof. unfold request_of. now intros ->. Qed.

(** How the next call of [requests.request] ends, were its request [req]:
    with what the transport gives to the next request, unless [requests]
    refuses the timeout of [req]. *)
Definition next_outcome (st : state) (req : Request.t) : ending :=
  match validate_timeout (Request.timeout req) with
  | Raise e => Unsent e
  | Ok _ => Sent (World.transport (world st) (length (World.sent (world st))) req)
  end.

(** What [_make_request] raises or returns for an ending of its call of
    [requests.request]. *)
Definition answer_of (timeout_ms : option Z) (e : ending) : result pyval :=
  match e with
  | Sent (Responded data) => Ok data
  | Sent TimedOut =>
      Raise (TimeoutError ("Request timeout after " +:+ fmt_opt_int timeout_ms +:+ "ms"))
  | Sent (Failed str_e _) => Raise (SandboxError str_e)
  | Unsent e => Raise e
  end.

Definition succeeded (out : outcome) : bool :=
  match out with Responded _ => true | _ => false end.

(** The next reading of the clock, and the one after it: the two that
    [_check_rate_limit] takes, the first to test and the second to record,
    and the two that [_make_request] takes around its request. *)
Definition reading (st : state) : Q :=
  World.clock (world st) (World.ticks (world st)).
Definition next_reading (st : state) : Q :=
  World.clock (world st) (S (World.ticks (world st))).

(** Milliseconds between the two readings [_make_request] takes. *)
Definition elapsed_ms (st : state) : Q :=
  ((next_reading st - reading st) * 1000)%Q.

(** The state after a call of [_make_request] for [req].  When the request
    goes out: one more sample in the collector, one more request sent, the
    clock read twice.  When [requests] refuses it: the clock read once. *)
Definition answered (st : state) (req : Request.t) : state :=
  match next_outcome st req with
  | Sent out =>
      mkState
        (set_metrics_collector
           (MetricsCollector.record_request (succeeded out)
              (elapsed_ms st) (metrics_collector (self st)))
           (self st))
        (World.tick (World.send req (World.tick (world st))))
  | Unsent _ => mkState (self st) (World.tick (world st))
  end.

Lemma answered_sent (st : state) req out :
  next_outcome st req = Sent out ->
  answered st req
  = mkState
      (set_metrics_collector
         (MetricsCollector.record_request (succeeded out)
            (elapsed_ms st) (metrics_collector (self st)))
         (self st))
      (World.tick (World.send req (World.tick (world st)))).
Proof. unfold answered. now intros ->. Qed.

(** One call of [_make_request].  A request that goes out makes one round
    trip: two readings of the clock around it, and one sample for the
    metrics collector.  A request that [requests] refuses leaves after the
    first reading: nothing is sent and nothing recorded. *)
Lemma make_request_run method path payload timeout_ms (st : state) :
  let s := self st in
  let w := world st in
  let req := request_of s method path payload timeout_ms in
  let start_time := World.clock w (World.ticks w) in
  let now := World.clock w (S (World.ticks w)) in
  _make_request method path payload timeout_ms st
  = match next_outcome st req with
    | Sent out =>
        (answer_of timeout_ms out,
         mkState
           (set_metrics_collector
              (MetricsCollector.record_request (succeeded out)
                 ((now - start_time) * 1000)%Q (metrics_collector s)) s)
           (World.tick (World.send req (World.tick w))))
    | Unsent e => (Raise e, mkState s (World.tick w))
    end.
Proof.
  intros s w req start_time now.
  unfold _make_request. rewrite run_bind. cbn [get_self].
  rewrite run_bind. cbn [time_time]. rewrite run_bind.
  unfold requests_request, next_outcome.
  cbn [world self World.sent World.tick World.transport World.clock World.ticks].
  fold s w. fold (request_of s method path payload timeout_ms). fold req.
  destruct (validate_timeout (Request.timeout req)) as [[]|e]; [|reflexivity].
  destruct (World.transport w (length (World.sent w)) req) as [data| |str_e response];
    cbn.
  - reflexivity.
  - reflexivity.
  - destruct (inner_try response); reflexivity.
Qed.



Lemma make_request_answered method path payload timeout_ms (st : state) :
  let req := request_of (self st) method path payload timeout_ms in
  _make_request method path payload timeout_ms st
  = (answer_of timeout_ms (next_outcome st req), answered st req).
Proof.
  intros req. subst req. rewrite make_request_run. unfold answered.
  now destruct (next_outcome st _).
Qed.


(** [run_code] and [run_terminal] behind the limiter, for an id that is not
    cached. *)
Lemma run_code_not_cached sandbox_id code opts (st : state) :
  active_sandboxes (self st) !! KStr sandbox_id = None ->
  run_code sandbox_id code opts st
  = match _check_rate_limit st with
    | (Ok _, st') => (Raise (SandboxError ("Sandbox " +:+ sandbox_id +:+ " not found")), st')
    | (Raise e, st') => (Raise e, st')
    end.
Proof.
  intros Hnone. unfold run_code. rewrite run_bind.
  rewrite check_rate_limit_run.
  destruct (RateLimiter.can_make_request _ _).1; [|reflexivity].
  rewrite run_bind. cbn [get_self self set_rate_limiter active_sandboxes].
  now rewrite Hnone.
Qed.

Lemma run_terminal_not_cached sandbox_id command opts (st : state) :
  active_sandboxes (self st) !! KStr sandbox_id = None ->
  run_terminal sandbox_id command opts st
  = match _check_rate_limit st with
    | (Ok _, st') => (Raise (SandboxError ("Sandbox " +:+ sandbox_id +:+ " not found")), st')
    | (Raise e, st') => (Raise e, st')
    end.
Proof.
  intros Hnone. unfold run_terminal. rewrite run_bind.
  rewrite check_rate_limit_run.
  destruct (RateLimiter.can_make_request _ _).1; [|reflexivity].
  rewrite run_bind. cbn [get_self self set_rate_limiter active_sandboxes].
  now rewrite Hnone.
Qed.

Definition limiter_allows (st : state) : bool :=
  (RateLimiter.can_make_request (reading st) (rate_limiter (self st))).1.

(** The exception a call ends with, if any. *)
Definition raised {A} (r : result A) : option exn :=
  match r with Ok _ => None | Raise e => Some e end.

(** What a call on [sandbox_id] from [st] did when it ends in [st'] with
    [outcome]: it raised "not found", left the caches, the metrics and the
    network alone, and the limiter pruned its timestamps and recorded one. *)
Definition failed_after_recording (sandbox_id : string) (st : state)
    (outcome : option exn) (st' : state) : Prop :=
  outcome = Some (SandboxError ("Sandbox " +:+ sandbox_id +:+ " not found"))
  /\ active_sandboxes (self st') = active_sandboxes (self st)
  /\ active_contexts (self st') = active_contexts (self st)
  /\ metrics_collector (self st') = metrics_collector (self st)
  /\ World.sent (world st') = World.sent (world st)
  /\ RateLimiter.request_timestamps (rate_limiter (self st'))
     = List.filter (fun ts => Qgtb ts (reading st * 1000 - 60000)%Q)
         (RateLimiter.request_timestamps (rate_limiter (self st)))
       ++ [(next_reading st * 1000)%Q].

(** C10.  When [run_code] or [run_terminal] is called with an id that is
    not cached and the limiter lets the call through, it raises the
    "not found" [SandboxError]; the caches and the metrics are as before, no
    request has been sent, and the limiter holds its pruned timestamps
    followed by one new timestamp. *)
Theorem not_found_consumes_a_slot :
  forall sandbox_id code opts (st : state),
    active_sandboxes (self st) !! KStr sandbox_id = None ->
    limiter_allows st = true ->
    failed_after_recording sandbox_id st
      (raised (run_code sandbox_id code opts st).1)
      (run_code sandbox_id code opts st).2
    /\ failed_after_recording sandbox_id st
         (raised (run_terminal sandbox_id code opts st).1)
         (run_terminal sandbox_id code opts st).2.
Proof.
  intros sandbox_id code opts st Hnone Hallow.
  rewrite run_terminal_not_cached, run_code_not_cached by assumption.
  rewrite check_rate_limit_run. unfold limiter_allows, reading in Hallow.
  rewrite Hallow. unfold failed_after_recording. cbn. repeat split.
Qed.

(** C1.  What the code does on a transport failure that is not a timeout:
    it records [(False, elapsed_ms)] and raises [SandboxError(str(e))],
    whatever the body of the failed response holds.  The message of a
    structured error body never reaches the caller. *)
Theorem failed_request_raises_str_e :
  forall method path payload timeout_ms (st : state) str_e response,
    next_outcome st (request_of (self st) method path payload timeout_ms)
    = Failed str_e response ->
    let after := _make_request method path payload timeout_ms st in
    after.1 = Raise (SandboxError str_e)
    /\ metrics_collector (self after.2)
       = MetricsCollector.record_request false (elapsed_ms st)
           (metrics_collector (self st))
    /\ World.sent (world after.2)
       = World.sent (world st)
         ++ [request_of (self st) method path payload timeout_ms].
Proof.
  intros method path payload timeout_ms st str_e response Hout after.
  subst after. rewrite make_request_run. cbn zeta. rewrite Hout.
  cbn. repeat split.
Qed.

(** C4.  What the code does on a timeout: it records [(False, elapsed_ms)]
    and raises a [TimeoutError] whose message is built from the [timeout_ms]
    parameter as given ("None" when no override was passed), while the
    request itself was sent with the effective timeout. *)
Theorem timed_out_request_raises_timeout_ms :
  forall method path payload timeout_ms (st : state),
    next_outcome st (request_of (self st) method path payload timeout_ms)
    = TimedOut ->
    let after := _make_request method path payload timeout_ms st in
    after.1
    = Raise (TimeoutError
               ("Request timeout after " +:+ fmt_opt_int timeout_ms +:+ "ms"))
    /\ metrics_collector (self after.2)
       = MetricsCollector.record_request false (elapsed_ms st)
           (metrics_collector (self st))
    /\ Request.timeout (request_of (self st) method path payload timeout_ms)
       = (inject_Z (effective_timeout timeout_ms (Config.timeout (config (self st))))
          / 1000)%Q.
Proof.
  intros method path payload timeout_ms st Hout after.
  subst after. rewrite make_request_run. cbn zeta. rewrite Hout.
  cbn. repeat split.
Qed.









(** *** Frame conditions

    [keeps Inv R E c]: from a state that satisfies [Inv], [c] ends in a
    state that satisfies [Inv] and is related to the first by [R], and
    whatever it raises is in [E]. *)

(** An invariant and a relation between the state before and the state after
    that every step which only reads the clock or draws a random id
    maintains. *)
Class Frame (Inv : state -> Prop) (R : state -> state -> Prop) : Prop := {
  frame_refl : forall st, R st st;
  frame_trans : forall a b c, R a b -> R b c -> R a c;
  frame_tick : forall s w,
    Inv (mkState s w) ->
    Inv (mkState s (World.tick w)) /\ R (mkState s w) (mkState s (World.tick w));
  frame_draw : forall s w,
    Inv (mkState s w) ->
    Inv (mkState s (World.draw w)) /\ R (mkState s w) (mkState s (World.draw w))
}.

Section Frames.

Context (Inv : state -> Prop) (R : state -> state -> Prop) `{FR : !Frame Inv R}.

Definition keeps {A} (E : exn -> Prop) (c : M A) : Prop :=
  forall st, Inv st ->
    Inv (c st).2 /\ R st (c st).2 /\ (forall e, raised (c st).1 = Some e -> E e).

Lemma keeps_ret {A} E (a : A) : keeps E (mret a).
Proof. intros st Hi. repeat split; [exact Hi | apply frame_refl | discriminate]. Qed.

Lemma keeps_raise {A} (E : exn -> Prop) e : E e -> keeps E (@raise A e).
Proof.
  intros He st Hi.
  repeat split; [exact Hi | apply frame_refl | now intros e' [= <-]].
Qed.

Lemma keeps_lift {A} (E : exn -> Prop) (r : result A) :
  (forall e, raised r = Some e -> E e) -> keeps E (lift r).
Proof. intros Hr st Hi. repeat split; [exact Hi | apply frame_refl | exact Hr]. Qed.

Lemma keeps_get_self E : keeps E get_self.
Proof. intros st Hi. repeat split; [exact Hi | apply frame_refl | discriminate]. Qed.

Lemma keeps_time_time E : keeps E time_time.
Proof.
  intros [s w] Hi. destruct (frame_tick s w Hi) as [Hi' Hr].
  repeat split; [exact Hi' | exact Hr | discriminate].
Qed.

Lemma keeps_uuid_uuid4 E : keeps E uuid_uuid4.
Proof.
  intros [s w] Hi. destruct (frame_draw s w Hi) as [Hi' Hr].
  repeat split; [exact Hi' | exact Hr | discriminate].
Qed.

Lemma keeps_update E (f : t -> t) :
  (forall s w, Inv (mkState s w) ->
               Inv (mkState (f s) w) /\ R (mkState s w) (mkState (f s) w)) ->
  keeps E (update f).
Proof.
  intros Hf [s w] Hi. destruct (Hf s w Hi) as [Hi' Hr].
  repeat split; [exact Hi' | exact Hr | discriminate].
Qed.

Lemma keeps_bind {A B} E (c : M A) (k : A -> M B) :
  keeps E c -> (forall a, keeps E (k a)) -> keeps E (c ≫= k).
Proof.
  intros Hc Hk st Hi. rewrite run_bind. destruct (Hc st Hi) as (Hi' & HR & HE).
  destruct (c st) as [[a|e] st']; cbn [fst snd] in *.
  - destruct (Hk a st' Hi') as (Hi'' & HR' & HE').
    repeat split; [exact Hi'' | now apply (frame_trans _ st') | exact HE'].
  - repeat split; [exact Hi' | exact HR | exact HE].
Qed.

Lemma keeps_weaken {A} (E E' : exn -> Prop) (c : M A) :
  (forall e, E e -> E' e) -> keeps E c -> keeps E' c.
Proof.
  intros HEE Hc st Hi. destruct (Hc st Hi) as (Hi' & HR & HE).
  repeat split; auto.
Qed.

Lemma keeps_try_except {A} E E' (c : M A) (handler : exn -> M A) :
  keeps E c -> (forall e, keeps E' (handler e)) -> keeps E' (try_except c handler).
Proof.
  intros Hc Hh st Hi. unfold try_except. destruct (Hc st Hi) as (Hi' & HR & _).
  destruct (c st) as [[a|e] st']; cbn [fst snd] in *.
  - repeat split; [exact Hi' | exact HR | discriminate].
  - destruct (Hh e st' Hi') as (Hi'' & HR' & HE').
    repeat split; [exact Hi'' | now apply (frame_trans _ st') | exact HE'].
Qed.

Lemma keeps_for_each {A} E (l : list A) (body : A -> M unit) :
  (forall x, keeps E (body x)) -> keeps E (for_each l body).
Proof.
  intros Hb. induction l as [|x l IH]; cbn [for_each].
  - apply keeps_ret.
  - apply keeps_bind; [apply Hb | intros _; exact IH].
Qed.

(** One call of [_make_request] keeps [Inv] and [R] when they do not look
    at the metrics, the clock or the requests sent; a failure of the
    transport is judged in the state in which the request is made. *)
Lemma keeps_make_request (E : exn -> Prop) method path payload timeout_ms :
  (forall s w m req,
      Inv (mkState s w) ->
      Inv (mkState (set_metrics_collector m s)
             (World.tick (World.send req (World.tick w))))
      /\ R (mkState s w)
           (mkState (set_metrics_collector m s)
              (World.tick (World.send req (World.tick w))))) ->
  (forall m, E (TimeoutError ("Request timeout after " +:+ m))) ->
  (forall s w n req str_e response,
      Inv (mkState s w) ->
      World.transport w n req = Failed str_e response ->
      E (SandboxError str_e)) ->
  (forall value, E (timeout_error value)) ->
  keeps E (_make_request method path payload timeout_ms).
Proof.
  intros HR Ht Hs Hv [s w] Hi. rewrite make_request_run. cbn [fst snd self world].
  unfold next_outcome, validate_timeout. cbn [world].
  destruct (Qle_bool _ 0).
  - destruct (frame_tick s w Hi) as [Hi' Hr].
    repeat split; [exact Hi' | exact Hr |]. intros e [= <-]. apply Hv.
  - destruct (HR s w
                (MetricsCollector.record_request
                   (succeeded
                      (World.transport w (length (World.sent w))
                         (request_of s method path payload timeout_ms)))
                   ((World.clock w (S (World.ticks w)) - World.clock w (World.ticks w))
                    * 1000)%Q (metrics_collector s))
                (request_of s method path payload timeout_ms) Hi) as [Hi' Hr].
    repeat split; [exact Hi' | exact Hr |].
    intros e.
    destruct (World.transport _ _ _) as [data| |str_e response] eqn:Hout; cbn;
      intros [= <-]; [apply Ht | eapply Hs; eassumption].
Qed.

End Frames.

(** No condition on the state. *)
Definition any_state (st : state) : Prop := True.

Definition same_limiter (st st' : state) : Prop :=
  rate_limiter (self st') = rate_limiter (self st).

Definition same_sent (st st' : state) : Prop :=
  World.sent (world st') = World.sent (world st).

(** No key enters the sandbox cache. *)
Definition no_new_sandbox (st st' : state) : Prop :=
  forall k, is_Some (active_sandboxes (self st') !! k) ->
            is_Some (active_sandboxes (self st) !! k).

#[local] Instance same_limiter_frame : Frame any_state same_limiter.
Proof.
  split; unfold same_limiter; intros; cbn; try split; try exact I; congruence.
Qed.

#[local] Instance same_sent_frame : Frame any_state same_sent.
Proof.
  split; unfold same_sent; intros; cbn; try split; try exact I; congruence.
Qed.

#[local] Instance no_new_sandbox_frame : Frame any_state no_new_sandbox.
Proof.
  split; unfold no_new_sandbox; intros; cbn in *; try split; try exact I; auto.
Qed.

Definition is_py_error (e : exn) : Prop := exists cls m, e = PyError cls m.

Definition not_rate_limit (e : exn) : Prop := forall r, e <> RateLimitError r.

Definition any_exn (e : exn) : Prop := True.

Lemma py_error_not_rate_limit e : is_py_error e -> not_rate_limit e.
Proof. intros (cls & m & ->) r. discriminate. Qed.

Lemma raised_py_get v k d e : raised (py_get v k d) = Some e -> is_py_error e.
Proof. destruct v; cbn; intros [= <-]; unfold is_py_error; eauto. Qed.

Lemma raised_py_getitem v k e : raised (py_getitem v k) = Some e -> is_py_error e.
Proof.
  destruct v; cbn; try (intros [= <-]; unfold is_py_error; eauto).
  destruct (dict_lookup d k); cbn; intros [= <-]; unfold is_py_error; eauto.
Qed.

Lemma raised_py_key v e : raised (py_key v) = Some e -> is_py_error e.
Proof. destruct v; cbn; intros [= <-]; unfold is_py_error; eauto. Qed.

Lemma raised_py_iter v e : raised (py_iter v) = Some e -> is_py_error e.
Proof. destruct v; cbn; intros [= <-]; unfold is_py_error; eauto. Qed.

Lemma raised_decode_results l e :
  raised (decode_results l) = Some e -> is_py_error e.
Proof.
  induction l as [|r l IH]; cbn; [discriminate|].
  destruct r; cbn; try (intros [= <-]; unfold is_py_error; eauto).
  destruct (decode_results l); cbn in *; [discriminate | exact IH].
Qed.

(** Break a [keeps] goal down along the structure of the computation. *)
Ltac keeps_step :=
  lazymatch goal with
  | |- keeps ?Inv ?R _ (_ ≫= _) => apply (keeps_bind Inv R); [|intros ?]
  | |- keeps ?Inv ?R _ (mret _) => apply (keeps_ret Inv R)
  | |- keeps ?Inv ?R _ get_self => apply (keeps_get_self Inv R)
  | |- keeps ?Inv ?R _ time_time => apply (keeps_time_time Inv R)
  | |- keeps ?Inv ?R _ uuid_uuid4 => apply (keeps_uuid_uuid4 Inv R)
  | |- keeps ?Inv ?R _ (for_each _ _) => apply (keeps_for_each Inv R); intros ?
  | |- keeps ?Inv ?R _ (lift _) => apply (keeps_lift Inv R)
  | |- keeps ?Inv ?R _ (update _) => apply (keeps_update Inv R)
  | |- keeps ?Inv ?R _ (raise _) => apply (keeps_raise Inv R)
  | |- keeps ?Inv ?R _ (_make_request _ _ _ _) => apply (keeps_make_request Inv R)
  | |- keeps _ _ _ (match ?x with _ => _ end) => destruct x
  end.

(** The side condition of a step under [any_state]: only the relation is
    left to prove. *)
Ltac any_state_side :=
  lazymatch goal with
  | |- forall s w, any_state _ -> _ =>
      intros ? ? _; split; [exact I|]
  | |- forall s w m req, any_state _ -> _ =>
      intros ? ? ? ? _; split; [exact I|]
  end.

Ltac lift_side :=
  intros ? ?;
  first [ exact I
        | apply py_error_not_rate_limit;
          first [ eapply raised_py_get; eassumption
                | eapply raised_py_getitem; eassumption
                | eapply raised_py_key; eassumption
                | eapply raised_py_iter; eassumption
                | eapply raised_decode_results; eassumption ] ].

Lemma store_by_id_keeps_limiter v store :
  (forall key d s, rate_limiter (store key d s) = rate_limiter s) ->
  keeps any_state same_limiter not_rate_limit (store_by_id v store).
Proof.
  intros Hs. unfold store_by_id.
  repeat (keeps_step; try lift_side).
  any_state_side. apply Hs.
Qed.



(** [language or sandbox.get("template_config", {}).get("language")]. *)
Definition context_language (sandbox : dict) (language : pyval) : result pyval :=
  if truthy language then Ok language
  else py_get (dict_get sandbox "template_config" (PDict [])) "language" PNone.

(** The payload of the request that creates a context. *)
Definition context_payload (language cwd : pyval) : pyval :=
  PDict [("language", language);
         ("cwd", if truthy cwd then cwd else PStr "/workspace")].















(** The operations that start with [_check_rate_limit]. *)
Definition gated (o : op) : bool :=
  match o with
  | op_create_sandbox _ | op_run_code _ _ _ | op_run_terminal _ _ _ => true
  | _ => false
  end.


(** *** Batches *)

(** The record [execute_batch] appends for a job whose [run_code] call ended
    with [outcome], [duration] milliseconds after the job started. *)
Definition job_record (job : BatchExecutionJob.t)
    (outcome : result ExecutionResult.t) (duration : Q) : BatchExecutionResult.t :=
  match outcome with
  | Ok x =>
      BatchExecutionResult.mk (BatchExecutionJob.id job) true
        (Some (ExecutionResult.execution x)) None duration
  | Raise e =>
      BatchExecutionResult.mk (BatchExecutionJob.id job) false
        None (Some (exn_str e)) duration
  end.

(** The state in which the [run_code] call of a job starts: the clock has
    been read once. *)
Definition job_started (st : state) : state :=
  mkState (self st) (World.tick (world st)).

Definition run_job (sandbox_id : string) (opts : RunCodeOptions.t)
    (job : BatchExecutionJob.t) (st : state) : result ExecutionResult.t * state :=
  run_code sandbox_id (BatchExecutionJob.code job)
    (RunCodeOptions.with_timeout_ms (BatchExecutionJob.timeout job) opts)
    (job_started st).

Lemma execute_job_run sandbox_id opts job (st : state) :
  let out := run_job sandbox_id opts job st in
  execute_job sandbox_id opts job st
  = (Ok (job_record job out.1 ((reading out.2 - reading st) * 1000)%Q),
     job_started out.2).
Proof.
  intros out. subst out. unfold execute_job, run_job.
  rewrite run_bind. cbn [time_time]. unfold try_except. rewrite run_bind.
  fold (job_started st).
  destruct (run_code _ _ _ (job_started st)) as [[x|e] st1]; cbn [fst snd];
    rewrite run_bind; reflexivity.
Qed.

(** The records of a batch, job after job, and the state it ends in. *)
Fixpoint batch_records (sandbox_id : string) (opts : RunCodeOptions.t)
    (jobs : list BatchExecutionJob.t) (st : state)
    : list BatchExecutionResult.t * state :=
  match jobs with
  | [] => ([], st)
  | job :: rest =>
      let out := run_job sandbox_id opts job st in
      let r := job_record job out.1 ((reading out.2 - reading st) * 1000)%Q in
      let tl := batch_records sandbox_id opts rest (job_started out.2) in
      (r :: tl.1, tl.2)
  end.

Lemma execute_jobs_run sandbox_id opts jobs results (st : state) :
  execute_jobs sandbox_id opts jobs results st
  = (Ok (results ++ (batch_records sandbox_id opts jobs st).1),
     (batch_records sandbox_id opts jobs st).2).
Proof.
  revert results st. induction jobs as [|job rest IH]; intros results st;
    cbn [execute_jobs batch_records].
  - cbn. now rewrite app_nil_r.
  - rewrite run_bind, execute_job_run. cbn [fst snd]. rewrite IH.
    now rewrite <- app_assoc.
Qed.

(** A record says either that the job succeeded, with its execution, or
    that it failed, with the message of the exception. *)
Definition well_formed_record (r : BatchExecutionResult.t) : Prop :=
  (BatchExecutionResult.success r = true
   /\ is_Some (BatchExecutionResult.execution r)
   /\ BatchExecutionResult.error r = None)
  \/ (BatchExecutionResult.success r = false
      /\ BatchExecutionResult.execution r = None
      /\ is_Some (BatchExecutionResult.error r)).

Lemma batch_records_shape sandbox_id opts jobs (st : state) :
  let records := (batch_records sandbox_id opts jobs st).1 in
  length records = length jobs
  /\ BatchExecutionResult.job_id <$> records = BatchExecutionJob.id <$> jobs
  /\ Forall well_formed_record records.
Proof.
  revert st. induction jobs as [|job rest IH]; intros st; cbn.
  - repeat split. constructor.
  - destruct (IH (job_started (run_job sandbox_id opts job st).2)) as (Hl & Hi & Hw).
    cbn in Hl, Hi, Hw. rewrite Hl, Hi. repeat split.
    + now destruct (run_job sandbox_id opts job st).1.
    + constructor; [|exact Hw].
      destruct (run_job sandbox_id opts job st).1; [left|right]; cbn; eauto.
Qed.

(** *** When the error of a failed job is not empty *)

(** An exception whose [str()] is not empty. *)
Definition worded (e : exn) : Prop := exn_str e <> "".

(** Every failure the transport reports has a message. *)
Definition polite_transport (st : state) : Prop :=
  forall n req str_e response,
    World.transport (world st) n req = Failed str_e response -> str_e <> "".

(** What an observer raises has a message. *)
Definition polite_callback {A} (cb : option (callback A)) : Prop :=
  forall f x e, cb = Some f -> f x = Raise e -> worded e.

Definition polite_options (opts : RunCodeOptions.t) : Prop :=
  polite_callback (RunCodeOptions.on_stdout opts)
  /\ polite_callback (RunCodeOptions.on_stderr opts)
  /\ polite_callback (RunCodeOptions.on_result opts)
  /\ polite_callback (RunCodeOptions.on_error opts).

(** No condition on the states before and after. *)
Definition any_step (st st' : state) : Prop := True.

#[local] Instance polite_frame : Frame polite_transport any_step.
Proof. split; intros; try exact I; split; try exact I; assumption. Qed.

Lemma worded_py_get v k d e : raised (py_get v k d) = Some e -> worded e.
Proof. destruct v; cbn; intros [= <-]; discriminate. Qed.

Lemma worded_py_getitem v k e : raised (py_getitem v k) = Some e -> worded e.
Proof.
  destruct v; cbn; try (intros [= <-]; discriminate).
  destruct (dict_lookup d k); cbn; intros [= <-]; discriminate.
Qed.

Lemma worded_py_iter v e : raised (py_iter v) = Some e -> worded e.
Proof. destruct v; cbn; intros [= <-]; discriminate. Qed.

Lemma worded_decode_results l e : raised (decode_results l) = Some e -> worded e.
Proof.
  induction l as [|r l IH]; cbn; [discriminate|].
  destruct r; cbn; try (intros [= <-]; discriminate).
  destruct (decode_results l); cbn in *; [discriminate | exact IH].
Qed.

Ltac worded_side :=
  intros ? ?;
  first [ eapply worded_py_get; eassumption
        | eapply worded_py_getitem; eassumption
        | eapply worded_py_iter; eassumption
        | eapply worded_decode_results; eassumption ].

Ltac polite_side :=
  lazymatch goal with
  | |- forall s w, polite_transport _ -> _ =>
      intros ? ? ?; split; [assumption | exact I]
  end.

Lemma check_rate_limit_worded :
  keeps polite_transport any_step worded _check_rate_limit.
Proof.
  unfold _check_rate_limit.
  repeat (keeps_step; try worded_side); try polite_side. discriminate.
Qed.

Lemma make_request_worded method path payload timeout_ms :
  keeps polite_transport any_step worded
    (_make_request method path payload timeout_ms).
Proof.
  apply (keeps_make_request polite_transport any_step).
  - intros s w m req Hp. split; [exact Hp | exact I].
  - discriminate.
  - intros s w n req str_e response Hp Hout. exact (Hp n req str_e response Hout).
  - intros value. unfold worded, timeout_error. cbn. discriminate.
Qed.

Lemma dispatch_lines_worded cb lines is_error :
  polite_callback cb ->
  keeps polite_transport any_step worded (dispatch_lines cb lines is_error).
Proof.
  intros Hcb. unfold dispatch_lines. destruct cb as [f|]; [|keeps_step].
  repeat (keeps_step; try worded_side).
  intros e He. destruct (f _) as [|e'] eqn:Hf; [discriminate|].
  injection He as <-. exact (Hcb f _ e' eq_refl Hf).
Qed.

Lemma run_code_worded sandbox_id code opts :
  polite_options opts ->
  keeps polite_transport any_step worded (run_code sandbox_id code opts).
Proof.
  intros (Hout & Herr & Hres & Herror). unfold run_code, not_found.
  repeat lazymatch goal with
    | |- keeps _ _ _ _check_rate_limit => apply check_rate_limit_worded
    | |- keeps _ _ _ (_make_request _ _ _ _) => apply make_request_worded
    | |- keeps _ _ _ (dispatch_lines _ _ _) =>
        apply dispatch_lines_worded; assumption
    | |- keeps _ _ _ (match RunCodeOptions.on_result opts with _ => _ end) =>
        destruct (RunCodeOptions.on_result opts) as [f|] eqn:Hf
    | |- keeps _ _ _ (match RunCodeOptions.on_error opts with _ => _ end) =>
        destruct (RunCodeOptions.on_error opts) as [g|] eqn:Hg
    | |- _ => keeps_step; try worded_side
    end.
  - intros e He. destruct (f _) as [|e'] eqn:Hfx; [discriminate|].
    injection He as <-. exact (Hres f _ e' eq_refl Hfx).
  - intros e He. destruct (g _) as [|e'] eqn:Hgx; [discriminate|].
    injection He as <-. exact (Herror g _ e' eq_refl Hgx).
  - discriminate.
Qed.

Lemma polite_with_timeout_ms v opts :
  polite_options opts -> polite_options (RunCodeOptions.with_timeout_ms v opts).
Proof. intros H. exact H. Qed.

(** With a polite transport and polite observers, no record of a batch has
    an empty error. *)
Lemma batch_errors_worded sandbox_id opts jobs (st : state) :
  polite_transport st ->
  polite_options opts ->
  Forall (fun r => forall m, BatchExecutionResult.error r = Some m -> m <> "")
    (batch_records sandbox_id opts jobs st).1.
Proof.
  intros Hp Ho. revert st Hp.
  induction jobs as [|job rest IH]; intros st Hp; cbn [batch_records fst];
    [constructor|].
  assert (Hs : polite_transport (job_started st)) by exact Hp.
  destruct (run_code_worded sandbox_id (BatchExecutionJob.code job) _
              (polite_with_timeout_ms (BatchExecutionJob.timeout job) opts Ho)
              (job_started st) Hs) as (Hp' & _ & He).
  fold (run_job sandbox_id opts job st) in Hp', He.
  constructor.
  - destruct (run_job sandbox_id opts job st).1 as [x|e]; cbn; intros m [= <-].
    now apply He.
  - apply IH. exact Hp'.
Qed.

(** *** Where cached sandboxes come from *)












(** A client that calls the operations of [ops] one after the other,
    catching what they raise. *)
Definition run_ops (ops : list op) (st : state) : state :=
  fold_left (fun st o => (call o st).2) ops st.









(** C9, as the code has it.  With a cached sandbox, [execute_batch] returns
    (no failure of a job leaves it) one record per job, in the order of the
    jobs and with their ids; the record of a job says [success: True] with
    the execution when its [run_code] call returned, and [success: False]
    with [error] the [str()] of the exception when it raised.  That
    message is not empty as long as the transport's failures and the
    observers' exceptions have one. *)
Theorem execute_batch_one_record_per_job :
  forall sandbox_id jobs opts (st : state),
    is_Some (active_sandboxes (self st) !! KStr sandbox_id) ->
    let batch := batch_records sandbox_id opts jobs st in
    execute_batch sandbox_id jobs opts st = (Ok batch.1, batch.2)
    /\ length batch.1 = length jobs
    /\ BatchExecutionResult.job_id <$> batch.1 = BatchExecutionJob.id <$> jobs
    /\ Forall well_formed_record batch.1
    /\ (forall job st',
          let out := run_job sandbox_id opts job st' in
          execute_job sandbox_id opts job st'
          = (Ok (job_record job out.1 ((reading out.2 - reading st') * 1000)%Q),
             job_started out.2))
    /\ (forall job e duration,
          job_record job (Raise e) duration
          = BatchExecutionResult.mk (BatchExecutionJob.id job) false None
              (Some (exn_str e)) duration)
    /\ (forall job x duration,
          job_record job (Ok x) duration
          = BatchExecutionResult.mk (BatchExecutionJob.id job) true
              (Some (ExecutionResult.execution x)) None duration)
    /\ (polite_transport st -> polite_options opts ->
        Forall (fun r => forall m, BatchExecutionResult.error r = Some m -> m <> "")
          batch.1).
Proof.
  intros sandbox_id jobs opts st [sandbox Hc] batch. subst batch.
  split.
  - unfold execute_batch. rewrite run_bind. cbn [get_self]. rewrite Hc.
    now rewrite execute_jobs_run.
  - destruct (batch_records_shape sandbox_id opts jobs st) as (Hl & Hi & Hw).
    split; [exact Hl|]. split; [exact Hi|]. split; [exact Hw|].
    split; [intros job st'; apply execute_job_run|].
    split; [reflexivity|]. split; [reflexivity|].
    apply batch_errors_worded.
Qed.

(** *** The caches *)

(** The contexts that belong to [sandbox_id]. *)
Definition of_sandbox (sandbox_id : string) (ctx : dict) : bool :=
  py_eq_str (dict_get ctx "sandbox_id" PNone) sandbox_id.

Lemma elem_of_values {A} (m : gmap pykey A) (x : A) :
  x ∈ (snd <$> map_to_list m) <-> exists k, m !! k = Some x.
Proof.
  rewrite list_elem_of_fmap. split.
  - intros ([k y] & -> & Hin). exists k. now apply elem_of_map_to_list.
  - intros (k & Hk). exists (k, x). split; [reflexivity|].
    now apply elem_of_map_to_list.
Qed.

(** What [list_code_contexts] returns. *)
Definition listed_contexts (sandbox_id : string) (st : state) : list dict :=
  match (list_code_contexts sandbox_id st).1 with
  | Ok l => l
  | Raise _ => []
  end.

Lemma list_code_contexts_run sandbox_id (st : state) :
  list_code_contexts sandbox_id st = (Ok (listed_contexts sandbox_id st), st).
Proof. now destruct st. Qed.

Lemma elem_of_listed_contexts sandbox_id (st : state) ctx :
  ctx ∈ listed_contexts sandbox_id st
  <-> exists k, active_contexts (self st) !! k = Some ctx
                /\ of_sandbox sandbox_id ctx = true.
Proof.
  destruct st as [s w]. unfold listed_contexts. cbn [list_code_contexts fst self].
  change (ctx ∈ List.filter (of_sandbox sandbox_id)
                  (snd <$> map_to_list (active_contexts s)) <->
          exists k, active_contexts s !! k = Some ctx
                    /\ of_sandbox sandbox_id ctx = true).
  rewrite list_elem_of_In, filter_In, <- list_elem_of_In, elem_of_values.
  split.
  - intros [(k & Hk) Hc]. eauto.
  - intros (k & Hk & Hc). eauto.
Qed.

(** X7.  The three operations that only read.  [list_sandboxes] returns
    the cached sandboxes, each once; [list_code_contexts] returns the cached
    contexts whose [sandbox_id] is the one asked for; neither raises nor
    changes anything.  [get_metrics] returns the counters of the collector
    with the time of the call as [last_updated], not the time the counters
    were last reset; it reads the clock once and changes nothing else. *)
Theorem listings_show_the_caches :
  forall st : state,
    (exists l,
        list_sandboxes st = (Ok l, st)
        /\ length l = size (active_sandboxes (self st))
        /\ forall d, d ∈ l <-> exists k, active_sandboxes (self st) !! k = Some d)
    /\ (forall sandbox_id, exists l,
        list_code_contexts sandbox_id st = (Ok l, st)
        /\ forall ctx, ctx ∈ l <->
             exists k, active_contexts (self st) !! k = Some ctx
                       /\ of_sandbox sandbox_id ctx = true)
    /\ get_metrics st
       = (Ok (MetricsCollector.metrics (metrics_collector (self st)), reading st),
          mkState (self st) (World.tick (world st))).
Proof.
  intros st. split; [|split].
  - destruct st as [s w]. eexists. split; [reflexivity|]. cbn [self]. split.
    + now rewrite length_fmap, length_map_to_list.
    + intros d. apply elem_of_values.
  - intros sandbox_id. exists (listed_contexts sandbox_id st).
    split; [apply list_code_contexts_run|].
    intros ctx. apply elem_of_listed_contexts.
  - reflexivity.
Qed.




(** *** Round trips *)

(** The state in which an operation that the limiter lets through goes on:
    the limiter has pruned its timestamps and recorded one, the clock has
    been read twice. *)
Definition let_through (st : state) : state :=
  mkState
    (set_rate_limiter
       (RateLimiter.record_request (next_reading st)
          (RateLimiter.can_make_request (reading st) (rate_limiter (self st))).2)
       (self st))
    (World.tick (World.tick (world st))).

Lemma check_rate_limit_allowed (st : state) :
  limiter_allows st = true -> _check_rate_limit st = (Ok tt, let_through st).
Proof.
  intros Hallow. rewrite check_rate_limit_run.
  unfold limiter_allows, reading in Hallow. now rewrite Hallow.
Qed.

Lemma next_outcome_let_through (st : state) req :
  next_outcome (let_through st) req = next_outcome st req.
Proof. reflexivity. Qed.

(** [cache[v["id"]] = v] for a dict [v] with a hashable id. *)
Lemma store_by_id_run (d : dict) store id key (st : state) :
  dict_lookup d "id" = Some id -> py_key id = Ok key ->
  store_by_id (PDict d) store st = (Ok tt, mkState (store key d (self st)) (world st)).
Proof.
  intros Hid Hkey. unfold store_by_id. run_steps.
  cbn [py_getitem]. rewrite Hid. run_steps. now rewrite Hkey.
Qed.

Lemma store_by_id_no_id (d : dict) store (st : state) :
  dict_lookup d "id" = None ->
  store_by_id (PDict d) store st = (Raise (PyError "KeyError" "'id'"), st).
Proof.
  intros Hid. unfold store_by_id. run_steps. cbn [py_getitem]. now rewrite Hid.
Qed.

(** Whatever it is given, [store_by_id] leaves the world alone, and the
    fields of the object that [store] leaves alone. *)
Lemma store_by_id_frame {A} (field : t -> A) v store (st : state) :
  (forall key d s, field (store key d s) = field s) ->
  world (store_by_id v store st).2 = world st
  /\ field (self (store_by_id v store st).2) = field (self st).
Proof.
  intros Hf. unfold store_by_id. run_steps.
  destruct (py_getitem v "id") as [id|e]; [|split; reflexivity].
  run_steps. destruct (py_key id) as [key|e]; [|split; reflexivity].
  destruct v; split; cbn; auto.
Qed.

Lemma truthy_dict (d : dict) : d <> [] -> truthy (PDict d) = true.
Proof. now destruct d. Qed.

(** X9.  What [create_sandbox] does when the limiter lets it through and
    the server answers with the dict [body].  One POST has been sent, with
    the configured timeout as its override, and the contexts are as before.
    When [body] has no [sandbox] (or an empty one) the call returns [body] and
    caches nothing.  When [body["sandbox"]] is a dict with a hashable [id],
    the call returns [body] and the sandbox is cached under that id,
    replacing what was cached under it.  When [body["sandbox"]] is a dict
    without [id], the call raises [KeyError] and caches nothing, although
    the server has answered. *)
Theorem create_sandbox_caches_by_id :
  forall options (st : state) body,
    let req := request_of (self st) POST ep_sandboxes_create options
                 (Some (Config.timeout (config (self st)))) in
    limiter_allows st = true ->
    next_outcome st req = Responded (PDict body) ->
    let after := create_sandbox options st in
    World.sent (world after.2) = World.sent (world st) ++ [req]
    /\ active_contexts (self after.2) = active_contexts (self st)
    /\ (truthy (dict_get body "sandbox" PNone) = false ->
        after.1 = Ok (PDict body)
        /\ active_sandboxes (self after.2) = active_sandboxes (self st))
    /\ (forall sandbox id key,
          dict_get body "sandbox" PNone = PDict sandbox -> sandbox <> [] ->
          dict_lookup sandbox "id" = Some id -> py_key id = Ok key ->
          after.1 = Ok (PDict body)
          /\ active_sandboxes (self after.2)
             = <[key := sandbox]> (active_sandboxes (self st)))
    /\ (forall sandbox,
          dict_get body "sandbox" PNone = PDict sandbox -> sandbox <> [] ->
          dict_lookup sandbox "id" = None ->
          after.1 = Raise (PyError "KeyError" "'id'")
          /\ active_sandboxes (self after.2) = active_sandboxes (self st)).
Proof.
  intros options st body req Hallow Hout after. subst after.
  unfold create_sandbox. rewrite run_bind, (check_rate_limit_allowed st Hallow).
  rewrite run_bind. cbn [get_self]. rewrite run_bind, make_request_answered.
  cbn [self let_through set_rate_limiter config].
  rewrite (request_of_same_config _ (self st)) by reflexivity. fold req.
  rewrite next_outcome_let_through, Hout. cbn [answer_of].
  rewrite run_bind. cbn [lift py_get].
  rewrite (answered_sent (let_through st) req (Responded (PDict body)))
    by (rewrite next_outcome_let_through; exact Hout).
  set (st2 := mkState _ (World.tick (World.send req (World.tick (world (let_through st)))))).
  assert (Hframe : forall v,
    let stored :=
      store_by_id v
        (fun key d s => set_active_sandboxes (<[key := d]> (active_sandboxes s)) s)
        st2 in
    World.sent (world stored.2) = World.sent (world st) ++ [req]
    /\ active_contexts (self stored.2) = active_contexts (self st)).
  { intros v stored. subst stored.
    destruct (store_by_id_frame active_contexts v
                (fun key d s => set_active_sandboxes (<[key := d]> (active_sandboxes s)) s)
                st2) as [Hw Hc]; [reflexivity|].
    rewrite Hw, Hc. split; reflexivity. }
  split; [|split; [|split; [|split]]].
  - destruct (truthy (dict_get body "sandbox" PNone)); rewrite run_bind.
    + destruct (Hframe (dict_get body "sandbox" PNone)) as [Hs _].
      destruct (store_by_id _ _ st2) as [[[]|e] st3]; exact Hs.
    + reflexivity.
  - destruct (truthy (dict_get body "sandbox" PNone)); rewrite run_bind.
    + destruct (Hframe (dict_get body "sandbox" PNone)) as [_ Hc].
      destruct (store_by_id _ _ st2) as [[[]|e] st3]; exact Hc.
    + reflexivity.
  - intros ->. rewrite run_bind. split; reflexivity.
  - intros sandbox id key -> Hne Hid Hkey. rewrite (truthy_dict _ Hne).
    rewrite run_bind, (store_by_id_run sandbox _ id key st2 Hid Hkey).
    split; reflexivity.
  - intros sandbox -> Hne Hid. rewrite (truthy_dict _ Hne).
    rewrite run_bind, (store_by_id_no_id sandbox _ st2 Hid).
    split; reflexivity.
Qed.




(** *** Contexts *)

(** X11.  What [create_code_context] does for a cached sandbox when the
    server answers with a dict [context] that has a hashable [id].  The
    request is a POST whose payload holds the language given, or else the
    language of the sandbox's template, and the working directory given, or
    else ["/workspace"].  The call returns [context] and caches it under
    its id; the sandboxes and the limiter are as before.  The context is
    listed for the sandbox when its own [sandbox_id] field names it. *)
Theorem create_code_context_caches_by_id :
  forall sandbox_id language cwd request_timeout_ms (st : state)
         sandbox lang context id key,
    active_sandboxes (self st) !! KStr sandbox_id = Some sandbox ->
    context_language sandbox language = Ok lang ->
    let req := request_of (self st) POST (ep_contexts sandbox_id)
                 (context_payload lang cwd) request_timeout_ms in
    next_outcome st req = Responded (PDict context) ->
    dict_lookup context "id" = Some id ->
    py_key id = Ok key ->
    let after := create_code_context sandbox_id language cwd request_timeout_ms st in
    after.1 = Ok (PDict context)
    /\ active_contexts (self after.2) = <[key := context]> (active_contexts (self st))
    /\ active_sandboxes (self after.2) = active_sandboxes (self st)
    /\ rate_limiter (self after.2) = rate_limiter (self st)
    /\ World.sent (world after.2) = World.sent (world st) ++ [req]
    /\ (of_sandbox sandbox_id context = true ->
        context ∈ listed_contexts sandbox_id after.2).
Proof.
  intros sandbox_id language cwd request_timeout_ms st sandbox lang context id key
    Hc Hlang req Hout Hid Hkey after.
  assert (Hrun : create_code_context sandbox_id language cwd request_timeout_ms st
                 = (Ok (PDict context),
                    mkState
                      (set_active_contexts
                         (<[key := context]> (active_contexts (self st)))
                         (self (answered st req)))
                      (world (answered st req)))).
  { unfold create_code_context. rewrite run_bind. cbn [get_self]. rewrite Hc.
    unfold context_language in Hlang. rewrite run_bind.
    destruct (truthy language).
    - injection Hlang as ->. cbn [mret M_ret].
      rewrite run_bind, make_request_answered.
      fold (context_payload lang cwd). fold req. rewrite Hout. cbn [answer_of].
      rewrite (answered_sent st req _ Hout).
      rewrite run_bind, (store_by_id_run context _ id key _ Hid Hkey).
      reflexivity.
    - rewrite Hlang. cbn [lift].
      rewrite run_bind, make_request_answered.
      fold (context_payload lang cwd). fold req. rewrite Hout. cbn [answer_of].
      rewrite (answered_sent st req _ Hout).
      rewrite run_bind, (store_by_id_run context _ id key _ Hid Hkey).
      reflexivity. }
  subst after. rewrite Hrun, (answered_sent st req _ Hout).
  cbn [fst snd self world set_active_contexts
    set_metrics_collector active_contexts active_sandboxes rate_limiter
    World.sent World.tick World.send].
  repeat split.
  intros Hof. apply elem_of_listed_contexts. exists key.
  cbn [self active_contexts]. split; [apply lookup_insert_eq | exact Hof].
Qed.


(** *** Executions *)

(** The callbacks of [run_code], in the order in which it calls them: the
    results, the lines of [stdout], the lines of [stderr], the error. *)
Definition notify (opts : RunCodeOptions.t) (e : Execution.t) : M unit :=
  match RunCodeOptions.on_result opts with
  | Some f => for_each (Execution.results e) (fun res => lift (f res))
  | None => mret tt
  end;;
  dispatch_lines (RunCodeOptions.on_stdout opts)
    (Logs.stdout (Execution.logs e)) false;;
  dispatch_lines (RunCodeOptions.on_stderr opts)
    (Logs.stderr (Execution.logs e)) true;;
  match RunCodeOptions.on_error opts, Execution.error e with
  | Some f, Some err => lift (f err)
  | _, _ => mret tt
  end.

(** The dict that [run_code] returns, built at the end. *)
Definition finish (sandbox_id : string) (start_time : Q) (e : Execution.t)
  : M ExecutionResult.t :=
  execution_id ← uuid_uuid4;
  end_time ← time_time;
  now ← time_time;
  now' ← time_time;
  mret (ExecutionResult.mk e
          (ExecutionMetadata.mk execution_id sandbox_id start_time end_time
             ((now - start_time) * 1000)%Q)
          (py_int (now' * 1000))).

(** The payload of the request that runs code. *)
Definition execute_payload (code language : pyval) (opts : RunCodeOptions.t) : pyval :=
  PDict [("code", code); ("language", language);
         ("envVars", RunCodeOptions.envs opts)].

(** The language of the template of a cached sandbox. *)
Definition template_language (sandbox : dict) : result pyval :=
  py_get (dict_get sandbox "template_config" (PDict [])) "language" PNone.

(** The state in which [run_code] makes its request: the limiter has let it
    through and the start time has been read. *)
Definition started (st : state) : state :=
  mkState (self (let_through st)) (World.tick (world (let_through st))).

Definition start_time_of (st : state) : Q := reading (let_through st).

Lemma run_code_decoded sandbox_id code opts (st : state) sandbox lang body e :
  limiter_allows st = true ->
  active_sandboxes (self st) !! KStr sandbox_id = Some sandbox ->
  template_language sandbox = Ok lang ->
  let req := request_of (self st) POST (ep_execute sandbox_id)
               (execute_payload code lang opts) (RunCodeOptions.timeout_ms opts) in
  next_outcome st req = Responded body ->
  decode_execution body = Ok e ->
  run_code sandbox_id code opts st
  = match notify opts e (answered (started st) req) with
    | (Ok _, st') => finish sandbox_id (start_time_of st) e st'
    | (Raise x, st') => (Raise x, st')
    end.
Proof.
  intros Hallow Hc Hlang req Hout Hdec.
  unfold run_code. rewrite run_bind, (check_rate_limit_allowed st Hallow).
  rewrite run_bind. cbn [get_self].
  cbn [self let_through set_rate_limiter active_sandboxes]. rewrite Hc.
  unfold template_language in Hlang. rewrite run_bind, Hlang. cbn [lift].
  rewrite run_bind. cbn [time_time].
  fold (let_through st). fold (started st).
  change (World.clock _ _) with (start_time_of st).
  rewrite run_bind, make_request_answered.
  fold (execute_payload code lang opts).
  cbn [self started let_through set_rate_limiter config].
  rewrite (request_of_same_config _ (self st)) by reflexivity. fold req.
  change (next_outcome (started st) req) with (next_outcome st req).
  rewrite Hout. cbn [answer_of].
  fold (started st).
  set (st2 := answered (started st) req).
  unfold decode_execution in Hdec.
  unfold mbind, result_bind, mret, result_ret in Hdec.
  repeat match type of Hdec with
    | context [match ?r with Ok _ => _ | Raise _ => _ end] =>
        lazymatch r with
        | py_get ?v _ _ => is_var v
        | py_getitem ?v _ => is_var v
        | py_iter ?v => is_var v
        | decode_results ?v => is_var v
        end;
        destruct r eqn:?; cbn beta iota in Hdec; [|discriminate Hdec]
    | context [if truthy ?v then _ else _] =>
        is_var v; destruct (truthy v) eqn:?; cbn beta iota in Hdec
    end;
  injection Hdec as <-;
  repeat first
    [ rewrite run_bind
    | progress cbn [lift mret M_ret]
    | match goal with
      | H : ?r = Ok _ |- context [?r] => rewrite H
      | H : truthy ?v = _ |- context [truthy ?v] => rewrite H
      end ].
  all: unfold notify, finish;
    cbn [Execution.results Execution.logs Execution.error Logs.stdout Logs.stderr];
    repeat (rewrite ?run_bind;
            match goal with
            | |- context [match ?x with _ => _ end] =>
                lazymatch type of x with
                | (result () * state)%type => destruct x as [[[]|?] ?]
                end
            end);
    reflexivity.
Qed.

(** Options without observers, as when [run_code] is called without
    [opts]. *)
Definition no_observers (opts : RunCodeOptions.t) : Prop :=
  RunCodeOptions.on_stdout opts = None
  /\ RunCodeOptions.on_stderr opts = None
  /\ RunCodeOptions.on_result opts = None
  /\ RunCodeOptions.on_error opts = None.

Lemma notify_no_observers opts e (st : state) :
  no_observers opts -> notify opts e st = (Ok tt, st).
Proof.
  intros (H1 & H2 & H3 & H4). unfold notify. rewrite H1, H2, H3, H4.
  now destruct st.
Qed.

(** X13.  [run_code] on a cached sandbox, when the limiter lets the call
    through, the template of the sandbox gives a language, the server
    answers [body] and [body] decodes to the execution [e], without
    observers.  The call returns: its [execution] is [e], its metadata carry
    the id of the sandbox, a fresh uuid and the start time read before the
    request.  One POST has been sent with the code, the language of the
    template and the [envs] of the options; the caches are as before and
    the collector has recorded one successful request. *)
Theorem run_code_returns_the_execution :
  forall sandbox_id code opts (st : state) sandbox lang body e,
    limiter_allows st = true ->
    active_sandboxes (self st) !! KStr sandbox_id = Some sandbox ->
    template_language sandbox = Ok lang ->
    let req := request_of (self st) POST (ep_execute sandbox_id)
                 (execute_payload code lang opts) (RunCodeOptions.timeout_ms opts) in
    next_outcome st req = Responded body ->
    decode_execution body = Ok e ->
    no_observers opts ->
    let after := run_code sandbox_id code opts st in
    exists r,
      after.1 = Ok r
      /\ ExecutionResult.execution r = e
      /\ ExecutionMetadata.sandbox_id (ExecutionResult.metadata r) = sandbox_id
      /\ ExecutionMetadata.execution_id (ExecutionResult.metadata r)
         = World.uuid4 (world st) (World.uuids (world st))
      /\ ExecutionMetadata.start_time (ExecutionResult.metadata r) = start_time_of st
      /\ World.sent (world after.2) = World.sent (world st) ++ [req]
      /\ active_sandboxes (self after.2) = active_sandboxes (self st)
      /\ active_contexts (self after.2) = active_contexts (self st)
      /\ metrics_collector (self after.2)
         = MetricsCollector.record_request true (elapsed_ms (started st))
             (metrics_collector (self st)).
Proof.
  intros sandbox_id code opts st sandbox lang body e Hallow Hc Hlang req Hout
    Hdec Hquiet after. subst after.
  rewrite (run_code_decoded sandbox_id code opts st sandbox lang body e
             Hallow Hc Hlang Hout Hdec).
  fold req. rewrite (notify_no_observers opts e _ Hquiet).
  rewrite (answered_sent (started st) req (Responded body) Hout).
  eexists. split; [reflexivity|].
  cbn [fst snd self world finish ExecutionResult.execution ExecutionResult.metadata
       ExecutionMetadata.sandbox_id ExecutionMetadata.execution_id
       ExecutionMetadata.start_time].
  repeat split.
Qed.

Lemma truthy_get_lookup (b : dict) k :
  truthy (dict_get b k PNone) = true ->
  dict_lookup b k = Some (dict_get b k PNone).
Proof. unfold dict_get. now destruct (dict_lookup b k). Qed.

(** [decode_execution] on a dict, stage by stage. *)
Lemma decode_execution_dict (b : dict) :
  decode_execution (PDict b)
  = match py_get (dict_get b "logs" (PDict [])) "stdout" (PList []) with
    | Raise x => Raise x
    | Ok stdout =>
        match py_get (dict_get b "logs" (PDict [])) "stderr" (PList []) with
        | Raise x => Raise x
        | Ok stderr =>
            match (if truthy (dict_get b "results" PNone)
                   then match py_iter (dict_get b "results" PNone) with
                        | Raise x => Raise x
                        | Ok items => decode_results items
                        end
                   else Ok []) with
            | Raise x => Raise x
            | Ok results =>
                match (if truthy (dict_get b "error" PNone)
                       then
                         let error_data := dict_get b "error" PNone in
                         match py_get error_data "name" PNone with
                         | Raise x => Raise x
                         | Ok name =>
                             match py_get error_data "value" PNone with
                             | Raise x => Raise x
                             | Ok value =>
                                 match py_get error_data "traceback" PNone with
                                 | Raise x => Raise x
                                 | Ok traceback =>
                                     Ok (Some (ExecutionError.mk name value traceback))
                                 end
                             end
                         end
                       else Ok None) with
                | Raise x => Raise x
                | Ok error =>
                    Ok (Execution.mk results (Logs.mk stdout stderr) error
                          (dict_get b "execution_count" PNone))
                end
            end
        end
    end.
Proof.
  unfold decode_execution. unfold mbind, result_bind, mret, result_ret.
  cbn [py_get py_getitem].
  destruct (py_get (dict_get b "logs" (PDict [])) "stdout" (PList [])); [|reflexivity].
  destruct (py_get (dict_get b "logs" (PDict [])) "stderr" (PList [])); [|reflexivity].
  destruct (truthy (dict_get b "results" PNone)) eqn:Hr.
  - rewrite (truthy_get_lookup _ _ Hr).
    destruct (py_iter (dict_get b "results" PNone)) as [items|]; [|reflexivity].
    destruct (decode_results items); [|reflexivity].
    destruct (truthy (dict_get b "error" PNone)) eqn:He; [|reflexivity].
    now rewrite (truthy_get_lookup _ _ He).
  - destruct (truthy (dict_get b "error" PNone)) eqn:He; [|reflexivity].
    now rewrite (truthy_get_lookup _ _ He).
Qed.

(** X14.  How [run_code] reads the body of a response.  A body that is not a
    dict does not decode.  The empty dict decodes to the empty execution.
    For a dict that decodes: [execution_count] is its field of that name;
    the results are one [Result] per entry of [results], in order, a main
    result when the entry says so, and none when [results] is absent or
    empty; the error is built from the [name], [value] and [traceback] of
    [error] when [error] is a dict that is not empty, and is [None] when
    [error] is absent or empty; the logs are the [stdout] and [stderr] of
    [logs], the empty list for one that is absent.  A dict whose [logs] is a
    dict (or absent), whose [results] is a list of dicts (or absent) and
    whose [error] is a dict (or absent) decodes. *)
Theorem decode_execution_reads_the_body :
  (forall body e, decode_execution body = Ok e -> exists b, body = PDict b)
  /\ decode_execution (PDict []) = Ok Execution.default
  /\ (forall b e,
        decode_execution (PDict b) = Ok e ->
        Execution.execution_count e = dict_get b "execution_count" PNone
        /\ (forall ds,
              dict_get b "results" PNone = PList (PDict <$> ds) ->
              Execution.results e
              = (fun d => Result.__init__ d (dict_get d "is_main_result" (PBool false)))
                  <$> ds)
        /\ (truthy (dict_get b "results" PNone) = false -> Execution.results e = [])
        /\ (forall err,
              dict_get b "error" PNone = PDict err -> err <> [] ->
              Execution.error e
              = Some (ExecutionError.mk (dict_get err "name" PNone)
                        (dict_get err "value" PNone)
                        (dict_get err "traceback" PNone)))
        /\ (truthy (dict_get b "error" PNone) = false -> Execution.error e = None)
        /\ (forall logs,
              dict_get b "logs" (PDict []) = PDict logs ->
              Execution.logs e
              = Logs.mk (dict_get logs "stdout" (PList []))
                  (dict_get logs "stderr" (PList []))))
  /\ (forall b logs,
        dict_get b "logs" (PDict []) = PDict logs ->
        (truthy (dict_get b "results" PNone) = false
         \/ exists ds, dict_get b "results" PNone = PList (PDict <$> ds)) ->
        (truthy (dict_get b "error" PNone) = false
         \/ exists err, dict_get b "error" PNone = PDict err) ->
        exists e, decode_execution (PDict b) = Ok e).
Proof.
  split; [|split; [reflexivity|split]].
  - intros body e. destruct body; try discriminate. eauto.
  - intros b e. rewrite decode_execution_dict.
    destruct (py_get (dict_get b "logs" (PDict [])) "stdout" (PList []))
      as [stdout|] eqn:Hout; [|discriminate].
    destruct (py_get (dict_get b "logs" (PDict [])) "stderr" (PList []))
      as [stderr|] eqn:Herr; [|discriminate].
    destruct (if truthy (dict_get b "results" PNone) then _ else _)
      as [results|] eqn:Hres; [|discriminate].
    destruct (if truthy (dict_get b "error" PNone) then _ else _)
      as [error|] eqn:Herror; [|discriminate].
    intros [= <-]. cbn [Execution.execution_count Execution.results
      Execution.error Execution.logs].
    split; [reflexivity|]. split; [|split; [|split; [|split]]].
    + intros ds Hds. rewrite Hds in Hres. destruct ds as [|d ds].
      * cbn in Hres. now injection Hres as <-.
      * change (truthy (PList (PDict <$> d :: ds))) with true in Hres.
        cbn [py_iter] in Hres.
        rewrite decode_results_dicts in Hres. now injection Hres as <-.
    + intros Hf. rewrite Hf in Hres. now injection Hres as <-.
    + intros err Hd Hne. rewrite Hd, (truthy_dict _ Hne) in Herror.
      cbn in Herror. now injection Herror as <-.
    + intros Hf. rewrite Hf in Herror. now injection Herror as <-.
    + intros logs Hl. rewrite Hl in Hout, Herr. cbn in Hout, Herr.
      now injection Hout as <-; injection Herr as <-.
  - intros b logs Hl Hres Herror. rewrite decode_execution_dict, Hl.
    cbn [py_get].
    assert (Hr : exists results,
      (if truthy (dict_get b "results" PNone)
       then match py_iter (dict_get b "results" PNone) with
            | Raise x => Raise x
            | Ok items => decode_results items
            end
       else Ok []) = Ok results).
    { destruct Hres as [->|(ds & ->)]; [eauto|].
      destruct ds as [|d ds]; [cbn; eauto|].
      change (truthy (PList (PDict <$> d :: ds))) with true.
      cbn [py_iter]. rewrite decode_results_dicts. eauto. }
    destruct Hr as (results & ->).
    destruct Herror as [->|(err & ->)]; [eauto|].
    destruct (truthy (PDict err)); cbn; eauto.
Qed.

(** X15.  An exception raised by an observer leaves [run_code] as it is.
    Under the conditions in which [run_code] would decode the execution [e],
    when [on_result] raises [x] on the first result of [e], [run_code]
    raises [x]; by then the request has been sent, the collector has
    recorded it as successful and the limiter has counted the call. *)
Theorem observer_exception_leaves_run_code :
  forall sandbox_id code opts (st : state) sandbox lang body e f first others x,
    limiter_allows st = true ->
    active_sandboxes (self st) !! KStr sandbox_id = Some sandbox ->
    template_language sandbox = Ok lang ->
    let req := request_of (self st) POST (ep_execute sandbox_id)
                 (execute_payload code lang opts) (RunCodeOptions.timeout_ms opts) in
    next_outcome st req = Responded body ->
    decode_execution body = Ok e ->
    RunCodeOptions.on_result opts = Some f ->
    Execution.results e = first :: others ->
    f first = Raise x ->
    let after := run_code sandbox_id code opts st in
    after.1 = Raise x
    /\ World.sent (world after.2) = World.sent (world st) ++ [req]
    /\ metrics_collector (self after.2)
       = MetricsCollector.record_request true (elapsed_ms (started st))
           (metrics_collector (self st))
    /\ rate_limiter (self after.2) = rate_limiter (self (let_through st)).
Proof.
  intros sandbox_id code opts st sandbox lang body e f first others x
    Hallow Hc Hlang req Hout Hdec Hf Hres Hx after. subst after.
  rewrite (run_code_decoded sandbox_id code opts st sandbox lang body e
             Hallow Hc Hlang Hout Hdec).
  fold req. unfold notify. rewrite Hf, Hres. cbn [for_each].
  rewrite !run_bind. cbn [lift]. rewrite Hx.
  rewrite (answered_sent (started st) req (Responded body) Hout).
  cbn [fst snd self world set_metrics_collector metrics_collector
       rate_limiter World.sent World.tick World.send started].
  repeat split.
Qed.

(** X16.  [run_terminal] on a cached sandbox, when the limiter lets the call
    through and the server answers with a dict.  The call sends one POST
    with the command and returns the [output] of the answer, [""] when it
    has none.  An [on_stdout] observer is called once, with the whole
    output, also when the output is empty; what it raises leaves
    [run_terminal].  The caches are as before. *)
Theorem run_terminal_returns_the_output :
  forall sandbox_id command opts (st : state) sandbox b,
    limiter_allows st = true ->
    active_sandboxes (self st) !! KStr sandbox_id = Some sandbox ->
    let req := request_of (self st) POST (ep_terminal sandbox_id)
                 (PDict [("command", command)]) (RunCodeOptions.timeout_ms opts) in
    next_outcome st req = Responded (PDict b) ->
    let output := dict_get b "output" (PStr "") in
    let seen := answered (let_through st) req in
    let after := run_terminal sandbox_id command opts st in
    after.1
    = match RunCodeOptions.on_stdout opts with
      | None => Ok output
      | Some f =>
          match f (OutputMessage.mk output (py_int (reading seen * 1000000)) false) with
          | Ok _ => Ok output
          | Raise x => Raise x
          end
      end
    /\ World.sent (world after.2) = World.sent (world st) ++ [req]
    /\ active_sandboxes (self after.2) = active_sandboxes (self st)
    /\ active_contexts (self after.2) = active_contexts (self st).
Proof.
  intros sandbox_id command opts st sandbox b Hallow Hc req Hout output seen after.
  subst after. unfold run_terminal.
  rewrite run_bind, (check_rate_limit_allowed st Hallow).
  rewrite run_bind. cbn [get_self].
  cbn [self let_through set_rate_limiter active_sandboxes]. rewrite Hc.
  rewrite run_bind, make_request_answered.
  fold (let_through st).
  cbn [self let_through set_rate_limiter config].
  rewrite (request_of_same_config _ (self st)) by reflexivity. fold req.
  fold (let_through st). fold seen.
  change (next_outcome (let_through st) req) with (next_outcome st req).
  rewrite Hout. cbn [answer_of]. rewrite run_bind. cbn [lift py_get].
  fold output. rewrite run_bind.
  assert (Hseen : World.sent (world seen) = World.sent (world st) ++ [req]
                  /\ active_sandboxes (self seen) = active_sandboxes (self st)
                  /\ active_contexts (self seen) = active_contexts (self st)).
  { subst seen. rewrite (answered_sent (let_through st) req (Responded (PDict b)) Hout).
    repeat split. }
  destruct (RunCodeOptions.on_stdout opts) as [f|].
  - rewrite run_bind. cbn [time_time]. fold (reading seen).
    cbn [lift]. destruct (f _); (split; [reflexivity | exact Hseen]).
  - split; [reflexivity | exact Hseen].
Qed.

(** *** Files *)

(** X17.  What the file operations return for a cached sandbox when the
    server answers.  [read_file] returns the [content] of the answer and
    [write_file] its [path], [""] when the answer is a dict without the
    field, and both raise [AttributeError] when the answer is not a dict;
    [delete_file] returns [None] and [list_files] returns the answer itself,
    whatever the answer is.  [write_file] sends the content and the
    [createParents] flag. *)
Theorem file_operations_read_the_answer :
  forall sandbox_id (st : state) sandbox,
    active_sandboxes (self st) !! KStr sandbox_id = Some sandbox ->
    (forall path data,
        next_outcome st (request_of (self st) GET (ep_files sandbox_id path) PNone None)
        = Responded data ->
        (read_file sandbox_id path st).1 = py_get data "content" (PStr ""))
    /\ (forall path content create_parents data,
        next_outcome st
          (request_of (self st) POST (ep_files sandbox_id path)
             (PDict [("content", content); ("createParents", PBool create_parents)])
             None)
        = Responded data ->
        (write_file sandbox_id path content create_parents st).1
        = py_get data "path" (PStr ""))
    /\ (forall path data,
        next_outcome st (request_of (self st) DELETE (ep_files sandbox_id path) PNone None)
        = Responded data ->
        (delete_file sandbox_id path st).1 = Ok tt)
    /\ (forall dir_path data,
        next_outcome st
          (request_of (self st) GET (ep_files_list sandbox_id dir_path) PNone None)
        = Responded data ->
        (list_files sandbox_id dir_path st).1 = Ok data)
    /\ (forall data field dflt,
        (forall b, data = PDict b -> py_get data field dflt = Ok (dict_get b field dflt))
        /\ ((forall b, data <> PDict b) ->
            exists message, py_get data field dflt = Raise (PyError "AttributeError" message))).
Proof.
  intros sandbox_id st sandbox Hc.
  split; [|split; [|split; [|split]]].
  - intros path data Hout. unfold read_file. rewrite run_bind. cbn [get_self].
    rewrite Hc, run_bind, make_request_answered, Hout. reflexivity.
  - intros path content create_parents data Hout. unfold write_file.
    rewrite run_bind. cbn [get_self].
    rewrite Hc, run_bind, make_request_answered, Hout. reflexivity.
  - intros path data Hout. unfold delete_file. rewrite run_bind. cbn [get_self].
    rewrite Hc, run_bind, make_request_answered, Hout. reflexivity.
  - intros dir_path data Hout. unfold list_files. rewrite run_bind. cbn [get_self].
    rewrite Hc, make_request_answered, Hout. reflexivity.
  - intros data field dflt. split.
    + now intros b ->.
    + intros Hnot. destruct data; cbn; eauto. now destruct (Hnot d).
Qed.

(** *** Batches and the timeout of the options *)

Lemma execute_jobs_any_timeout sandbox_id opts v jobs : forall results (st : state),
  execute_jobs sandbox_id (RunCodeOptions.with_timeout_ms v opts) jobs results st
  = execute_jobs sandbox_id opts jobs results st.
Proof.
  induction jobs as [|job rest IH]; intros results st; cbn [execute_jobs];
    [reflexivity|].
  rewrite !run_bind.
  change (execute_job sandbox_id (RunCodeOptions.with_timeout_ms v opts) job st)
    with (execute_job sandbox_id opts job st).
  destruct (execute_job sandbox_id opts job st) as [[r|x] st']; [apply IH|reflexivity].
Qed.

(** X18.  [execute_batch] never uses the [timeout_ms] of its options: every
    job runs with its own [timeout] as the override, also when it has none,
    so the same batch with any other [timeout_ms] in the options does the
    same. *)
Theorem execute_batch_ignores_timeout_of_options :
  forall sandbox_id jobs opts v (st : state),
    execute_batch sandbox_id jobs (RunCodeOptions.with_timeout_ms v opts) st
    = execute_batch sandbox_id jobs opts st
    /\ forall job,
         RunCodeOptions.timeout_ms
           (RunCodeOptions.with_timeout_ms (BatchExecutionJob.timeout job)
              (RunCodeOptions.with_timeout_ms v opts))
         = BatchExecutionJob.timeout job.
Proof.
  intros sandbox_id jobs opts v st. split; [|reflexivity].
  unfold execute_batch. rewrite !run_bind. cbn [get_self].
  destruct (active_sandboxes (self st) !! KStr sandbox_id); [|reflexivity].
  apply execute_jobs_any_timeout.
Qed.

(** *** The constructor *)

(** A string that is not empty. *)
Definition non_empty_str (v : pyval) (s : string) : Prop := v = PStr s /\ s <> "".

Lemma valid_str_Some v s : valid_str v = Some s <-> non_empty_str v s.
Proof.
  unfold valid_str, non_empty_str. destruct v; try (split; [discriminate|intros [[=] _]]).
  destruct s0 as [|c s0]; cbn.
  - split; [discriminate | intros [[= <-] H]; congruence].
  - split; [intros [= <-]; split; [reflexivity|discriminate] | intros [[= <-] _]; reflexivity].
Qed.

Lemma valid_str_None v : valid_str v = None <-> forall s, ~ non_empty_str v s.
Proof.
  split.
  - intros Hn s Hs. apply valid_str_Some in Hs. congruence.
  - intros Hn. destruct (valid_str v) as [s|] eqn:E; [|reflexivity].
    apply valid_str_Some in E. now destruct (Hn s).
Qed.

(** X19.  The constructor.  It succeeds exactly when [api_key] and
    [server_url] are strings that are not empty; the key is checked first, so
    a configuration with neither gets the message about the key.  A failed
    construction reads nothing and sends nothing.  A successful one keeps
    the two strings, fills the defaults of the keys that are absent, starts
    with empty caches, zeroed metrics and an empty limiter of 60 requests
    per minute, and sends nothing. *)
Theorem constructor_checks_key_then_url :
  forall (cfg : ConfigInput.t) (w : World.t),
    ((forall s, ~ non_empty_str (ConfigInput.api_key cfg) s) ->
     __init__ cfg w = (Raise (SandboxSDKError "Invalid API key provided"), w))
    /\ (forall k,
          non_empty_str (ConfigInput.api_key cfg) k ->
          (forall s, ~ non_empty_str (ConfigInput.server_url cfg) s) ->
          __init__ cfg w = (Raise (SandboxSDKError "Invalid server URL provided"), w))
    /\ (forall k u,
          non_empty_str (ConfigInput.api_key cfg) k ->
          non_empty_str (ConfigInput.server_url cfg) u ->
          exists s,
            __init__ cfg w = (Ok s, World.tick w)
            /\ Config.api_key (config s) = k
            /\ Config.server_url (config s) = u
            /\ Config.timeout (config s) = default 60000 (ConfigInput.timeout cfg)
            /\ Config.enable_logging (config s)
               = default false (ConfigInput.enable_logging cfg)
            /\ Config.enable_metrics (config s)
               = default false (ConfigInput.enable_metrics cfg)
            /\ active_sandboxes s = ∅
            /\ active_contexts s = ∅
            /\ rate_limiter s = RateLimiter.__init__ 60
            /\ metrics_collector s
               = MetricsCollector.__init__ (World.clock w (World.ticks w)))
    /\ (forall s w',
          __init__ cfg w = (Ok s, w') ->
          (exists k, non_empty_str (ConfigInput.api_key cfg) k)
          /\ (exists u, non_empty_str (ConfigInput.server_url cfg) u)
          /\ World.sent w' = World.sent w).
Proof.
  intros cfg w. unfold __init__. split; [|split; [|split]].
  - intros Hk. apply valid_str_None in Hk. now rewrite Hk.
  - intros k Hk Hu. apply valid_str_Some in Hk. apply valid_str_None in Hu.
    now rewrite Hk, Hu.
  - intros k u Hk Hu. apply valid_str_Some in Hk, Hu. rewrite Hk, Hu.
    eexists. split; [reflexivity|]. cbn. repeat split.
  - intros s w'.
    destruct (valid_str (ConfigInput.api_key cfg)) as [k|] eqn:Hk; [|discriminate].
    destruct (valid_str (ConfigInput.server_url cfg)) as [u|] eqn:Hu; [|discriminate].
    intros [= <- <-]. apply valid_str_Some in Hk, Hu. eauto.
Qed.

(** *** What every operation maintains

    An invariant and a relation that the limiter's check, a call of
    [_make_request] and the six updates of the caches maintain are
    maintained by every public operation. *)

Section EveryOperation.

Context (Inv : state -> Prop) (R : state -> state -> Prop) `{FR : !Frame Inv R}.

Hypothesis keeps_check : keeps Inv R any_exn _check_rate_limit.

Hypothesis keeps_request : forall method path payload timeout_ms,
  keeps Inv R any_exn (_make_request method path payload timeout_ms).

Hypothesis keeps_store_sandbox : forall v,
  keeps Inv R any_exn
    (store_by_id v
       (fun key d s => set_active_sandboxes (<[key := d]> (active_sandboxes s)) s)).

Hypothesis keeps_store_context : forall v,
  keeps Inv R any_exn
    (store_by_id v
       (fun key d s => set_active_contexts (<[key := d]> (active_contexts s)) s)).

Hypothesis keeps_drop_contexts : forall sandbox_id,
  keeps Inv R any_exn
    (update (fun s =>
       set_active_contexts
         (filter (fun kv : pykey * dict =>
                    py_eq_str (dict_get kv.2 "sandbox_id" PNone) sandbox_id = false)
                 (active_contexts s)) s)).

Hypothesis keeps_drop_sandbox : forall sandbox_id,
  keeps Inv R any_exn
    (update (fun s =>
       set_active_sandboxes (delete (KStr sandbox_id) (active_sandboxes s)) s)).

Hypothesis keeps_set_status : forall sandbox_id status,
  keeps Inv R any_exn
    (update (fun s =>
       set_active_sandboxes
         (alter (fun sandbox => dict_set sandbox "status" status)
                (KStr sandbox_id) (active_sandboxes s)) s)).

Hypothesis keeps_drop_context : forall context_id,
  keeps Inv R any_exn
    (update (fun s =>
       set_active_contexts (delete (KStr context_id) (active_contexts s)) s)).

Ltac every_step :=
  lazymatch goal with
  | |- keeps _ _ _ _check_rate_limit => apply keeps_check
  | |- keeps _ _ _ (_make_request _ _ _ _) => apply keeps_request
  | |- keeps _ _ _ (store_by_id _ (fun key d s => set_active_sandboxes _ s)) =>
      apply keeps_store_sandbox
  | |- keeps _ _ _ (store_by_id _ (fun key d s => set_active_contexts _ s)) =>
      apply keeps_store_context
  | |- keeps _ _ _ (update (fun s => set_active_contexts (filter _ _) s)) =>
      apply keeps_drop_contexts
  | |- keeps _ _ _ (update (fun s => set_active_sandboxes (delete _ _) s)) =>
      apply keeps_drop_sandbox
  | |- keeps _ _ _ (update (fun s => set_active_sandboxes (alter _ _ _) s)) =>
      apply keeps_set_status
  | |- keeps _ _ _ (update (fun s => set_active_contexts (delete _ _) s)) =>
      apply keeps_drop_context
  | |- keeps _ _ _ (lift _) => apply (keeps_lift Inv R); intros ? ?; exact I
  | |- keeps _ _ _ (raise _) => apply (keeps_raise Inv R); exact I
  | |- _ => keeps_step
  end.

Lemma dispatch_lines_keeps cb lines is_error :
  keeps Inv R any_exn (dispatch_lines cb lines is_error).
Proof. unfold dispatch_lines. repeat every_step. Qed.

Lemma run_code_keeps sandbox_id code opts :
  keeps Inv R any_exn (run_code sandbox_id code opts).
Proof.
  unfold run_code, not_found.
  repeat lazymatch goal with
    | |- keeps _ _ _ (dispatch_lines _ _ _) => apply dispatch_lines_keeps
    | |- _ => every_step
    end.
Qed.

Lemma execute_jobs_keeps sandbox_id opts jobs : forall results,
  keeps Inv R any_exn (execute_jobs sandbox_id opts jobs results).
Proof.
  induction jobs as [|job rest IH]; intros results; cbn [execute_jobs];
    [apply (keeps_ret Inv R)|].
  apply (keeps_bind Inv R); [|intros r; apply IH].
  unfold execute_job. apply (keeps_bind Inv R);
    [apply (keeps_time_time Inv R)|intros start_time].
  apply (keeps_try_except Inv R any_exn).
  - repeat first [ apply run_code_keeps | every_step ].
  - intros e. repeat every_step.
Qed.

Lemma every_operation_keeps o : keeps Inv R any_exn (call o).
Proof.
  destruct o; cbn [call];
    unfold ignore, create_sandbox, delete_sandbox, get_sandbox_status, list_sandboxes,
      get_templates, get_template, create_template, run_terminal, read_file,
      write_file, delete_file, list_files, create_code_context,
      delete_code_context, list_code_contexts, execute_batch, get_metrics,
      not_found;
    repeat lazymatch goal with
      | |- keeps _ _ _ (run_code _ _ _) => apply run_code_keeps
      | |- keeps _ _ _ (execute_jobs _ _ _ _) => apply execute_jobs_keeps
      | |- _ => every_step
      end.
Qed.

(** A history of operations keeps the invariant. *)
Lemma every_history_keeps ops : forall st, Inv st -> Inv (run_ops ops st).
Proof.
  induction ops as [|o ops IH]; intros st Hi; cbn; [exact Hi|].
  apply IH. now apply (every_operation_keeps o st).
Qed.

End EveryOperation.

(** *** The collector counts the requests *)

(** How the requests sent so far ended: the transport's answer to each. *)
Definition outcomes_so_far (w : World.t) : list outcome :=
  imap (World.transport w) (World.sent w).

(** The counters of the collector are the numbers of requests sent, of
    requests answered and of requests that failed or timed out. *)
Definition counts_requests (st : state) : Prop :=
  let m := MetricsCollector.metrics (metrics_collector (self st)) in
  let outs := outcomes_so_far (world st) in
  MetricsData.total_requests m = py_len outs
  /\ MetricsData.successful_requests m = py_len (List.filter succeeded outs)
  /\ MetricsData.failed_requests m
     = py_len (List.filter (fun out => negb (succeeded out)) outs).

#[local] Instance counts_requests_frame : Frame counts_requests any_step.
Proof. split; intros; try exact I; split; try exact I; assumption. Qed.

Lemma counts_requests_same_metrics s s' w :
  metrics_collector s' = metrics_collector s ->
  counts_requests (mkState s w) -> counts_requests (mkState s' w).
Proof. unfold counts_requests. cbn [self world]. now intros ->. Qed.

Ltac same_metrics :=
  apply (keeps_update counts_requests any_step);
  intros ? ? ?; split; [|exact I];
  eapply counts_requests_same_metrics; [|eassumption]; reflexivity.

Lemma make_request_counts method path payload timeout_ms :
  keeps counts_requests any_step any_exn
    (_make_request method path payload timeout_ms).
Proof.
  intros [s w] (H1 & H2 & H3). rewrite make_request_run.
  cbn [fst snd self world] in *.
  unfold next_outcome, validate_timeout. cbn [world].
  destruct (Qle_bool _ 0);
    (split; [|split; [exact I | intros; exact I]]); [now repeat split|].
  set (req := request_of s method path payload timeout_ms).
  set (out := World.transport w (length (World.sent w)) req).
  cbn [snd]. unfold counts_requests, outcomes_so_far.
  cbn [self world set_metrics_collector metrics_collector World.sent
       World.transport World.tick World.send].
  rewrite imap_app. cbn [imap]. unfold compose. rewrite Nat.add_0_r. fold out.
  fold (outcomes_so_far w).
  unfold MetricsCollector.record_request.
  match goal with
  | |- context [MetricsCollector._update_average_response_time ?mc'] =>
      destruct (update_average_keeps_fields mc') as (E1 & E2 & E3 & _)
  end.
  cbn zeta in E1, E2, E3. rewrite E1, E2, E3.
  cbn [MetricsCollector.metrics MetricsData.total_requests
       MetricsData.successful_requests MetricsData.failed_requests].
  rewrite !List.filter_app. unfold py_len in *. rewrite !length_app.
  cbn [List.filter]. destruct (succeeded out); cbn [negb length]; lia.
Qed.

Lemma store_by_id_counts v store :
  (forall key d s, metrics_collector (store key d s) = metrics_collector s) ->
  keeps counts_requests any_step any_exn (store_by_id v store).
Proof.
  intros Hs. unfold store_by_id.
  repeat first
    [ apply (keeps_lift counts_requests any_step); intros ? ?; exact I
    | keeps_step ].
  intros s w Hi. split; [|exact I].
  eapply counts_requests_same_metrics; [|exact Hi]. apply Hs.
Qed.

Lemma check_rate_limit_counts :
  keeps counts_requests any_step any_exn _check_rate_limit.
Proof.
  unfold _check_rate_limit.
  repeat first
    [ same_metrics
    | apply (keeps_raise counts_requests any_step); exact I
    | keeps_step ].
Qed.

(** X20.  The collector counts the round trips.  Once the counters agree
    with the requests sent (as they do for a new object in a world where
    nothing has been sent), they agree after every history of operations,
    whatever the operations raise: [total_requests] is the number of
    requests sent, [successful_requests] the number of those that the
    server answered, whether or not the operation then succeeded, and
    [failed_requests] the number of those that failed or timed out. *)
Theorem metrics_count_the_requests :
  (forall (ops : list op) (st : state),
      counts_requests st -> counts_requests (run_ops ops st))
  /\ (forall cfg w s w',
        World.sent w = [] ->
        __init__ cfg w = (Ok s, w') ->
        counts_requests (mkState s w'))
  /\ (forall st,
        counts_requests st ->
        let m := MetricsCollector.metrics (metrics_collector (self st)) in
        MetricsData.total_requests m = py_len (World.sent (world st))
        /\ MetricsData.successful_requests m
           = py_len (List.filter succeeded (outcomes_so_far (world st)))
        /\ MetricsData.failed_requests m
           = MetricsData.total_requests m - MetricsData.successful_requests m).
Proof.
  split; [|split].
  - intros ops. apply (every_history_keeps counts_requests any_step).
    + apply check_rate_limit_counts.
    + apply make_request_counts.
    + intros v. apply store_by_id_counts. reflexivity.
    + intros v. apply store_by_id_counts. reflexivity.
    + intros sandbox_id. same_metrics.
    + intros sandbox_id. same_metrics.
    + intros sandbox_id status. same_metrics.
    + intros context_id. same_metrics.
  - intros cfg w s w' Hsent. unfold __init__.
    destruct (valid_str (ConfigInput.api_key cfg)); [|discriminate].
    destruct (valid_str (ConfigInput.server_url cfg)); [|discriminate].
    intros [= <- <-]. unfold counts_requests, outcomes_so_far.
    cbn [self world World.tick World.sent]. rewrite Hsent. cbn. repeat split.
  - intros st (H1 & H2 & H3). cbn zeta. rewrite H1, H2, H3.
    pose proof (List.filter_length succeeded (outcomes_so_far (world st))) as Hl.
    unfold outcomes_so_far, py_len in *. rewrite length_imap in *.
    split; [reflexivity|]. split; [reflexivity|]. lia.
Qed.

(** *** The limiter under the facade *)

(** The limiter holds no more timestamps than its maximum. *)
Definition limiter_within (st : state) : Prop :=
  py_len (RateLimiter.request_timestamps (rate_limiter (self st)))
  <= Z.max (RateLimiter.max_requests_per_minute (rate_limiter (self st))) 0.

(** The settings are those of before: the configuration, the maximum of the
    limiter and its count of concurrent jobs. *)
Definition same_settings (st st' : state) : Prop :=
  config (self st') = config (self st)
  /\ RateLimiter.max_requests_per_minute (rate_limiter (self st'))
     = RateLimiter.max_requests_per_minute (rate_limiter (self st))
  /\ RateLimiter.concurrent_jobs (rate_limiter (self st'))
     = RateLimiter.concurrent_jobs (rate_limiter (self st)).

#[local] Instance limiter_within_frame : Frame limiter_within same_settings.
Proof.
  split; unfold same_settings.
  - intros st. repeat split.
  - intros a b c (H1 & H2 & H3) (H1' & H2' & H3'). repeat split; congruence.
  - intros s w Hi. split; [exact Hi | repeat split].
  - intros s w Hi. split; [exact Hi | repeat split].
Qed.

Lemma limiter_within_same_limiter s s' w :
  rate_limiter s' = rate_limiter s -> config s' = config s ->
  limiter_within (mkState s w) ->
  limiter_within (mkState s' w) /\ same_settings (mkState s w) (mkState s' w).
Proof.
  unfold limiter_within, same_settings. cbn [self world]. intros -> ->. tauto.
Qed.

Ltac same_limiter_side :=
  apply (keeps_update limiter_within same_settings);
  intros ? ? ?; apply limiter_within_same_limiter; [reflexivity..|assumption].

Lemma check_rate_limit_within :
  keeps limiter_within same_settings any_exn _check_rate_limit.
Proof.
  intros [s w] Hi. rewrite check_rate_limit_run.
  unfold limiter_within, same_settings in *. cbn [self world] in *.
  destruct s as [cfg sandboxes contexts mc [max stored jobs]].
  cbn [rate_limiter RateLimiter.can_make_request fst snd
       RateLimiter.max_requests_per_minute RateLimiter.request_timestamps
       RateLimiter.concurrent_jobs] in *.
  pose proof (List.filter_length_le
                (fun ts => Qgtb ts (World.clock w (World.ticks w) * 1000 - 60000)%Q)
                stored) as Hle.
  destruct (_ <? max) eqn:Hroom;
    cbn [fst snd self world set_rate_limiter rate_limiter config
         RateLimiter.record_request RateLimiter.max_requests_per_minute
         RateLimiter.request_timestamps RateLimiter.concurrent_jobs].
  - apply Z.ltb_lt in Hroom. unfold py_len in *. rewrite length_app. cbn [length].
    repeat split; try (intros; exact I). lia.
  - unfold py_len in *. repeat split; try (intros; exact I). lia.
Qed.

Lemma make_request_within method path payload timeout_ms :
  keeps limiter_within same_settings any_exn
    (_make_request method path payload timeout_ms).
Proof.
  apply (keeps_make_request limiter_within same_settings); try (intros; exact I).
  intros s w m req Hi. unfold limiter_within, same_settings in *.
  cbn [self world set_metrics_collector rate_limiter config] in *. tauto.
Qed.

Lemma store_by_id_within v store :
  (forall key d s, rate_limiter (store key d s) = rate_limiter s) ->
  (forall key d s, config (store key d s) = config s) ->
  keeps limiter_within same_settings any_exn (store_by_id v store).
Proof.
  intros Hl Hc. unfold store_by_id.
  repeat first
    [ apply (keeps_lift limiter_within same_settings); intros ? ?; exact I
    | keeps_step ].
  intros s w Hi. apply limiter_within_same_limiter; [apply Hl | apply Hc | exact Hi].
Qed.

Lemma every_operation_within o :
  keeps limiter_within same_settings any_exn (call o).
Proof.
  apply (every_operation_keeps limiter_within same_settings).
  - apply check_rate_limit_within.
  - apply make_request_within.
  - intros v. apply store_by_id_within; reflexivity.
  - intros v. apply store_by_id_within; reflexivity.
  - intros sandbox_id. same_limiter_side.
  - intros sandbox_id. same_limiter_side.
  - intros sandbox_id status. same_limiter_side.
  - intros context_id. same_limiter_side.
Qed.

Lemma every_history_within ops (st : state) :
  limiter_within st ->
  limiter_within (run_ops ops st) /\ same_settings st (run_ops ops st).
Proof.
  intros Hi. revert st Hi.
  induction ops as [|o ops IH]; intros st Hi; cbn [run_ops fold_left].
  - split; [exact Hi | apply frame_refl].
  - destruct (every_operation_within o st Hi) as (Hi' & Hr & _).
    destruct (IH _ Hi') as [Hi'' Hr'].
    split; [exact Hi''|]. now apply (frame_trans _ (call o st).2).
Qed.

(** X21.  The limiter under the facade.  No operation changes the
    configuration, the maximum of the limiter or its count of concurrent
    jobs, and once the limiter holds no more timestamps than its maximum it
    never holds more, whatever the history of operations.  For an object
    that the constructor built: after any history the limiter holds at most
    60 timestamps, its maximum is 60 and its count of concurrent jobs is 0
    (the facade never calls [increment_concurrent_jobs]). *)
Theorem limiter_stays_within_its_maximum :
  (forall (ops : list op) (st : state),
      limiter_within st ->
      limiter_within (run_ops ops st) /\ same_settings st (run_ops ops st))
  /\ (forall cfg w s w' (ops : list op),
        __init__ cfg w = (Ok s, w') ->
        let limiter := rate_limiter (self (run_ops ops (mkState s w'))) in
        py_len (RateLimiter.request_timestamps limiter) <= 60
        /\ RateLimiter.max_requests_per_minute limiter = 60
        /\ RateLimiter.get_concurrent_jobs limiter = 0
        /\ config (self (run_ops ops (mkState s w'))) = config s).
Proof.
  split; [exact every_history_within|].
  intros cfg w s w' ops Hinit limiter. subst limiter.
  assert (Hl : rate_limiter s = RateLimiter.__init__ 60).
  { unfold __init__ in Hinit.
    destruct (valid_str (ConfigInput.api_key cfg)); [|discriminate].
    destruct (valid_str (ConfigInput.server_url cfg)); [|discriminate].
    now injection Hinit as <- <-. }
  destruct (every_history_within ops (mkState s w')) as (Hi & Hc & Hm & Hj).
  { unfold limiter_within. cbn [self]. rewrite Hl. unfold py_len.
    cbn [RateLimiter.__init__ RateLimiter.request_timestamps
         RateLimiter.max_requests_per_minute length]. lia. }
  unfold limiter_within in Hi. cbn [self] in Hc, Hm, Hj.
  unfold RateLimiter.get_concurrent_jobs. rewrite Hm, Hl in Hi.
  rewrite Hm, Hj, Hc, Hl.
  cbn [RateLimiter.__init__ RateLimiter.request_timestamps
       RateLimiter.max_requests_per_minute RateLimiter.concurrent_jobs] in *.
  repeat split. lia.
Qed.

(** *** Cached dicts and their ids *)

(** Every dict of the cache is filed under its own [id]. *)
Definition filed_under_id (cache : gmap pykey dict) : Prop :=
  forall k d, cache !! k = Some d ->
    exists id, dict_lookup d "id" = Some id /\ py_key id = Ok k.

Definition caches_by_id (st : state) : Prop :=
  filed_under_id (active_sandboxes (self st))
  /\ filed_under_id (active_contexts (self st)).

#[local] Instance caches_by_id_frame : Frame caches_by_id any_step.
Proof. split; intros; try exact I; split; try exact I; assumption. Qed.

Lemma filed_under_id_insert cache key d id :
  filed_under_id cache -> dict_lookup d "id" = Some id -> py_key id = Ok key ->
  filed_under_id (<[key := d]> cache).
Proof.
  intros Hc Hid Hkey k d'. rewrite lookup_insert_Some.
  intros [[<- <-]|[_ Hk]]; [eauto | now apply Hc].
Qed.

Lemma filed_under_id_delete cache key :
  filed_under_id cache -> filed_under_id (delete key cache).
Proof. intros Hc k d. rewrite lookup_delete_Some. intros [_ Hk]. now apply Hc. Qed.

Lemma filed_under_id_filter (P : pykey * dict -> Prop) `{!forall x, Decision (P x)}
    cache :
  filed_under_id cache -> filed_under_id (filter P cache).
Proof. intros Hc k d. rewrite map_lookup_filter_Some. intros [Hk _]. now apply Hc. Qed.

Lemma filed_under_id_status cache key status :
  filed_under_id cache ->
  filed_under_id (alter (fun sandbox => dict_set sandbox "status" status) key cache).
Proof.
  intros Hc k d. rewrite lookup_alter_Some.
  intros [(_ & x & Hx & ->)|[_ Hk]]; [|now apply Hc].
  destruct (Hc k x Hx) as (id & Hid & Hkey). exists id. split; [|exact Hkey].
  rewrite dict_lookup_set_other; [exact Hid | discriminate].
Qed.

Ltac same_caches_side :=
  apply (keeps_update caches_by_id any_step);
  intros ? ? [? ?]; split; [split|exact I]; cbn [self active_sandboxes
    active_contexts set_active_sandboxes set_active_contexts set_rate_limiter] in *;
  first [ assumption
        | apply filed_under_id_delete; assumption
        | apply filed_under_id_filter; assumption
        | apply filed_under_id_status; assumption ].

Lemma check_rate_limit_by_id : keeps caches_by_id any_step any_exn _check_rate_limit.
Proof.
  unfold _check_rate_limit.
  repeat first
    [ same_caches_side
    | apply (keeps_raise caches_by_id any_step); exact I
    | keeps_step ].
Qed.

Lemma make_request_by_id method path payload timeout_ms :
  keeps caches_by_id any_step any_exn (_make_request method path payload timeout_ms).
Proof.
  apply (keeps_make_request caches_by_id any_step); try (intros; exact I).
  intros s w m req Hi. split; [exact Hi | exact I].
Qed.

Lemma store_sandbox_by_id v :
  keeps caches_by_id any_step any_exn
    (store_by_id v
       (fun key d s => set_active_sandboxes (<[key := d]> (active_sandboxes s)) s)).
Proof.
  intros [s w] [Hs Hc]. unfold store_by_id. run_steps.
  destruct (py_getitem v "id") as [id|e] eqn:Hid;
    [|repeat split; try assumption; intros; exact I].
  run_steps. destruct (py_key id) as [key|e] eqn:Hkey;
    [|repeat split; try assumption; intros; exact I].
  destruct v; try discriminate Hid.
  cbn [py_getitem] in Hid. destruct (dict_lookup d "id") as [x|] eqn:Hl;
    [|discriminate]. injection Hid as ->.
  cbn. split; [split|split; [exact I | discriminate]]; cbn;
    [now apply (filed_under_id_insert _ _ _ id) | exact Hc].
Qed.

Lemma store_context_by_id v :
  keeps caches_by_id any_step any_exn
    (store_by_id v
       (fun key d s => set_active_contexts (<[key := d]> (active_contexts s)) s)).
Proof.
  intros [s w] [Hs Hc]. unfold store_by_id. run_steps.
  destruct (py_getitem v "id") as [id|e] eqn:Hid;
    [|repeat split; try assumption; intros; exact I].
  run_steps. destruct (py_key id) as [key|e] eqn:Hkey;
    [|repeat split; try assumption; intros; exact I].
  destruct v; try discriminate Hid.
  cbn [py_getitem] in Hid. destruct (dict_lookup d "id") as [x|] eqn:Hl;
    [|discriminate]. injection Hid as ->.
  cbn. split; [split|split; [exact I | discriminate]]; cbn;
    [exact Hs | now apply (filed_under_id_insert _ _ _ id)].
Qed.

(** X22.  Every cached dict is filed under its own id.  Once every sandbox
    and every context of the caches has an [id] that is the key it is cached
    under (as in the empty caches of a new object), this holds after every
    history of operations: [get_sandbox_status] rewrites the [status] of a
    cached sandbox and never its [id].  So every dict that
    [list_sandboxes] returns has an [id]. *)
Theorem cached_dicts_keep_their_ids :
  (forall (ops : list op) (st : state),
      caches_by_id st -> caches_by_id (run_ops ops st))
  /\ (forall s w, active_sandboxes s = ∅ -> active_contexts s = ∅ ->
        caches_by_id (mkState s w))
  /\ (forall (st : state) l d,
        caches_by_id st ->
        (list_sandboxes st).1 = Ok l -> d ∈ l ->
        exists id, dict_lookup d "id" = Some id).
Proof.
  split; [|split].
  - intros ops. apply (every_history_keeps caches_by_id any_step).
    + apply check_rate_limit_by_id.
    + apply make_request_by_id.
    + apply store_sandbox_by_id.
    + apply store_context_by_id.
    + intros sandbox_id. same_caches_side.
    + intros sandbox_id. same_caches_side.
    + intros sandbox_id status. same_caches_side.
    + intros context_id. same_caches_side.
  - intros s w Hs Hc. split; cbn [self]; [rewrite Hs | rewrite Hc];
      intros k d; rewrite lookup_empty; discriminate.
  - intros [s w] l d [Hs _] Hl Hd. cbn in Hl. injection Hl as <-.
    apply elem_of_values in Hd as (k & Hk).
    destruct (Hs k d Hk) as (id & Hid & _). eauto.
Qed.

(** *** The operations that leave the caches alone *)

(** The operations that store, update or drop a cached dict. *)
Definition touches_caches (o : op) : bool :=
  match o with
  | op_create_sandbox _ | op_delete_sandbox _ | op_get_sandbox_status _
  | op_create_code_context _ _ _ _ | op_delete_code_context _ => true
  | _ => false
  end.

Definition same_caches (st st' : state) : Prop :=
  active_sandboxes (self st') = active_sandboxes (self st)
  /\ active_contexts (self st') = active_contexts (self st).

#[local] Instance same_caches_frame : Frame any_state same_caches.
Proof.
  split; unfold same_caches; intros; cbn in *; try split; try exact I;
    try reflexivity; intuition congruence.
Qed.

Lemma check_rate_limit_same_caches :
  keeps any_state same_caches any_exn _check_rate_limit.
Proof.
  unfold _check_rate_limit.
  repeat (keeps_step; try lift_side); try exact I;
    any_state_side; split; reflexivity.
Qed.

Lemma make_request_same_caches method path payload timeout_ms :
  keeps any_state same_caches any_exn (_make_request method path payload timeout_ms).
Proof.
  apply (keeps_make_request any_state same_caches); try (intros; exact I).
  any_state_side. split; reflexivity.
Qed.

Lemma quiet_operation_same_caches o :
  touches_caches o = false -> keeps any_state same_caches any_exn (call o).
Proof.
  destruct o; try discriminate; intros _; cbn [call];
    unfold ignore, list_sandboxes, get_templates, get_template, create_template,
      run_terminal, read_file, write_file, delete_file, list_files,
      list_code_contexts, execute_batch, get_metrics, not_found;
    repeat lazymatch goal with
      | |- keeps _ _ _ _check_rate_limit => apply check_rate_limit_same_caches
      | |- keeps _ _ _ (_make_request _ _ _ _) => apply make_request_same_caches
      | |- keeps _ _ _ (run_code _ _ _) =>
          apply (run_code_keeps any_state same_caches
                   check_rate_limit_same_caches make_request_same_caches)
      | |- keeps _ _ _ (execute_jobs _ _ _ _) =>
          apply (execute_jobs_keeps any_state same_caches
                   check_rate_limit_same_caches make_request_same_caches)
      | |- _ => keeps_step; try lift_side
      end;
    try exact I.
Qed.

(** X23.  Only five operations change the caches.  The template
    operations, [run_code], [run_terminal], the four file operations,
    [execute_batch], the two listings and [get_metrics] leave the cache of
    sandboxes and the cache of contexts exactly as they were, whether they
    return or raise; so does any history made of them. *)
Theorem other_operations_leave_the_caches :
  forall (ops : list op) (st : state),
    Forall (fun o => touches_caches o = false) ops ->
    active_sandboxes (self (run_ops ops st)) = active_sandboxes (self st)
    /\ active_contexts (self (run_ops ops st)) = active_contexts (self st).
Proof.
  induction ops as [|o ops IH]; intros st Hq; cbn [run_ops fold_left].
  - split; reflexivity.
  - inversion Hq as [|? ? Ho Hrest]; subst.
    destruct (quiet_operation_same_caches o Ho st I) as (_ & [H1 H2] & _).
    destruct (IH (call o st).2 Hrest) as [H1' H2'].
    unfold run_ops in *. split; congruence.
Qed.

(** *** A slot is used, whatever follows *)

Lemma store_by_id_any_limiter v store :
  (forall key d s, rate_limiter (store key d s) = rate_limiter s) ->
  keeps any_state same_limiter any_exn (store_by_id v store).
Proof.
  intros Hs. apply (keeps_weaken any_state same_limiter not_rate_limit);
    [intros; exact I | now apply store_by_id_keeps_limiter].
Qed.

Lemma make_request_same_limiter method path payload timeout_ms :
  keeps any_state same_limiter any_exn (_make_request method path payload timeout_ms).
Proof.
  apply (keeps_make_request any_state same_limiter); try (intros; exact I).
  any_state_side. reflexivity.
Qed.

Lemma dispatch_lines_same_limiter cb lines is_error :
  keeps any_state same_limiter any_exn (dispatch_lines cb lines is_error).
Proof. apply (dispatch_lines_keeps any_state same_limiter). Qed.

Lemma gated_keeps_slot o (st : state) :
  gated o = true ->
  limiter_allows st = true ->
  rate_limiter (self (call o st).2) = rate_limiter (self (let_through st)).
Proof.
  intros Hg Hallow.
  destruct o; try discriminate Hg; cbn [call]; unfold ignore.
  - rewrite run_bind. unfold create_sandbox.
    rewrite run_bind, (check_rate_limit_allowed st Hallow).
    match goal with
    | |- context [?rest (let_through st)] =>
        assert (Hk : keeps any_state same_limiter any_exn rest)
    end.
    { repeat lazymatch goal with
        | |- keeps _ _ _ (_make_request _ _ _ _) => apply make_request_same_limiter
        | |- keeps _ _ _ (store_by_id _ _) =>
            apply store_by_id_any_limiter; intros; reflexivity
        | |- _ => keeps_step; try lift_side
        end. }
    destruct (Hk (let_through st) I) as (_ & Hl & _).
    match goal with
    | |- context [?rest (let_through st)] =>
        destruct (rest (let_through st)) as [[x|e] st']
    end; exact Hl.
  - rewrite run_bind. unfold run_code, not_found.
    rewrite run_bind, (check_rate_limit_allowed st Hallow).
    match goal with
    | |- context [?rest (let_through st)] =>
        assert (Hk : keeps any_state same_limiter any_exn rest)
    end.
    { repeat lazymatch goal with
        | |- keeps _ _ _ (_make_request _ _ _ _) => apply make_request_same_limiter
        | |- keeps _ _ _ (dispatch_lines _ _ _) => apply dispatch_lines_same_limiter
        | |- _ => keeps_step; try lift_side
        end; exact I. }
    destruct (Hk (let_through st) I) as (_ & Hl & _).
    match goal with
    | |- context [?rest (let_through st)] =>
        destruct (rest (let_through st)) as [[x|e] st']
    end; exact Hl.
  - rewrite run_bind. unfold run_terminal, not_found.
    rewrite run_bind, (check_rate_limit_allowed st Hallow).
    match goal with
    | |- context [?rest (let_through st)] =>
        assert (Hk : keeps any_state same_limiter any_exn rest)
    end.
    { repeat lazymatch goal with
        | |- keeps _ _ _ (_make_request _ _ _ _) => apply make_request_same_limiter
        | |- _ => keeps_step; try lift_side
        end; exact I. }
    destruct (Hk (let_through st) I) as (_ & Hl & _).
    match goal with
    | |- context [?rest (let_through st)] =>
        destruct (rest (let_through st)) as [[x|e] st']
    end; exact Hl.
Qed.

(** X24.  A slot of the limiter is used whatever follows.  When the limiter
    lets [create_sandbox], [run_code] or [run_terminal] through, the limiter
    is left with its pruned timestamps followed by the one of this call, and
    nothing that happens afterwards in the call gives the slot back: not a
    sandbox that is not cached, not a request that fails or times out, not
    an answer that does not decode, not an observer that raises. *)
Theorem gated_operation_uses_a_slot :
  forall (o : op) (st : state),
    gated o = true ->
    limiter_allows st = true ->
    let limiter := rate_limiter (self (call o st).2) in
    limiter
    = RateLimiter.record_request (next_reading st)
        (RateLimiter.can_make_request (reading st) (rate_limiter (self st))).2
    /\ RateLimiter.request_timestamps limiter
       = List.filter (fun ts => Qgtb ts (reading st * 1000 - 60000)%Q)
           (RateLimiter.request_timestamps (rate_limiter (self st)))
         ++ [(next_reading st * 1000)%Q].
Proof.
  intros o st Hg Hallow limiter. subst limiter.
  rewrite (gated_keeps_slot o st Hg Hallow). split; reflexivity.
Qed.

(** *** Templates *)


(** *** Logging *)

(** The rank of a level among the four that the SDK knows; a level that it
    does not know ranks as [info]. *)
Definition level_rank (level : string) : Z :=
  default 1 (list_index level ["debug"; "info"; "warn"; "error"]).

Definition known_level (level : string) : Prop :=
  level ∈ ["debug"; "info"; "warn"; "error"].

Lemma list_index_known level :
  known_level level <->
  exists i, list_index level ["debug"; "info"; "warn"; "error"] = Some i.
Proof.
  unfold known_level. cbn [list_index].
  repeat rewrite elem_of_cons. rewrite elem_of_nil.
  destruct (String.eqb_spec "debug" level) as [<-|H1]; [split; eauto|].
  destruct (String.eqb_spec "info" level) as [<-|H2]; [split; eauto|].
  destruct (String.eqb_spec "warn" level) as [<-|H3]; [split; eauto|].
  destruct (String.eqb_spec "error" level) as [<-|H4]; [split; eauto|].
  cbn. split; [intuition congruence | intros (i & [=])].
Qed.

(** X26.  What [_log] lets through.  With logging disabled it does nothing,
    whatever the configured level.  With logging enabled and a configured
    level that is one of [debug], [info], [warn], [error], a message is
    passed to the logger exactly when its level ranks at least as high as
    the configured one, a level that is none of the four ranking as [info];
    so the [debug] messages of the periodic metrics are passed on only at
    the level [debug].  With logging enabled and any other configured level
    [_log] raises [ValueError], although [_setup_logger] accepted that level
    and set the logger to [INFO]. *)
Theorem log_passes_messages_at_or_above_the_level :
  forall (s : t) (level message : string),
    let cfg := config s in
    (Config.enable_logging cfg = false -> _log level message s = Ok None)
    /\ (Config.enable_logging cfg = true ->
        known_level (Config.log_level cfg) ->
        _log level message s
        = Ok (if level_rank (Config.log_level cfg) <=? level_rank level
              then Some (level, message) else None))
    /\ (Config.enable_logging cfg = true ->
        known_level (Config.log_level cfg) ->
        (_log "debug" message s = Ok (Some ("debug", message))
         <-> Config.log_level cfg = "debug"))
    /\ (Config.enable_logging cfg = true ->
        ~ known_level (Config.log_level cfg) ->
        _log level message s
        = Raise (PyError "ValueError"
                   ("'" +:+ Config.log_level cfg +:+ "' is not in list"))
        /\ _setup_logger s = logging_INFO).
Proof.
  intros s level message cfg. unfold _log. fold cfg.
  split; [intros ->; reflexivity|].
  split; [|split].
  - intros -> Hk. apply list_index_known in Hk as (i & Hi).
    cbn [negb]. unfold level_rank. rewrite Hi. cbn [default from_option].
    unfold id. now destruct (i <=? _).
  - intros -> Hk. cbn [negb]. unfold known_level in Hk.
    repeat rewrite elem_of_cons in Hk. rewrite elem_of_nil in Hk.
    destruct Hk as [->|[->|[->|[->|[]]]]]; cbn; split; intros H;
      first [reflexivity | discriminate H].
  - intros -> Hk. cbn [negb].
    destruct (list_index (Config.log_level cfg) _) as [i|] eqn:Hi.
    + exfalso. apply Hk. apply list_index_known. eauto.
    + split; [reflexivity|]. unfold _setup_logger. fold cfg. cbn [List.find fst].
      unfold known_level in Hk.
      repeat rewrite elem_of_cons in Hk. rewrite elem_of_nil in Hk.
      destruct (String.eqb_spec "debug" (Config.log_level cfg));
        [exfalso; intuition congruence|].
      destruct (String.eqb_spec "info" (Config.log_level cfg));
        [exfalso; intuition congruence|].
      destruct (String.eqb_spec "warn" (Config.log_level cfg));
        [exfalso; intuition congruence|].
      destruct (String.eqb_spec "error" (Config.log_level cfg));
        [exfalso; intuition congruence|].
      reflexivity.
Qed.

(** *** The request that goes out *)


(** *** A sandbox whose template is not a dict *)

Lemma not_a_dict_has_no_get (v : pyval) k dflt :
  (forall d, v <> PDict d) ->
  py_get v k dflt
  = Raise (PyError "AttributeError"
             ("'" +:+ type_name v +:+ "' object has no attribute 'get'")).
Proof. intros Hnot. destruct v; try reflexivity. now destruct (Hnot d). Qed.

(** X28.  A cached sandbox whose [template_config] is there but is not a
    dict (a [null] of the server, say) cannot run code: when the limiter
    lets [run_code] through, it raises [AttributeError] before it sends
    anything, the slot of the limiter being used all the same.
    [create_code_context] without a language fails in the same way and
    sends nothing. *)
Theorem template_config_must_be_a_dict :
  forall sandbox_id (st : state) sandbox template_config,
    active_sandboxes (self st) !! KStr sandbox_id = Some sandbox ->
    dict_lookup sandbox "template_config" = Some template_config ->
    (forall d, template_config <> PDict d) ->
    let error :=
      PyError "AttributeError"
        ("'" +:+ type_name template_config +:+ "' object has no attribute 'get'") in
    (forall code opts,
        limiter_allows st = true ->
        run_code sandbox_id code opts st = (Raise error, let_through st))
    /\ (forall language cwd request_timeout_ms,
        truthy language = false ->
        create_code_context sandbox_id language cwd request_timeout_ms st
        = (Raise error, st))
    /\ World.sent (world (let_through st)) = World.sent (world st).
Proof.
  intros sandbox_id st sandbox template_config Hc Htc Hnot error.
  assert (Hget : py_get (dict_get sandbox "template_config" (PDict [])) "language" PNone
                 = Raise error).
  { unfold dict_get. rewrite Htc. now apply not_a_dict_has_no_get. }
  split; [|split; [|reflexivity]].
  - intros code opts Hallow. unfold run_code.
    rewrite run_bind, (check_rate_limit_allowed st Hallow).
    rewrite run_bind. cbn [get_self].
    cbn [self let_through set_rate_limiter active_sandboxes]. rewrite Hc.
    rewrite run_bind, Hget. reflexivity.
  - intros language cwd request_timeout_ms Hl. unfold create_code_context.
    rewrite run_bind. cbn [get_self]. rewrite Hc, Hl.
    rewrite run_bind, Hget. now destruct st.
Qed.

End FacadeFacts.

Section SlidingWindowFacts.

Import SandboxSDK.

(** What one pass through [_check_rate_limit] does to the limiter, at the two
    readings [now] and [now'] of the clock it takes: [can_make_request()]
    prunes and answers, and [record_request()] follows when the answer is
    yes. *)
Definition check_and_record (now now' : Q) (self : RateLimiter.t)
  : bool * RateLimiter.t :=
  let checked := RateLimiter.can_make_request now self in
  if checked.1 then (true, RateLimiter.record_request now' checked.2)
  else (false, checked.2).

(** The timestamps that successive passes record, from the limiter [self];
    [readings] gives the two readings of each pass. *)
Fixpoint recorded_by (readings : list (Q * Q)) (self : RateLimiter.t) : list Q :=
  match readings with
  | [] => []
  | (now, now') :: rest =>
      let pass := check_and_record now now' self in
      (if pass.1 then [(now' * 1000)%Q] else []) ++ recorded_by rest pass.2
  end.

(** The clock never runs backwards: every reading is at least the one
    before, [last] being the reading before the first. *)
Fixpoint clock_in_order (last : Q) (readings : list (Q * Q)) : Prop :=
  match readings with
  | [] => True
  | (now, now') :: rest =>
      (last <= now)%Q /\ (now <= now')%Q /\ clock_in_order now' rest
  end.

(** The timestamps of the 60000 ms that end at [upto], [upto - 60000]
    excluded. *)
Definition in_window (upto ts : Q) : bool :=
  Qgtb ts (upto - 60000) && Qle_bool ts upto.

Definition count_in_window (upto : Q) (l : list Q) : Z :=
  py_len (List.filter (in_window upto) l).

Lemma in_window_spec upto ts :
  in_window upto ts = true <-> (upto - 60000 < ts)%Q /\ (ts <= upto)%Q.
Proof. unfold in_window. now rewrite andb_true_iff, Qgtb_true, Qle_bool_iff. Qed.

Lemma filter_none {A} (f : A -> bool) (l : list A) :
  Forall (fun x => f x = false) l -> List.filter f l = [].
Proof. induction 1 as [|x l Hx _ IH]; cbn; [reflexivity|]. now rewrite Hx. Qed.

Lemma filter_filter_implied {A} (f g : A -> bool) (l : list A) :
  (forall x, f x = true -> g x = true) ->
  List.filter f (List.filter g l) = List.filter f l.
Proof.
  intros Hfg. induction l as [|x l IH]; cbn; [reflexivity|].
  destruct (g x) eqn:Eg; cbn.
  - now rewrite IH.
  - destruct (f x) eqn:Ef; [|exact IH]. apply Hfg in Ef. congruence.
Qed.

Lemma filter_filter_shorter {A} (f g : A -> bool) (l : list A) :
  (length (List.filter f (List.filter g l)) <= length (List.filter f l))%nat.
Proof.
  induction l as [|x l IH]; cbn; [lia|].
  destruct (g x); cbn; destruct (f x); cbn; lia.
Qed.

Lemma count_in_window_app upto l1 l2 :
  count_in_window upto (l1 ++ l2)
  = count_in_window upto l1 + count_in_window upto l2.
Proof.
  unfold count_in_window, py_len. rewrite List.filter_app, length_app. lia.
Qed.

Lemma count_in_window_length upto l : count_in_window upto l <= py_len l.
Proof.
  unfold count_in_window, py_len. pose proof (List.filter_length_le (in_window upto) l).
  lia.
Qed.

Lemma count_in_window_later upto l :
  Forall (fun ts => (upto < ts)%Q) l -> count_in_window upto l = 0.
Proof.
  intros H. unfold count_in_window. rewrite filter_none; [reflexivity|].
  eapply Forall_impl; [exact H|]. intros ts Hts. apply not_true_iff_false.
  rewrite in_window_spec. intros [_ Hin]. cbn beta in Hts. lra.
Qed.

Lemma check_and_record_max now now' self :
  RateLimiter.max_requests_per_minute (check_and_record now now' self).2
  = RateLimiter.max_requests_per_minute self.
Proof.
  unfold check_and_record. cbn [RateLimiter.can_make_request fst snd].
  now destruct (_ <? _).
Qed.

(** Whatever is recorded is recorded at a reading that is not before
    [last]. *)
Lemma recorded_by_not_before last readings self :
  clock_in_order last readings ->
  Forall (fun ts => (last * 1000 <= ts)%Q) (recorded_by readings self).
Proof.
  revert last self. induction readings as [|[now now'] rest IH];
    intros last self; cbn [clock_in_order recorded_by]; [constructor|].
  intros (H1 & H2 & H3). apply Forall_app. split.
  - destruct (check_and_record now now' self).1; repeat constructor. lra.
  - eapply Forall_impl; [apply IH; exact H3|]. cbn. intros ts Hts. lra.
Qed.

Lemma window_bound readings : forall self last,
  clock_in_order last readings ->
  Forall (fun ts => (ts <= last * 1000)%Q) (RateLimiter.request_timestamps self) ->
  (forall upto, count_in_window upto (RateLimiter.request_timestamps self)
                <= Z.max (RateLimiter.max_requests_per_minute self) 0) ->
  forall upto,
    count_in_window upto (RateLimiter.request_timestamps self ++ recorded_by readings self)
    <= Z.max (RateLimiter.max_requests_per_minute self) 0.
Proof.
  induction readings as [|[now now'] rest IH]; intros self last;
    cbn [clock_in_order recorded_by].
  - intros _ _ Hb upto. rewrite app_nil_r. apply Hb.
  - intros (H1 & H2 & H3) Hpast Hb upto.
    pose proof (recorded_by_not_before now' rest
                  (check_and_record now now' self).2 H3) as Hlater.
    pose proof (check_and_record_max now now' self) as Hmax.
    specialize (IH (check_and_record now now' self).2 now' H3).
    rewrite Hmax in IH.
    destruct self as [max stored jobs].
    unfold check_and_record in *.
    cbn [RateLimiter.can_make_request fst snd RateLimiter.request_timestamps
         RateLimiter.max_requests_per_minute RateLimiter.concurrent_jobs] in *.
    set (kept := List.filter (fun ts => Qgtb ts (now * 1000 - 60000)) stored) in *.
    assert (Hkept_past : Forall (fun ts => (ts <= now' * 1000)%Q) kept).
    { apply Forall_forall. intros ts Hts. apply list_elem_of_In in Hts.
      apply filter_In in Hts as [Hts _]. apply list_elem_of_In in Hts.
      rewrite Forall_forall in Hpast. specialize (Hpast ts Hts). lra. }
    assert (Hsame : (now * 1000 <= upto)%Q ->
                    count_in_window upto kept = count_in_window upto stored).
    { intros Hup. unfold count_in_window, kept. f_equal.
      apply filter_filter_implied. intros ts Hts.
      apply in_window_spec in Hts. apply Qgtb_true. lra. }
    destruct (py_len kept <? max) eqn:Hroom;
      cbn [fst snd RateLimiter.record_request RateLimiter.request_timestamps
           RateLimiter.max_requests_per_minute] in *.
    + apply Z.ltb_lt in Hroom.
      destruct (Qlt_le_dec upto (now * 1000)) as [Hlt|Hge].
      * rewrite count_in_window_app, (count_in_window_later upto (_ ++ _)).
        -- specialize (Hb upto). lia.
        -- apply Forall_app. split; [repeat constructor; lra|].
           eapply Forall_impl; [exact Hlater|]. cbn. intros ts Hts. lra.
      * rewrite count_in_window_app, <- (Hsame Hge), <- count_in_window_app.
        rewrite app_assoc. apply IH.
        -- apply Forall_app. split; [exact Hkept_past|]. repeat constructor. lra.
        -- intros upto'. pose proof (count_in_window_length upto' (kept ++ [(now' * 1000)%Q])) as Hl.
           unfold py_len in *. rewrite length_app in Hl. cbn [length] in Hl. lia.
    + cbn [app].
      destruct (Qlt_le_dec upto (now * 1000)) as [Hlt|Hge].
      * rewrite count_in_window_app, (count_in_window_later upto (recorded_by _ _)).
        -- specialize (Hb upto). lia.
        -- eapply Forall_impl; [exact Hlater|]. cbn. intros ts Hts. lra.
      * rewrite count_in_window_app, <- (Hsame Hge), <- count_in_window_app.
        apply IH; [exact Hkept_past|].
        intros upto'. specialize (Hb upto').
        pose proof (filter_filter_shorter (in_window upto')
                      (fun ts => Qgtb ts (now * 1000 - 60000)) stored) as Hs.
        unfold count_in_window, py_len, kept in *. lia.
Qed.

Lemma check_rate_limit_pass (st : state) :
  let pass := check_and_record (reading st) (next_reading st)
                (rate_limiter (self st)) in
  rate_limiter (self (_check_rate_limit st).2) = pass.2
  /\ (raised (_check_rate_limit st).1 = None <-> pass.1 = true).
Proof.
  intros pass. subst pass. rewrite check_rate_limit_run.
  unfold check_and_record, reading, next_reading.
  destruct (RateLimiter.can_make_request _ _).1; cbn; split; try reflexivity;
    split; congruence.
Qed.

(** X29.  The guarantee of the limiter.  [check_and_record] is what a pass
    through [_check_rate_limit] does to the limiter, and the pass returns
    exactly when a timestamp is recorded.  From a new limiter, when the
    clock never runs backwards, however many passes are made and at
    whatever instants, at most [max_requests_per_minute] of the requests let
    through are recorded in any span of 60000 ms (the instant 60000 ms
    before the end of the span excluded). *)
Theorem at_most_max_requests_per_window :
  (forall st : state,
      let pass := check_and_record (reading st) (next_reading st)
                    (rate_limiter (self st)) in
      rate_limiter (self (_check_rate_limit st).2) = pass.2
      /\ (raised (_check_rate_limit st).1 = None <-> pass.1 = true))
  /\ (forall max start readings upto,
        clock_in_order start readings ->
        count_in_window upto (recorded_by readings (RateLimiter.__init__ max))
        <= Z.max max 0).
Proof.
  split; [exact check_rate_limit_pass|].
  intros max start readings upto Hord.
  apply (window_bound readings (RateLimiter.__init__ max) start Hord).
  - constructor.
  - intros upto'. change (0 <= Z.max max 0). lia.
Qed.

End SlidingWindowFacts.

(** * Scenarios

    Concrete worlds, and what the SDK does in them. *)

Section Scenarios.

Import SandboxSDK.

Definition demo_input : ConfigInput.t :=
  ConfigInput.mk (PStr "secret") (PStr "https://api.sandbox.example.com")
    None None None None None None None.

(** A clock that advances by 100 ms from one reading to the next. *)
Definition demo_clock (n : nat) : Q := Z.of_nat n # 10.

Definition demo_uuid (n : nat) : string := "uuid-" +:+ pretty n.

Definition demo_sandbox : pyval :=
  PDict [("id", PStr "sb-1");
         ("template_config", PDict [("language", PStr "python")]);
         ("status", PStr "ready")].

Definition demo_execution : pyval :=
  PDict [("results",
          PList [PDict [("text", PStr "4"); ("is_main_result", PBool true)]]);
         ("logs", PDict [("stdout", PList [PStr "hello"]); ("stderr", PList [])]);
         ("execution_count", PInt 1)].

(** A server that answers every request. *)
Definition healthy_server (n : nat) (req : Request.t) : outcome :=
  match Request.path req with
  | ep_sandboxes_create => Responded (PDict [("sandbox", demo_sandbox)])
  | ep_execute _ => Responded demo_execution
  | ep_sandbox_status _ => Responded (PDict [("status", PStr "running")])
  | _ => Responded (PDict [])
  end.

(** A 500 answer with a structured error body: [str(e)] is the line
    [raise_for_status()] builds, the body carries its own message. *)
Definition quota_body : Response.t :=
  Response.mk 500
    (Some (PDict [("code", PStr "QUOTA"); ("message", PStr "quota exceeded")])).

Definition quota_error : outcome :=
  Failed "500 Server Error: Internal Server Error" (Some quota_body).

(** A server that refuses every request but the creation of a sandbox. *)
Definition refusing_server (n : nat) (req : Request.t) : outcome :=
  match Request.path req with
  | ep_sandboxes_create => healthy_server n req
  | _ => quota_error
  end.

(** A server that creates sandboxes and then never answers in time. *)
Definition stalling_server (n : nat) (req : Request.t) : outcome :=
  match Request.path req with
  | ep_sandboxes_create => healthy_server n req
  | _ => TimedOut
  end.

(** A server that refuses the third request it receives. *)
Definition flaky_server (n : nat) (req : Request.t) : outcome :=
  if (n =? 2)%nat then quota_error else healthy_server n req.

Definition demo_world (transport : nat -> Request.t -> outcome) : World.t :=
  World.mk demo_clock 0 transport [] demo_uuid 0.

(** The state of a new SDK object facing [transport]. *)
Definition demo_state (transport : nat -> Request.t -> outcome) : state :=
  mkState
    (mk (Config.mk "secret" "https://api.sandbox.example.com" 60000 3 1000
           false "info" false 30000)
        ∅ ∅ (MetricsCollector.__init__ (demo_clock 0)) (RateLimiter.__init__ 60))
    (World.tick (demo_world transport)).

Example demo_state_constructed transport :
  __init__ demo_input (demo_world transport)
  = (Ok (self (demo_state transport)), world (demo_state transport)).
Proof. reflexivity. Qed.

Example constructor_rejects_missing_key transport :
  (__init__ (ConfigInput.mk PNone (PStr "https://example.com")
               None None None None None None None)
            (demo_world transport)).1
  = Raise (SandboxSDKError "Invalid API key provided").
Proof. reflexivity. Qed.

(** The state after one successful [create_sandbox]. *)
Definition with_sandbox (transport : nat -> Request.t -> outcome) : state :=
  run_ops [op_create_sandbox (PDict [("template_id", PStr "python-3.11")])]
    (demo_state transport).

Example sandbox_cached :
  active_sandboxes (self (with_sandbox healthy_server)) !! KStr "sb-1"
  = Some [("id", PStr "sb-1");
          ("template_config", PDict [("language", PStr "python")]);
          ("status", PStr "ready")].
Proof. vm_compute. reflexivity. Qed.

(** [run_code] on an id that no [create_sandbox] stored. *)
Definition ghost_call : op := op_run_code "ghost" (PStr "1+1") RunCodeOptions.empty.

(** A new SDK object after sixty calls on an unknown id within six seconds. *)
Definition saturated (transport : nat -> Request.t -> outcome) : state :=
  run_ops (repeat ghost_call 60) (demo_state transport).

(** The same with a sandbox created first. *)
Definition saturated_with_sandbox (transport : nat -> Request.t -> outcome) : state :=
  run_ops (repeat ghost_call 59) (with_sandbox transport).

Example saturated_limiter_rejects :
  limiter_allows (saturated healthy_server) = false
  /\ limiter_allows (saturated_with_sandbox healthy_server) = false
  /\ World.sent (world (saturated healthy_server)) = [].
Proof. vm_compute. repeat split. Qed.

Definition three_jobs : list BatchExecutionJob.t :=
  [BatchExecutionJob.mk (PStr "job-1") (PStr "print('Job 1'); 2 + 2") (Some 5000);
   BatchExecutionJob.mk (PStr "job-2") (PStr "print('Job 2'); 3 * 3") (Some 5000);
   BatchExecutionJob.mk (PStr "job-3") (PStr "print('Job 3'); [1, 2, 3]") (Some 5000)].

(** Options whose [on_result] observer raises [ValueError()]: an exception
    whose [str()] is empty. *)
Definition raising_observer : RunCodeOptions.t :=
  RunCodeOptions.mk None None
    (Some (fun _ => Raise (PyError "ValueError" ""))) None PNone None.

(** *** A refused request

    The server answers 500 with the body [{"code": "QUOTA", "message":
    "quota exceeded"}].  The inner [try] reaches its [raise SandboxError]
    with the message of the body, the bare [except:] around it catches
    that very exception, and the caller sees [str(e)] of the transport's
    exception instead. *)
Lemma refused_request_loses_body_message :
  next_outcome (demo_state refusing_server)
    (request_of (self (demo_state refusing_server)) GET (ep_template "t1") PNone None)
  = Failed "500 Server Error: Internal Server Error" (Some quota_body)
  /\ inner_try (Some quota_body) = inner_SandboxError (PStr "quota exceeded")
  /\ (_make_request GET (ep_template "t1") PNone None (demo_state refusing_server)).1
     = Raise (SandboxError "500 Server Error: Internal Server Error")
  /\ metrics_collector
       (self (_make_request GET (ep_template "t1") PNone None
                (demo_state refusing_server)).2)
     = MetricsCollector.record_request false (elapsed_ms (demo_state refusing_server))
         (metrics_collector (self (demo_state refusing_server))).
Proof.
  split; [reflexivity|]. split; [reflexivity|].
  destruct (failed_request_raises_str_e GET (ep_template "t1") PNone None
              (demo_state refusing_server)
              "500 Server Error: Internal Server Error" (Some quota_body))
    as (H1 & H2 & _);
    [reflexivity|].
  split; [exact H1 | exact H2].
Defined.

Example refused_get_template :
  raised (call (op_get_template "t1") (demo_state refusing_server)).1
  = Some (SandboxError "500 Server Error: Internal Server Error").
Proof. vm_compute. reflexivity. Qed.

(** *** A request that times out without an override

    [get_sandbox_status] passes no [timeout_ms]: the request goes out with
    the configured 60000 ms (60 s), and the message is built from the
    parameter, which is [None]. *)
Lemma timeout_without_override_says_None :
  next_outcome (with_sandbox stalling_server)
    (request_of (self (with_sandbox stalling_server)) GET
       (ep_sandbox_status "sb-1") PNone None)
  = TimedOut
  /\ effective_timeout None (Config.timeout (config (self (with_sandbox stalling_server))))
     = 60000
  /\ (_make_request GET (ep_sandbox_status "sb-1") PNone None
        (with_sandbox stalling_server)).1
     = Raise (TimeoutError "Request timeout after Nonems")
  /\ metrics_collector
       (self (_make_request GET (ep_sandbox_status "sb-1") PNone None
                (with_sandbox stalling_server)).2)
     = MetricsCollector.record_request false
         (elapsed_ms (with_sandbox stalling_server))
         (metrics_collector (self (with_sandbox stalling_server))).
Proof.
  split; [reflexivity|]. split; [reflexivity|].
  destruct (timed_out_request_raises_timeout_ms GET (ep_sandbox_status "sb-1")
              PNone None (with_sandbox stalling_server)) as (H1 & H2 & _);
    [reflexivity|].
  split; [exact H1 | exact H2].
Defined.

Example status_timeout_message :
  raised (call (op_get_sandbox_status "sb-1") (with_sandbox stalling_server)).1
  = Some (TimeoutError "Request timeout after Nonems")
  /\ raised (run_code "sb-1" (PStr "1+1")
               (RunCodeOptions.with_timeout_ms (Some 5000) RunCodeOptions.empty)
               (with_sandbox stalling_server)).1
     = Some (TimeoutError "Request timeout after 5000ms").
Proof. vm_compute. split; reflexivity. Qed.

(** *** Unknown ids *)



(** *** A saturated limiter *)



(** *** Batches *)

Lemma three_jobs_second_fails :
  let st := with_sandbox flaky_server in
  let batch := batch_records "sb-1" RunCodeOptions.empty three_jobs st in
  (execute_batch "sb-1" three_jobs RunCodeOptions.empty st).1 = Ok batch.1
  /\ length batch.1 = 3%nat
  /\ BatchExecutionResult.job_id <$> batch.1
     = [PStr "job-1"; PStr "job-2"; PStr "job-3"]
  /\ BatchExecutionResult.success <$> batch.1 = [true; false; true]
  /\ BatchExecutionResult.error <$> batch.1
     = [None; Some "500 Server Error: Internal Server Error"; None].
Proof.
  intros st batch.
  destruct (execute_batch_one_record_per_job "sb-1" three_jobs
              RunCodeOptions.empty st) as (H1 & H2 & H3 & _).
  { vm_compute. eauto. }
  fold batch in H1, H2, H3. rewrite H1. split; [reflexivity|].
  split; [exact H2|]. split; [exact H3|]. vm_compute. split; reflexivity.
Defined.

(** C9 as stated fails: the job fails and the error message of its record is
    empty. *)
Lemma failed_job_with_empty_error :
  (execute_batch "sb-1"
     [BatchExecutionJob.mk (PStr "job-1") (PStr "2 + 2") None]
     raising_observer (with_sandbox healthy_server)).1
  = Ok [BatchExecutionResult.mk (PStr "job-1") false None (Some "") (60000 # 100)].
Proof. vm_compute. reflexivity. Qed.

(** *** The limiter on its own *)

(** Three requests in three seconds fill a limiter of three; at 61 s the first
    is 60000 ms old and one slot is free. *)
Lemma limiter_of_three :
  (RateLimiter.can_make_request 30
     (record_requests [1%Q; 2%Q; 3%Q] (RateLimiter.__init__ 3))).1 = false
  /\ (RateLimiter.can_make_request 61
        (RateLimiter.mk 3 [1000%Q; 2000%Q; 3000%Q] 0)).1 = true
  /\ RateLimiter.request_timestamps
       (RateLimiter.can_make_request 61
          (RateLimiter.mk 3 [1000%Q; 2000%Q; 3000%Q] 0)).2
     = [2000%Q; 3000%Q].
Proof.
  destruct can_make_request_window as (_ & Hfull & Hfree).
  split.
  - apply Hfull; [reflexivity|]. repeat constructor.
  - destruct (Hfree 3 1000%Q [2000%Q; 3000%Q] 0 61%Q) as (H1 & H2 & _).
    + reflexivity.
    + unfold age_ms, Qle. cbn. lia.
    + repeat constructor.
    + split; [exact H1 | exact H2].
Defined.

(** *** A payload with an unknown key *)

Definition foo_payload : dict :=
  [("text", PStr "x"); ("foo", PInt 1); ("type", PStr "result"); ("html", PStr "<b>")].

Lemma foo_after_known_formats :
  dict_lookup (Result.extra (Result.__init__ foo_payload (PBool false))) "foo"
  = Some (PInt 1)
  /\ Result.formats (Result.__init__ foo_payload (PBool false))
     = ["text"; "html"; "foo"].
Proof.
  destruct result_formats_known_then_extra as (_ & _ & _ & H & _).
  destruct (H foo_payload (PBool false) "foo" (PInt 1)) as (H1 & _ & H3).
  { unfold dict_wf. compute_done. }
  { apply list_elem_of_In. cbn. auto. }
  { compute_done. }
  split; [exact H1|]. rewrite H3. reflexivity.
Defined.

(** *** An unknown id behind a limiter with room *)

Lemma ghost_call_consumes_a_slot :
  failed_after_recording "ghost" (demo_state healthy_server)
    (raised (run_code "ghost" (PStr "1+1") RunCodeOptions.empty
               (demo_state healthy_server)).1)
    (run_code "ghost" (PStr "1+1") RunCodeOptions.empty
       (demo_state healthy_server)).2
  /\ RateLimiter.request_timestamps
       (rate_limiter (self (run_code "ghost" (PStr "1+1") RunCodeOptions.empty
                              (demo_state healthy_server)).2))
     = [(demo_clock 2 * 1000)%Q].
Proof.
  destruct (not_found_consumes_a_slot "ghost" (PStr "1+1") RunCodeOptions.empty
              (demo_state healthy_server)) as [H _]; [reflexivity..|].
  split; [exact H | reflexivity].
Defined.

(** *** The metrics buffer *)

(** After 1001 samples the first has left the buffer. *)
Example buffer_drops_oldest :
  let samples := (fun n => inject_Z (Z.of_nat n)) <$> seq 0 1001 in
  let mc := run_calls (call_record_request true <$> samples)
              (MetricsCollector.__init__ 0) in
  length (MetricsCollector.response_times mc) = 1000%nat
  /\ head (MetricsCollector.response_times mc) = Some 1%Q
  /\ MetricsData.total_requests (MetricsCollector.metrics mc) = 1001.
Proof. vm_compute. repeat split. Qed.

(** Two samples, 100 ms and 200 ms: the average is 150 ms. *)
Lemma mean_of_two_samples :
  (MetricsData.average_response_time
     (MetricsCollector.metrics
        (run_calls [call_record_request true 100; call_record_request false 200]
           (MetricsCollector.__init__ 0)))
   == 150)%Q
  /\ (arithmetic_mean [100; 200] == 150)%Q.
Proof.
  destruct (metrics_counters_and_average 0
              [call_record_request true 100; call_record_request false 200])
    as (_ & _ & _ & _ & H & _).
  split; [|reflexivity]. rewrite H; [reflexivity | discriminate].
Defined.

(** C6 as stated fails: a sample recorded before a [reset] is one of the
    samples recorded, and it is not in the average. *)
Lemma reset_forgets_the_samples :
  all_samples [call_record_request true 100; call_reset 1] = [100%Q]
  /\ MetricsData.average_response_time
       (MetricsCollector.metrics
          (run_calls [call_record_request true 100; call_reset 1]
             (MetricsCollector.__init__ 0)))
     = 0%Q
  /\ ~ (0 == arithmetic_mean
               (last_n 1000 (all_samples [call_record_request true 100; call_reset 1])))%Q.
Proof. split; [reflexivity|]. split; [reflexivity|]. discriminate. Qed.

(** *** The life of a sandbox *)

Definition demo_options : pyval := PDict [("template_id", PStr "python-3.11")].

Definition demo_sandbox_dict : dict :=
  [("id", PStr "sb-1");
   ("template_config", PDict [("language", PStr "python")]);
   ("status", PStr "ready")].

Definition demo_context : dict :=
  [("id", PStr "ctx-1"); ("sandbox_id", PStr "sb-1"); ("language", PStr "python")].

(** A server that also creates contexts and runs commands. *)
Definition full_server (n : nat) (req : Request.t) : outcome :=
  match Request.path req with
  | ep_contexts _ => Responded (PDict demo_context)
  | ep_terminal _ => Responded (PDict [("output", PStr "hello")])
  | ep_files _ _ => Responded (PDict [("content", PStr "data"); ("path", PStr "/tmp/x")])
  | _ => healthy_server n req
  end.


Lemma first_sandbox_is_cached :
  (create_sandbox demo_options (demo_state healthy_server)).1
  = Ok (PDict [("sandbox", demo_sandbox)])
  /\ active_sandboxes (self (create_sandbox demo_options (demo_state healthy_server)).2)
     = <[KStr "sb-1" := demo_sandbox_dict]> ∅.
Proof.
  destruct (create_sandbox_caches_by_id demo_options (demo_state healthy_server)
              [("sandbox", demo_sandbox)] eq_refl eq_refl) as (_ & _ & _ & H & _).
  apply (H demo_sandbox_dict (PStr "sb-1") (KStr "sb-1"));
    [reflexivity | discriminate | reflexivity | reflexivity].
Defined.


Lemma context_is_cached_and_listed :
  (create_code_context "sb-1" PNone PNone None (with_sandbox full_server)).1
  = Ok (PDict demo_context)
  /\ demo_context
     ∈ listed_contexts "sb-1"
         (create_code_context "sb-1" PNone PNone None (with_sandbox full_server)).2.
Proof.
  destruct (create_code_context_caches_by_id "sb-1" PNone PNone None
              (with_sandbox full_server) demo_sandbox_dict (PStr "python")
              demo_context (PStr "ctx-1") (KStr "ctx-1")
              eq_refl eq_refl eq_refl eq_refl eq_refl) as (H1 & _ & _ & _ & _ & H6).
  split; [exact H1 | exact (H6 eq_refl)].
Defined.


(** *** Executions *)

Lemma two_plus_two :
  exists r,
    (run_code "sb-1" (PStr "2 + 2") RunCodeOptions.empty (with_sandbox healthy_server)).1
    = Ok r
    /\ Execution.text (ExecutionResult.execution r) = PStr "4"
    /\ ExecutionMetadata.execution_id (ExecutionResult.metadata r) = "uuid-0".
Proof.
  destruct (decode_execution demo_execution) as [e|] eqn:He; [|discriminate He].
  destruct (run_code_returns_the_execution "sb-1" (PStr "2 + 2") RunCodeOptions.empty
              (with_sandbox healthy_server) demo_sandbox_dict (PStr "python")
              demo_execution e eq_refl eq_refl eq_refl eq_refl He)
    as (r & H1 & H2 & _ & H4 & _).
  { repeat split. }
  exists r. split; [exact H1|]. rewrite H2, H4. injection He as <-.
  split; reflexivity.
Defined.

Lemma raising_observer_is_not_caught :
  (run_code "sb-1" (PStr "2 + 2") raising_observer (with_sandbox healthy_server)).1
  = Raise (PyError "ValueError" "")
  /\ Request.path
       <$> World.sent (world (run_code "sb-1" (PStr "2 + 2") raising_observer
                                (with_sandbox healthy_server)).2)
     = [ep_sandboxes_create; ep_execute "sb-1"].
Proof.
  destruct (decode_execution demo_execution) as [e|] eqn:He; [|discriminate He].
  injection He as He.
  destruct (observer_exception_leaves_run_code "sb-1" (PStr "2 + 2") raising_observer
              (with_sandbox healthy_server) demo_sandbox_dict (PStr "python")
              demo_execution e (fun _ => Raise (PyError "ValueError" ""))
              (Result.__init__ [("text", PStr "4"); ("is_main_result", PBool true)]
                 (PBool true))
              [] (PyError "ValueError" ""))
    as (H1 & H2 & _); try reflexivity.
  - now rewrite <- He.
  - now rewrite <- He.
  - split; [exact H1|]. rewrite H2. reflexivity.
Defined.

Lemma terminal_says_hello :
  (run_terminal "sb-1" (PStr "echo hello") RunCodeOptions.empty
     (with_sandbox full_server)).1
  = Ok (PStr "hello").
Proof.
  destruct (run_terminal_returns_the_output "sb-1" (PStr "echo hello")
              RunCodeOptions.empty (with_sandbox full_server) demo_sandbox_dict
              [("output", PStr "hello")] eq_refl eq_refl eq_refl) as (H1 & _).
  exact H1.
Defined.

Lemma file_is_read :
  (read_file "sb-1" "/tmp/x" (with_sandbox full_server)).1 = Ok (PStr "data")
  /\ (list_files "sb-1" "/tmp" (with_sandbox healthy_server)).1 = Ok (PDict []).
Proof.
  destruct (file_operations_read_the_answer "sb-1" (with_sandbox full_server)
              demo_sandbox_dict eq_refl) as (H1 & _).
  destruct (file_operations_read_the_answer "sb-1" (with_sandbox healthy_server)
              demo_sandbox_dict eq_refl) as (_ & _ & _ & H4 & _).
  split.
  - exact (H1 "/tmp/x" _ eq_refl).
  - exact (H4 "/tmp" _ eq_refl).
Defined.

(** A server whose sandboxes come without a template. *)
Definition bare_server (n : nat) (req : Request.t) : outcome :=
  match Request.path req with
  | ep_sandboxes_create =>
      Responded (PDict [("sandbox",
                         PDict [("id", PStr "sb-2"); ("template_config", PNone)])])
  | _ => healthy_server n req
  end.

Lemma bare_sandbox_cannot_run_code :
  run_code "sb-2" (PStr "2 + 2") RunCodeOptions.empty (with_sandbox bare_server)
  = (Raise (PyError "AttributeError" "'NoneType' object has no attribute 'get'"),
     let_through (with_sandbox bare_server))
  /\ Request.path <$> World.sent (world (let_through (with_sandbox bare_server)))
     = [ep_sandboxes_create].
Proof.
  destruct (template_config_must_be_a_dict "sb-2" (with_sandbox bare_server)
              [("id", PStr "sb-2"); ("template_config", PNone)] PNone
              eq_refl eq_refl) as (H & _ & _); [discriminate|].
  split; [|reflexivity].
  exact (H (PStr "2 + 2") RunCodeOptions.empty eq_refl).
Defined.

(** *** A timeout that [requests] refuses *)

(** A new SDK object whose configuration gives a timeout of 0. *)
Definition impatient_input : ConfigInput.t :=
  ConfigInput.mk (PStr "secret") (PStr "https://api.sandbox.example.com")
    (Some 0) None None None None None None.

Definition impatient_state : state :=
  mkState
    (mk (Config.mk "secret" "https://api.sandbox.example.com" 0 3 1000
           false "info" false 30000)
        ∅ ∅ (MetricsCollector.__init__ (demo_clock 0)) (RateLimiter.__init__ 60))
    (World.tick (demo_world healthy_server)).

Example impatient_state_constructed :
  __init__ impatient_input (demo_world healthy_server)
  = (Ok (self impatient_state), world impatient_state).
Proof. reflexivity. Qed.



Example zero_timeout_stops_every_request :
  raised (call (op_delete_sandbox "sb-1") impatient_state).1
  = raised (get_templates 1 10 impatient_state).1
  /\ World.sent (world (run_ops [op_delete_sandbox "sb-1"; op_get_template "t1";
                                  op_create_sandbox demo_options]
                          impatient_state))
     = [].
Proof. vm_compute. split; reflexivity. Qed.

(** *** Contexts behind a saturated limiter *)

(** With the limiter saturated, the two context operations still send
    their requests and return. *)
Example saturated_limiter_lets_contexts_through :
  let st := run_ops (repeat ghost_call 59) (with_sandbox full_server) in
  let created := create_code_context "sb-1" PNone PNone None st in
  let deleted := delete_code_context "ctx-1" created.2 in
  limiter_allows st = false
  /\ limiter_allows created.2 = false
  /\ created.1 = Ok (PDict demo_context)
  /\ deleted.1 = Ok tt
  /\ Request.path <$> World.sent (world deleted.2)
     = [ep_sandboxes_create; ep_contexts "sb-1"; ep_context (PStr "sb-1") "ctx-1"].
Proof. vm_compute. repeat split. Qed.

(** *** Histories *)

(** Templates listed, code run, a file read: the caches do not move. *)
Definition quiet_history : list op :=
  [op_get_templates 1 10;
   op_run_code "sb-1" (PStr "2 + 2") RunCodeOptions.empty;
   op_read_file "sb-1" "/tmp/x";
   op_execute_batch "sb-1" three_jobs RunCodeOptions.empty;
   op_list_sandboxes].

Lemma quiet_history_keeps_the_sandbox :
  active_sandboxes (self (run_ops quiet_history (with_sandbox flaky_server)))
  = active_sandboxes (self (with_sandbox flaky_server))
  /\ active_contexts (self (run_ops quiet_history (with_sandbox flaky_server)))
     = active_contexts (self (with_sandbox flaky_server)).
Proof.
  apply (other_operations_leave_the_caches quiet_history (with_sandbox flaky_server)).
  repeat constructor.
Defined.

(** A request that times out has used its slot. *)
Lemma timed_out_call_uses_a_slot :
  raised (call (op_run_code "sb-1" (PStr "2 + 2") RunCodeOptions.empty)
            (with_sandbox stalling_server)).1
  = Some (TimeoutError "Request timeout after Nonems")
  /\ RateLimiter.request_timestamps
       (rate_limiter
          (self (call (op_run_code "sb-1" (PStr "2 + 2") RunCodeOptions.empty)
                   (with_sandbox stalling_server)).2))
     = [(demo_clock 2 * 1000)%Q; (demo_clock 6 * 1000)%Q].
Proof.
  destruct (gated_operation_uses_a_slot
              (op_run_code "sb-1" (PStr "2 + 2") RunCodeOptions.empty)
              (with_sandbox stalling_server) eq_refl eq_refl) as [_ H].
  split; [reflexivity|]. rewrite H. reflexivity.
Defined.

(** *** The limiter on its own *)

(** A limiter of two, passes at 0 s, 1 s, 2 s, 60 s and 61 s: the third is
    rejected, and no minute holds more than two of the four recorded. *)
Definition five_passes : list (Q * Q) :=
  [(0, 0); (1, 1); (2, 2); (60, 60); (61, 61)]%Q.

Lemma two_per_minute :
  recorded_by five_passes (RateLimiter.__init__ 2) = [0; 1000; 60000; 61000]%Q
  /\ count_in_window 60000 (recorded_by five_passes (RateLimiter.__init__ 2)) <= 2.
Proof.
  destruct at_most_max_requests_per_window as [_ H].
  split; [reflexivity|].
  apply (H 2 0%Q five_passes 60000%Q).
  cbn. unfold Qle. cbn. lia.
Defined.

End Scenarios.
